(** * flowkit: client facades for Jira, Confluence, Google Sheets and Drive

    A shallow embedding of the Python sources under [src/] and the
    properties of the specification that can be stated over it.

    Python [str] values are lists of characters; an operation that can
    raise returns a [result]; operations that talk to a vendor or to the
    file system take the outcome of each external call from an
    environment, so that a theorem quantified over the environment holds
    for every behaviour of the collaborators. *)

From Stdlib Require Import List String Ascii Bool Arith ZArith Lia.
Import ListNotations.

Set Implicit Arguments.

(** ** Strings *)

Definition str := list ascii.

(** A Python string literal. *)
Definition lit (s : string) : str := list_ascii_of_string s.

(** The double quote character, as a string. *)
Definition dquote : str := [ascii_of_nat 34].

(** [s.startswith(p)] *)
Fixpoint starts_with (p s : str) : bool :=
  match p, s with
  | [], _ => true
  | a :: p', b :: s' => Ascii.eqb a b && starts_with p' s'
  | _ :: _, [] => false
  end.

(** [needle in hay] *)
Fixpoint contains (needle hay : str) : bool :=
  starts_with needle hay ||
  match hay with
  | [] => false
  | _ :: hay' => contains needle hay'
  end.

(** The rest of [s] after the prefix [p], when [s] starts with [p]. *)
Fixpoint strip (p s : str) : option str :=
  match p, s with
  | [], _ => Some s
  | a :: p', b :: s' => if Ascii.eqb a b then strip p' s' else None
  | _ :: _, [] => None
  end.

(** The longest prefix of [s] whose characters satisfy [f]. *)
Fixpoint take_while (f : ascii -> bool) (s : str) : str :=
  match s with
  | [] => []
  | c :: s' => if f c then c :: take_while f s' else []
  end.

(** ** Exceptions *)

(** The exceptions the facades meet, all of them subclasses of Python's
    [Exception]; [KeyboardInterrupt] and [SystemExit] derive from
    [BaseException] only and are not values of this type.  Each carries
    the text that [str(e)] shows. *)
Inductive exn : Type :=
| ValueError (msg : str)
| FileNotFoundError (msg : str)
| HttpError (status : Z) (msg : str)
| JIRAError (msg : str)
| OtherError (msg : str).

Definition exn_str (e : exn) : str :=
  match e with
  | ValueError m | FileNotFoundError m | HttpError _ m
  | JIRAError m | OtherError m => m
  end.

Inductive result (A : Type) : Type :=
| Ret (a : A)
| Raise (e : exn).

Arguments Ret {A} a.
Arguments Raise {A} e.

(** ** Regular expressions of [Drive.extract_id]

    Every pattern of [extract_id] is a sequence of literal pieces followed
    by the capturing group [([a-zA-Z0-9-_]+)], which ends the pattern. *)

Inductive atom : Type :=
| Str (s : string)            (* a literal *)
| Alt (alts : list string)    (* (?:a|b|...) *)
| AnyOf (chars : string).     (* [...] of single characters *)

Definition pattern := list atom.

Definition in_range (lo hi c : ascii) : bool :=
  (nat_of_ascii lo <=? nat_of_ascii c) && (nat_of_ascii c <=? nat_of_ascii hi).

(** The class [[a-zA-Z0-9-_]]: the three ranges, the hyphen and the
    underscore. *)
Definition id_char (c : ascii) : bool :=
  in_range "a" "z" c || in_range "A" "Z" c || in_range "0" "9" c ||
  Ascii.eqb c "-" || Ascii.eqb c "_".

Definition option_list (A : Type) (o : option A) : list A :=
  match o with
  | Some a => [a]
  | None => []
  end.

(** The remainders of [s] after one atom, in the order the backtracking
    matcher tries them. *)
Definition match_atom (a : atom) (s : str) : list str :=
  match a with
  | Str t => option_list (strip (lit t) s)
  | Alt ts => flat_map (fun t => option_list (strip (lit t) s)) ts
  | AnyOf cs =>
      match s with
      | c :: s' => if existsb (Ascii.eqb c) (lit cs) then [s'] else []
      | [] => []
      end
  end.

Fixpoint match_lead (p : pattern) (s : str) : list str :=
  match p with
  | [] => [s]
  | a :: p' => flat_map (match_lead p') (match_atom a s)
  end.

(** The group after the lead: greedy, at least one character, and nothing
    follows it in the pattern. *)
Fixpoint first_group (rs : list str) : option str :=
  match rs with
  | [] => None
  | r :: rs' =>
      match take_while id_char r with
      | [] => first_group rs'
      | g => Some g
      end
  end.

(** A match of the pattern that starts at the first character of [s];
    the value is [match.group(1)]. *)
Definition match_at (p : pattern) (s : str) : option str :=
  first_group (match_lead p s).

(** [re.search(pattern, s)]: the leftmost match. *)
Fixpoint re_search (p : pattern) (s : str) : option str :=
  match match_at p s with
  | Some g => Some g
  | None =>
      match s with
      | [] => None
      | _ :: s' => re_search p s'
      end
  end.

(** ** Python values, effects and the exception monad *)

(** The values exchanged with the vendors: JSON payloads, arguments of
    calls, interpolated values of printed lines. *)
#[warnings="-register-all"]
Inductive json : Type :=
| JNull
| JBool (b : bool)
| JInt (z : Z)
| JStr (s : str)
| JList (l : list json)
| JDict (kv : list (str * json)).

(** What an operation does to the outside, in the order it does it: a
    printed line (the f-string and the values interpolated in it) or a
    call of a collaborator. *)
Inductive event : Type :=
| Print (fmt : string) (args : list json)
| Call (target : string) (args : list json).

(** The object an operation runs on, the files it can see and the trace
    of what it has done so far. *)
Record state (Self : Type) : Type := State {
  self : Self;
  files : str -> option str;
  trace : list event
}.

Arguments State {Self} self files trace.

(** The outcome of a call of a collaborator: it returns or raises, and
    may depend on everything done before. *)
Definition oracle (A : Type) : Type := list event -> result A.

Definition M (Self A : Type) : Type := state Self -> result A * state Self.

Definition ret {Self A : Type} (a : A) : M Self A :=
  fun st => (Ret a, st).

Definition raise {Self A : Type} (e : exn) : M Self A :=
  fun st => (Raise e, st).

Definition bind {Self A B : Type} (m : M Self A) (k : A -> M Self B)
  : M Self B :=
  fun st =>
    match m st with
    | (Ret a, st') => k a st'
    | (Raise e, st') => (Raise e, st')
    end.

Declare Scope py_scope.
Delimit Scope py_scope with py.
Notation "x <- m ;; k" := (bind m (fun x => k))
  (at level 61, m at next level, right associativity) : py_scope.
Notation "m ;; k" := (bind m (fun _ => k))
  (at level 61, right associativity) : py_scope.
Open Scope py_scope.

(** [try: body  except ...: handler]; the handler sees the exception and
    decides by its class, re-raising what no clause catches. *)
Definition try_except {Self A : Type} (body : M Self A)
           (handler : exn -> M Self A) : M Self A :=
  fun st =>
    match body st with
    | (Ret a, st') => (Ret a, st')
    | (Raise e, st') => handler e st'
    end.

Definition emit {Self : Type} (ev : event) : M Self unit :=
  fun st => (Ret tt, State (self st) (files st) (trace st ++ [ev])).

Definition print {Self : Type} (fmt : string) (args : list json)
  : M Self unit :=
  emit (Print fmt args).

(** A call of a collaborator: it is recorded, and its outcome is the
    environment's. *)
Definition vendor {Self A : Type} (target : string) (args : list json)
           (o : oracle A) : M Self A :=
  fun st =>
    (o (trace st), State (self st) (files st) (trace st ++ [Call target args])).

Definition lift {Self A : Type} (r : result A) : M Self A :=
  fun st => (r, st).

Definition get_self {Self : Type} : M Self Self :=
  fun st => (Ret (self st), st).

Definition set_self {Self : Type} (s : Self) : M Self unit :=
  fun st => (Ret tt, State s (files st) (trace st)).

(** Truth value of an optional string: [None] and [''] are false. *)
Definition truthy (o : option str) : bool :=
  match o with
  | Some (_ :: _) => true
  | _ => false
  end.

Definition opt_json (o : option str) : json :=
  match o with
  | Some s => JStr s
  | None => JNull
  end.

(** Truth value of a vendor value. *)
Definition json_truthy (v : json) : bool :=
  match v with
  | JNull => false
  | JBool b => b
  | JInt z => negb (z =? 0)%Z
  | JStr s => negb (Nat.eqb (List.length s) 0)
  | JList l => negb (Nat.eqb (List.length l) 0)
  | JDict kv => negb (Nat.eqb (List.length kv) 0)
  end.

(** [sep.join(parts)] *)
Fixpoint join (sep : str) (parts : list str) : str :=
  match parts with
  | [] => []
  | [p] => p
  | p :: ps => p ++ sep ++ join sep ps
  end.

(** [d.get(key, default)]; anything but a dict has no [get]. *)
Fixpoint assoc (key : str) (kv : list (str * json)) : option json :=
  match kv with
  | [] => None
  | (k, v) :: kv' =>
      if starts_with k key && starts_with key k then Some v else assoc key kv'
  end.

Definition dict_get (d : json) (key : string) (default : json) : result json :=
  match d with
  | JDict kv =>
      match assoc (lit key) kv with
      | Some v => Ret v
      | None => Ret default
      end
  | _ => Raise (OtherError (lit "AttributeError: object has no attribute 'get'"))
  end.

(** [d[key]] *)
Definition dict_item (d : json) (key : string) : result json :=
  match d with
  | JDict kv =>
      match assoc (lit key) kv with
      | Some v => Ret v
      | None => Raise (OtherError (lit "KeyError"))
      end
  | _ => Raise (OtherError (lit "TypeError: object is not subscriptable"))
  end.

(** [len(v)] *)
Definition json_len (v : json) : result nat :=
  match v with
  | JList l => Ret (List.length l)
  | JDict kv => Ret (List.length kv)
  | JStr s => Ret (List.length s)
  | _ => Raise (OtherError (lit "TypeError: object has no len()"))
  end.

(** [v[i]] for a position [i] *)
Definition json_item (v : json) (i : nat) : result json :=
  match v with
  | JList l =>
      match nth_error l i with
      | Some x => Ret x
      | None => Raise (OtherError (lit "IndexError: list index out of range"))
      end
  | JStr s =>
      match nth_error s i with
      | Some c => Ret (JStr [c])
      | None => Raise (OtherError (lit "IndexError: string index out of range"))
      end
  | JDict _ => Raise (OtherError (lit "KeyError"))
  | _ => Raise (OtherError (lit "TypeError: object is not subscriptable"))
  end.

(** The elements a [for] loop or [len] sees in a vendor value. *)
Definition elements (v : json) : result (list json) :=
  match v with
  | JList l => Ret l
  | JDict kv => Ret (map (fun p => JStr (fst p)) kv)
  | JStr s => Ret (map (fun c => JStr [c]) s)
  | _ => Raise (OtherError (lit "TypeError: object is not iterable"))
  end.

(** A vendor HTTP response; [body] is what [response.json()] gives. *)
Record response : Type := Response {
  status_code : Z;
  text : str;
  body : result json
}.

(** [for x in xs: ys.append(f(x))] *)
Fixpoint for_each {Self A B : Type} (f : A -> M Self B) (xs : list A)
  : M Self (list B) :=
  match xs with
  | [] => ret []
  | x :: xs' => y <- f x ;; ys <- for_each f xs' ;; ret (y :: ys)
  end.

(** The operation came back with a value: no exception crossed it. *)
Definition returns {Self A : Type} (m : M Self A) (st : state Self) : Prop :=
  exists a st', m st = (Ret a, st').

(** What a facade operation hands to its caller: the value of a read
    (Python's [None], which is [JNull], on failure) or the boolean of a
    mutation. *)
Inductive answer : Type :=
| Value (v : json)
| Done (b : bool).

Definition value_of {Self : Type} (m : M Self json) : M Self answer :=
  v <- m ;; ret (Value v).

Definition done_of {Self : Type} (m : M Self bool) : M Self answer :=
  b <- m ;; ret (Done b).


Definition str_eqb (a b : str) : bool := starts_with a b && starts_with b a.

(** [os.path.exists(path)] *)
Definition path_exists {Self : Type} (path : str) : M Self bool :=
  fun st =>
    (Ret (match files st path with Some _ => true | None => false end), st).

Definition file_content {Self : Type} (path : str) : M Self str :=
  fun st =>
    (Ret (match files st path with Some c => c | None => [] end), st).

(** The file at [path] now holds [content]. *)
Definition store_file {Self : Type} (path content : str) : M Self unit :=
  fun st =>
    (Ret tt,
     State (self st)
           (fun p => if str_eqb p path then Some content else files st p)
           (trace st)).

(** A collaborator that answers [r] whenever it is called. *)
Definition always {A : Type} (o : oracle A) (r : result A) : Prop :=
  forall tr, o tr = r.

(** An f-string whose rendering is left to Python: the template and the
    interpolated values. *)
Definition fstring (fmt : string) (args : list json) : json :=
  JList (JStr (lit fmt) :: args).

(** Runs a method on another object and gives back its result and the
    object as the method left it. *)
Definition on_object {Self Obj A : Type} (obj : Obj) (m : M Obj A)
  : M Self (A * Obj) :=
  fun st =>
    match m (State obj (files st) (trace st)) with
    | (Ret a, st') =>
        (Ret (a, self st'), State (self st) (files st') (trace st'))
    | (Raise e, st') => (Raise e, State (self st) (files st') (trace st'))
    end.

(** [s.lower().strip()] on ASCII text. *)
Definition lower_char (c : ascii) : ascii :=
  if in_range "A" "Z" c then ascii_of_nat (nat_of_ascii c + 32) else c.

Definition is_space (c : ascii) : bool :=
  let n := nat_of_ascii c in
  Nat.eqb n 32 || ((9 <=? n) && (n <=? 13)) || ((28 <=? n) && (n <=? 31)).

Fixpoint lstrip (s : str) : str :=
  match s with
  | c :: s' => if is_space c then lstrip s' else s
  | [] => []
  end.

Definition strip_spaces (s : str) : str := rev (lstrip (rev (lstrip s))).

Definition lower (s : str) : str := map lower_char s.

(** [s.split('.')[-1]] *)
Fixpoint after_last_dot (s : str) : str :=
  match s with
  | [] => []
  | c :: s' =>
      if existsb (Ascii.eqb ".") s' then after_last_dot s'
      else if Ascii.eqb c "." then s' else c :: s'
  end.

(** [s.rstrip('/')] *)
Definition rstrip_slash (s : str) : str :=
  rev (let fix drop (r : str) : str :=
         match r with
         | c :: r' => if Ascii.eqb c "/" then drop r' else r
         | [] => []
         end in drop (rev s)).

(** [l[:stop]] for any integer [stop]: a negative one counts from the
    end, and a position outside the list is clipped to it. *)
Definition slice_to {A : Type} (stop : Z) (l : list A) : list A :=
  if (stop <? 0)%Z
  then firstn (Z.to_nat (Z.of_nat (List.length l) + stop)) l
  else firstn (Z.to_nat stop) l.

(** [s.rsplit(' ', 1)[0]]: what stands before the last space, or the
    whole of [s] when it has none. *)
Fixpoint before_last_space (s : str) : str :=
  match s with
  | [] => []
  | c :: s' =>
      if existsb (Ascii.eqb " ") s' then c :: before_last_space s'
      else if Ascii.eqb c " " then [] else c :: s'
  end.

(** The class [\s] of [re] on a [str]: the characters of [is_space] and,
    past ASCII, the next-line and no-break-space characters. *)
Definition re_space (c : ascii) : bool :=
  is_space c || Nat.eqb (nat_of_ascii c) 133 || Nat.eqb (nat_of_ascii c) 160.

(** ** The OAuth credential lifecycle of gutils/sheet.py and gutils/drive.py *)

Module Google.

(** What the code reads of a [google.oauth2.credentials.Credentials]
    object: the access token, whether it is past its expiry, the refresh
    token, and the text [to_json()] gives. *)
Record credentials : Type := Credentials {
  token : option str;
  expired : bool;
  refresh_token : option str;
  to_json : str
}.

(** [creds.valid]: a token is there and it has not expired. *)
Definition valid (c : credentials) : bool :=
  match token c with
  | Some _ => negb (expired c)
  | None => false
  end.

(** A client built by [googleapiclient.discovery.build]. *)
Record service : Type := Client {
  api : string;
  version : string;
  client_credentials : credentials
}.

(** The collaborators: the Google auth and API client libraries, the
    file system for the token file, and the console for [input]. *)
Record env : Type := Env {
  from_authorized_user_file : str -> str -> json -> oracle credentials;
  refresh : credentials -> oracle credentials;
  from_client_secrets_file : str -> json -> oracle unit;
  run_local_server : oracle credentials;
  open_w : str -> oracle unit;
  file_write : str -> str -> oracle unit;
  build : string -> string -> credentials -> oracle unit;
  execute : service -> string -> list json -> oracle json;
  input : oracle str
}.

(** [try: if os.path.exists(token_file): creds = Credentials.from_authorized_user_file(...)]
    with its handler, which warns and goes on without credentials. *)
Definition load_token {Self : Type} (e : env) (scopes : json)
           (token_file : str) : M Self (option credentials) :=
  try_except
    (present <- path_exists token_file ;;
     if present then
       content <- file_content token_file ;;
       creds <- vendor "Credentials.from_authorized_user_file"
                  [JStr token_file; scopes]
                  (from_authorized_user_file e token_file content scopes) ;;
       ret (Some creds)
     else ret None)
    (fun ex =>
       print "Warning: Could not load existing token: {}" [JStr (exn_str ex)] ;;
       ret None).

(** [if creds and creds.expired and creds.refresh_token: try: creds.refresh(Request())]
    with its handler, which drops the credential. *)
Definition refresh_expired {Self : Type} (e : env)
           (creds : option credentials) : M Self (option credentials) :=
  match creds with
  | Some c =>
      if expired c && truthy (refresh_token c) then
        try_except
          (c' <- vendor "creds.refresh" [] (refresh e c) ;;
           ret (Some c'))
          (fun ex =>
             print "Error refreshing credentials: {}" [JStr (exn_str ex)] ;;
             ret None)
      else ret (Some c)
  | None => ret None
  end.

(** [if not creds: try: flow = ...; creds = flow.run_local_server(port=0)];
    both handlers leave the enclosing function with its failure
    sentinel, which is the [None] here. *)
Definition consent {Self : Type} (e : env) (scopes : json)
           (credentials_file : str) (creds : option credentials)
  : M Self (option credentials) :=
  match creds with
  | Some c => ret (Some c)
  | None =>
      try_except
        (vendor "InstalledAppFlow.from_client_secrets_file"
                [JStr credentials_file; scopes]
                (from_client_secrets_file e credentials_file scopes) ;;
         c <- vendor "flow.run_local_server" [] (run_local_server e) ;;
         ret (Some c))
        (fun ex =>
           match ex with
           | FileNotFoundError _ =>
               print "Error: Credentials file '{}' not found."
                     [JStr credentials_file] ;;
               print "Please download your OAuth2 credentials from Google Cloud Console." [] ;;
               ret None
           | _ =>
               print "Error during authentication: {}" [JStr (exn_str ex)] ;;
               ret None
           end)
  end.

(** [try: with open(token_file, 'w') as token: token.write(creds.to_json())]
    with its handler, which warns and goes on.  Opening for writing
    empties the file. *)
Definition save_token {Self : Type} (e : env) (token_file : str)
           (c : credentials) : M Self unit :=
  try_except
    (vendor "open" [JStr token_file; JStr (lit "w")] (open_w e token_file) ;;
     store_file token_file [] ;;
     vendor "token.write" [JStr (to_json c)]
            (file_write e token_file (to_json c)) ;;
     store_file token_file (to_json c))
    (fun ex =>
       print "Warning: Could not save token: {}" [JStr (exn_str ex)]).

(** The block every authenticating operation starts with
    (sheet.py 71-110, 182-221, 288-327, 379-418; drive.py 103-142).
    [None] stands for the [return] of the failure sentinel inside the
    consent handlers; otherwise the credential the operation goes on
    with. *)
Definition credential_lifecycle {Self : Type} (e : env) (scopes : json)
           (credentials_file token_file : str)
  : M Self (option credentials) :=
  creds <- load_token e scopes token_file ;;
  if match creds with Some c => negb (valid c) | None => true end then
    creds <- refresh_expired e creds ;;
    creds <- consent e scopes credentials_file creds ;;
    match creds with
    | Some c => save_token e token_file c ;; ret (Some c)
    | None => ret None
    end
  else ret creds.

End Google.

(** ** gutils/drive.py *)

Module Drive.

(** The [patterns] list of [extract_id], in the order of the source. *)
Definition patterns : list pattern :=
  [ [Str "/"; Alt ["spreadsheets"; "document"; "presentation"; "forms"];
     Str "/d/"];
    [Str "/file/d/"];
    [AnyOf "?&"; Str "id="];
    [Str "/d/"];
    [Str "id="] ]%string.

(** [for pattern in patterns: match = re.search(...); if match: return] *)
Fixpoint first_match (ps : list pattern) (s : str) : option str :=
  match ps with
  | [] => None
  | p :: ps' =>
      match re_search p s with
      | Some g => Some g
      | None => first_match ps' s
      end
  end.

Definition has_host_marker (s : str) : bool :=
  contains (lit "google.com") s ||
  contains (lit "drive.google.com") s ||
  contains (lit "docs.google.com") s.

Definition extract_id (url_or_id : str) : result str :=
  if negb (has_host_marker url_or_id) then Ret url_or_id
  else
    match first_match patterns url_or_id with
    | Some g => Ret g
    | None =>
        Raise (ValueError
                 (lit "Could not extract file ID from URL: " ++ url_or_id))
    end.

Definition SCOPES : json :=
  JList [JStr (lit "https://www.googleapis.com/auth/drive")].

Definition mime_types : list (str * str) :=
  [(lit "spreadsheet", lit "application/vnd.google-apps.spreadsheet");
   (lit "document", lit "application/vnd.google-apps.document");
   (lit "presentation", lit "application/vnd.google-apps.presentation");
   (lit "form", lit "application/vnd.google-apps.form");
   (lit "folder", lit "application/vnd.google-apps.folder")].

Fixpoint lookup (key : str) (table : list (str * str)) : option str :=
  match table with
  | [] => None
  | (k, v) :: table' => if str_eqb k key then Some v else lookup key table'
  end.

(** [file.get('mimeType', 'Unknown type').split('.')[-1]] *)
Definition type_desc (file : json) : result json :=
  match dict_get file "mimeType" (JStr (lit "Unknown type")) with
  | Ret (JStr t) => Ret (JStr (after_last_dot t))
  | Ret _ => Raise (OtherError (lit "AttributeError: object has no attribute 'split'"))
  | Raise ex => Raise ex
  end.

(** [f" {file_type}" if file_type else ""] *)
Definition file_type_str (file_type : option str) : json :=
  match file_type with
  | Some (c :: x) => JStr (lit " " ++ c :: x)
  | _ => JStr []
  end.

(** The [try] block of [find_by_name] (lines 144-197): the search and
    the three outcomes by the number of files found. *)
Definition search_by_name {Self : Type} (e : Google.env)
           (creds : Google.credentials) (name : str)
           (file_type : option str) : M Self json :=
  try_except
    (vendor "build" [JStr (lit "drive"); JStr (lit "v3")]
            (Google.build e "drive" "v3" creds) ;;
     let drive_service := Google.Client "drive" "v3" creds in
     let query := lit "name='" ++ name ++ lit "' and trashed=false" in
     query <-
       match file_type with
       | Some (c :: x) =>
           match lookup (c :: x) mime_types with
           | Some mime => ret (query ++ lit " and mimeType='" ++ mime ++ lit "'")
           | None =>
               print "Warning: Unknown file type '{}'. Searching all file types."
                     [JStr (c :: x)] ;;
               ret query
           end
       | _ => ret query
       end ;;
     results <- vendor "files.list"
                  [JStr query;
                   JStr (lit "files(id, name, mimeType, webViewLink)")]
                  (Google.execute e drive_service "files.list"
                     [JStr query;
                      JStr (lit "files(id, name, mimeType, webViewLink)")]) ;;
     files <- lift (dict_get results "files" (JList [])) ;;
     if negb (json_truthy files) then
       print "✗ No{} file found with name: '{}'"
             [file_type_str file_type; JStr name] ;;
       ret JNull
     else
       n <- lift (json_len files) ;;
       if (n =? 1)%nat then
         file <- lift (json_item files 0) ;;
         file_id <- lift (dict_item file "id") ;;
         file_type_desc <- lift (type_desc file) ;;
         print "✓ Found unique file: '{}' (ID: {}, Type: {})"
               [JStr name; file_id; file_type_desc] ;;
         ret file_id
       else
         print "✗ Multiple{} files found with name: '{}'"
               [file_type_str file_type; JStr name] ;;
         print "Found files:" [] ;;
         items <- lift (elements files) ;;
         for_each
           (fun file =>
              file_type_desc <- lift (type_desc file) ;;
              file_name <- lift (dict_item file "name") ;;
              file_id <- lift (dict_item file "id") ;;
              print "  - {} (ID: {}, Type: {})"
                    [file_name; file_id; file_type_desc])
           items ;;
         print "Please use a more specific name or use the file ID directly." [] ;;
         ret JNull)
    (fun ex =>
       match ex with
       | HttpError status _ =>
           print "HTTP Error {}: {}" [JInt status; JStr (exn_str ex)] ;;
           ret JNull
       | _ =>
           print "An error occurred: {}" [JStr (exn_str ex)] ;;
           ret JNull
       end).

Definition find_by_name {Self : Type} (e : Google.env) (name : str)
           (file_type : option str) (credentials_file token_file : str)
  : M Self json :=
  creds <- Google.credential_lifecycle e SCOPES credentials_file token_file ;;
  match creds with
  | None => ret JNull
  | Some c => search_by_name e c name file_type
  end.

End Drive.

(** ** gutils/sheet.py *)

Module GoogleSheets.

Definition SCOPES : json :=
  JList [JStr (lit "https://www.googleapis.com/auth/spreadsheets");
         JStr (lit "https://www.googleapis.com/auth/drive")].

Record sheets : Type := Sheets {
  spreadsheet_id : str;
  credentials_file : str;
  token_file : str;
  service : option Google.service
}.

(** [GoogleSheets.__init__]: nothing stands between [Drive.extract_id]
    and the caller. *)
Definition init (spreadsheet_id credentials_file token_file : str)
  : result sheets :=
  match Drive.extract_id spreadsheet_id with
  | Ret id => Ret (Sheets id credentials_file token_file None)
  | Raise ex => Raise ex
  end.

(** The two handlers every [try] of this class ends with. *)
Definition http_handlers {Self A : Type} (sentinel : A) (ex : exn)
  : M Self A :=
  match ex with
  | HttpError status _ =>
      print "HTTP Error {}: {}" [JInt status; JStr (exn_str ex)] ;;
      ret sentinel
  | _ =>
      print "An error occurred: {}" [JStr (exn_str ex)] ;;
      ret sentinel
  end.

Definition create_spreadsheet {Self : Type} (e : Google.env) (title : str)
           (credentials_file token_file : str) : M Self json :=
  creds <- Google.credential_lifecycle e SCOPES credentials_file token_file ;;
  match creds with
  | None => ret JNull
  | Some c =>
      try_except
        (vendor "build" [JStr (lit "sheets"); JStr (lit "v4")]
                (Google.build e "sheets" "v4" c) ;;
         let service := Google.Client "sheets" "v4" c in
         let spreadsheet_body :=
           JDict [(lit "properties", JDict [(lit "title", JStr title)])] in
         response <- vendor "spreadsheets.create" [spreadsheet_body]
                       (Google.execute e service "spreadsheets.create"
                                       [spreadsheet_body]) ;;
         spreadsheet_id <- lift (dict_get response "spreadsheetId" JNull) ;;
         spreadsheet_url <- lift (dict_get response "spreadsheetUrl" JNull) ;;
         print "✓ Successfully created spreadsheet: '{}'" [JStr title] ;;
         print "📄 Spreadsheet ID: {}" [spreadsheet_id] ;;
         print "🔗 URL: {}" [spreadsheet_url] ;;
         ret spreadsheet_id)
        (http_handlers JNull)
  end.

Definition authenticate (e : Google.env) : M sheets bool :=
  slf <- get_self ;;
  creds <- Google.credential_lifecycle e SCOPES (credentials_file slf)
                                       (token_file slf) ;;
  match creds with
  | None => ret false
  | Some c =>
      try_except
        (vendor "build" [JStr (lit "sheets"); JStr (lit "v4")]
                (Google.build e "sheets" "v4" c) ;;
         set_self (Sheets (spreadsheet_id slf) (credentials_file slf)
                          (token_file slf)
                          (Some (Google.Client "sheets" "v4" c))) ;;
         ret true)
        (fun ex =>
           print "Error building service: {}" [JStr (exn_str ex)] ;;
           ret false)
  end.

(** [create_and_get_instance]: the instance is constructed outside any
    [try].  An ID that is not a string is outside the [str] interface
    of [extract_id]; Python fails on it with a [TypeError]. *)
Definition create_and_get_instance {Self : Type} (e : Google.env)
           (title credentials_file token_file : str)
  : M Self (option sheets) :=
  spreadsheet_id <- create_spreadsheet e title credentials_file token_file ;;
  if json_truthy spreadsheet_id then
    instance <-
      lift (match spreadsheet_id with
            | JStr s => init s credentials_file token_file
            | _ => Raise (OtherError (lit "TypeError"))
            end) ;;
    r <- on_object instance (authenticate e) ;;
    if fst r then ret (Some (snd r))
    else
      print "Error: Failed to authenticate with the newly created spreadsheet" [] ;;
      ret None
  else ret None.

(** The [try] block of [find_spreadsheet_by_name] (lines 223-255). *)
Definition search_spreadsheet {Self : Type} (e : Google.env)
           (creds : Google.credentials) (name : str) : M Self json :=
  try_except
    (vendor "build" [JStr (lit "drive"); JStr (lit "v3")]
            (Google.build e "drive" "v3" creds) ;;
     let drive_service := Google.Client "drive" "v3" creds in
     let query :=
       lit "name='" ++ name ++
       lit "' and mimeType='application/vnd.google-apps.spreadsheet' and trashed=false" in
     results <- vendor "files.list"
                  [JStr query; JStr (lit "files(id, name)")]
                  (Google.execute e drive_service "files.list"
                     [JStr query; JStr (lit "files(id, name)")]) ;;
     files <- lift (dict_get results "files" (JList [])) ;;
     if negb (json_truthy files) then
       print "✗ No spreadsheet found with name: '{}'" [JStr name] ;;
       ret JNull
     else
       n <- lift (json_len files) ;;
       if (n =? 1)%nat then
         file <- lift (json_item files 0) ;;
         spreadsheet_id <- lift (dict_item file "id") ;;
         print "✓ Found unique spreadsheet: '{}' (ID: {})"
               [JStr name; spreadsheet_id] ;;
         ret spreadsheet_id
       else
         print "✗ Multiple spreadsheets found with name: '{}'" [JStr name] ;;
         print "Found spreadsheets:" [] ;;
         items <- lift (elements files) ;;
         for_each
           (fun file =>
              file_name <- lift (dict_item file "name") ;;
              file_id <- lift (dict_item file "id") ;;
              print "  - {} (ID: {})" [file_name; file_id])
           items ;;
         print "Please use a more specific name or use the spreadsheet ID directly." [] ;;
         ret JNull)
    (http_handlers JNull).

Definition find_spreadsheet_by_name {Self : Type} (e : Google.env)
           (name credentials_file token_file : str) : M Self json :=
  creds <- Google.credential_lifecycle e SCOPES credentials_file token_file ;;
  match creds with
  | None => ret JNull
  | Some c => search_spreadsheet e c name
  end.

(** The [try] block of [delete_spreadsheet] (lines 329-370). *)
Definition delete_file {Self : Type} (e : Google.env)
           (creds : Google.credentials) (spreadsheet_id : json)
  : M Self bool :=
  try_except
    (vendor "build" [JStr (lit "drive"); JStr (lit "v3")]
            (Google.build e "drive" "v3" creds) ;;
     let drive_service := Google.Client "drive" "v3" creds in
     file_name <-
       try_except
         (file_info <- vendor "files.get" [spreadsheet_id; JStr (lit "name")]
                         (Google.execute e drive_service "files.get"
                            [spreadsheet_id; JStr (lit "name")]) ;;
          file_name <- lift (dict_get file_info "name" (JStr (lit "Unknown"))) ;;
          ret (Some file_name))
         (fun ex =>
            match ex with
            | HttpError status _ =>
                if (status =? 404)%Z then
                  print "✗ Spreadsheet with ID '{}' not found" [spreadsheet_id] ;;
                  ret None
                else raise ex
            | _ => raise ex
            end) ;;
     match file_name with
     | None => ret false
     | Some file_name =>
         print "⚠️  WARNING: You are about to delete the spreadsheet:" [] ;;
         print "   Name: {}" [file_name] ;;
         print "   ID: {}" [spreadsheet_id] ;;
         answer <- vendor "input"
                     [JStr (lit "Are you sure you want to delete this spreadsheet? (yes/no): ")]
                     (Google.input e) ;;
         let confirmation := strip_spaces (lower answer) in
         if negb (str_eqb confirmation (lit "yes")
                  || str_eqb confirmation (lit "y")) then
           print "❌ Deletion cancelled by user" [] ;;
           ret false
         else
           vendor "files.delete" [spreadsheet_id]
                  (Google.execute e drive_service "files.delete"
                                  [spreadsheet_id]) ;;
           print "✅ Successfully deleted spreadsheet: '{}' (ID: {})"
                 [file_name; spreadsheet_id] ;;
           ret true
     end)
    (http_handlers false).

Definition delete_spreadsheet {Self : Type} (e : Google.env)
           (spreadsheet_id name : option str)
           (credentials_file token_file : str) : M Self bool :=
  if negb (truthy spreadsheet_id) && negb (truthy name) then
    print "Error: Either spreadsheet_id or name must be provided" [] ;;
    ret false
  else
    (if truthy spreadsheet_id && truthy name then
       print "Warning: Both spreadsheet_id and name provided. Using spreadsheet_id." []
     else ret tt) ;;
    found <-
      (if negb (truthy spreadsheet_id) && truthy name then
         id <- find_spreadsheet_by_name
                 e (match name with Some n => n | None => [] end)
                 credentials_file token_file ;;
         if negb (json_truthy id) then
           print "Cannot delete: Spreadsheet '{}' not found or multiple matches exist"
                 [opt_json name] ;;
           ret None
         else ret (Some id)
       else ret (Some (opt_json spreadsheet_id))) ;;
    match found with
    | None => ret false
    | Some id =>
        creds <- Google.credential_lifecycle e SCOPES credentials_file
                                             token_file ;;
        match creds with
        | None => ret false
        | Some c => delete_file e c id
        end
    end.

(** [if not self.service: print(...); return sentinel] and then the
    body with the client. *)
Definition with_service {A : Type} (sentinel : A)
           (body : sheets -> Google.service -> M sheets A) : M sheets A :=
  slf <- get_self ;;
  match service slf with
  | None =>
      print "Error: Not authenticated. Call authenticate() first." [] ;;
      ret sentinel
  | Some svc => body slf svc
  end.

(** One entry of the list [get_sheet_list] returns. *)
Definition sheet_info (sheet_data : json) : result json :=
  match dict_get sheet_data "properties" (JDict []) with
  | Raise ex => Raise ex
  | Ret sheet_props =>
      match dict_get sheet_props "title" (JStr (lit "Unknown")),
            dict_get sheet_props "sheetId" (JInt 0),
            dict_get sheet_props "gridProperties" (JDict []),
            dict_get sheet_props "index" (JInt 0) with
      | Ret title, Ret id, Ret grid, Ret index =>
          match dict_get grid "rowCount" (JInt 0),
                dict_get grid "columnCount" (JInt 0) with
          | Ret rows, Ret columns =>
              Ret (JDict [(lit "name", title); (lit "id", id);
                          (lit "rows", rows); (lit "columns", columns);
                          (lit "index", index)])
          | Raise ex, _ | _, Raise ex => Raise ex
          end
      | Raise ex, _, _, _ | _, Raise ex, _, _
      | _, _, Raise ex, _ | _, _, _, Raise ex => Raise ex
      end
  end.

Definition get_sheet_list (e : Google.env) : M sheets json :=
  with_service JNull (fun slf svc =>
    try_except
      (result <- vendor "spreadsheets.get" [JStr (spreadsheet_id slf)]
                   (Google.execute e svc "spreadsheets.get"
                                   [JStr (spreadsheet_id slf)]) ;;
       sheets <- lift (dict_get result "sheets" (JList [])) ;;
       items <- lift (elements sheets) ;;
       sheet_list <- for_each (fun d => lift (sheet_info d)) items ;;
       ret (JList sheet_list))
      (http_handlers JNull)).

(** The handlers of [read_all] and [read_range], which tell 404 and 403
    apart in what they print. *)
Definition read_handlers (denied : string) (sheet_name : str) (ex : exn)
  : M sheets json :=
  match ex with
  | HttpError status _ =>
      (if (status =? 404)%Z then
         print "Error: Spreadsheet or sheet '{}' not found." [JStr sheet_name]
       else if (status =? 403)%Z then print denied []
       else print "HTTP Error {}: {}" [JInt status; JStr (exn_str ex)]) ;;
      ret JNull
  | _ =>
      print "An error occurred: {}" [JStr (exn_str ex)] ;;
      ret JNull
  end.

Definition read_all (e : Google.env) (sheet_name : str) : M sheets json :=
  with_service JNull (fun slf svc =>
    try_except
      (result <- vendor "spreadsheets.values.get"
                   [JStr (spreadsheet_id slf); JStr sheet_name]
                   (Google.execute e svc "spreadsheets.values.get"
                      [JStr (spreadsheet_id slf); JStr sheet_name]) ;;
       values <- lift (dict_get result "values" (JList [])) ;;
       if negb (json_truthy values) then
         print "No data found in sheet '{}'." [JStr sheet_name] ;;
         ret (JList [])
       else ret values)
      (read_handlers
         "Error: Access denied. Please check sharing permissions for the spreadsheet."
         sheet_name)).

Definition read_range (e : Google.env) (sheet_name range_name : str)
  : M sheets json :=
  with_service JNull (fun slf svc =>
    let full_range := sheet_name ++ lit "!" ++ range_name in
    try_except
      (result <- vendor "spreadsheets.values.get"
                   [JStr (spreadsheet_id slf); JStr full_range]
                   (Google.execute e svc "spreadsheets.values.get"
                      [JStr (spreadsheet_id slf); JStr full_range]) ;;
       values <- lift (dict_get result "values" (JList [])) ;;
       if negb (json_truthy values) then
         print "No data found in range '{}' of sheet '{}'."
               [JStr range_name; JStr sheet_name] ;;
         ret (JList [])
       else ret values)
      (read_handlers "Error: Access denied. Please check sharing permissions."
                     sheet_name)).

Definition write_row (e : Google.env) (sheet_name : str)
           (row_data : list json) (row_number : option Z) : M sheets bool :=
  with_service false (fun slf svc =>
    try_except
      (match row_number with
       | None =>
           let range_name := JStr (sheet_name ++ lit "!A:A") in
           let body := JDict [(lit "values", JList [JList row_data])] in
           result <- vendor "spreadsheets.values.append"
                       [JStr (spreadsheet_id slf); range_name;
                        JStr (lit "USER_ENTERED"); body]
                       (Google.execute e svc "spreadsheets.values.append"
                          [JStr (spreadsheet_id slf); range_name;
                           JStr (lit "USER_ENTERED"); body]) ;;
           updates <- lift (dict_get result "updates" (JDict [])) ;;
           updated <- lift (dict_get updates "updatedRange"
                                     (JStr (lit "Unknown"))) ;;
           print "Row appended successfully. Updated range: {}" [updated]
       | Some n =>
           let range_name :=
             fstring "{}!A{}:{}{}"
               [JStr sheet_name; JInt n;
                fstring "chr({})"
                  [JInt (65 + Z.of_nat (List.length row_data) - 1)];
                JInt n] in
           let body := JDict [(lit "values", JList [JList row_data])] in
           result <- vendor "spreadsheets.values.update"
                       [JStr (spreadsheet_id slf); range_name;
                        JStr (lit "USER_ENTERED"); body]
                       (Google.execute e svc "spreadsheets.values.update"
                          [JStr (spreadsheet_id slf); range_name;
                           JStr (lit "USER_ENTERED"); body]) ;;
           cells <- lift (dict_get result "updatedCells" (JInt 0)) ;;
           print "Row {} updated successfully. {} cells updated."
                 [JInt n; cells]
       end ;;
       ret true)
      (http_handlers false)).

Definition write_cell (e : Google.env) (sheet_name cell_address : str)
           (value : json) : M sheets bool :=
  with_service false (fun slf svc =>
    try_except
      (let range_name := JStr (sheet_name ++ lit "!" ++ cell_address) in
       let body := JDict [(lit "values", JList [JList [value]])] in
       result <- vendor "spreadsheets.values.update"
                   [JStr (spreadsheet_id slf); range_name;
                    JStr (lit "USER_ENTERED"); body]
                   (Google.execute e svc "spreadsheets.values.update"
                      [JStr (spreadsheet_id slf); range_name;
                       JStr (lit "USER_ENTERED"); body]) ;;
       cells <- lift (dict_get result "updatedCells" (JInt 0)) ;;
       print "Cell {} updated successfully. {} cells updated."
             [JStr cell_address; cells] ;;
       ret true)
      (http_handlers false)).

Definition write_range (e : Google.env) (sheet_name range_name : str)
           (data : json) : M sheets bool :=
  with_service false (fun slf svc =>
    try_except
      (let full_range := JStr (sheet_name ++ lit "!" ++ range_name) in
       let body := JDict [(lit "values", data)] in
       result <- vendor "spreadsheets.values.update"
                   [JStr (spreadsheet_id slf); full_range;
                    JStr (lit "USER_ENTERED"); body]
                   (Google.execute e svc "spreadsheets.values.update"
                      [JStr (spreadsheet_id slf); full_range;
                       JStr (lit "USER_ENTERED"); body]) ;;
       cells <- lift (dict_get result "updatedCells" (JInt 0)) ;;
       print "Range {} updated successfully. {} cells updated."
             [JStr range_name; cells] ;;
       ret true)
      (http_handlers false)).

Definition get_spreadsheet_info (e : Google.env) : M sheets json :=
  with_service JNull (fun slf svc =>
    try_except
      (vendor "spreadsheets.get" [JStr (spreadsheet_id slf)]
              (Google.execute e svc "spreadsheets.get"
                              [JStr (spreadsheet_id slf)]))
      (http_handlers JNull)).

(** The public operations behind the exception boundary: every method
    of the class but the constructor and [create_and_get_instance],
    which constructs. *)
Inductive op : Type :=
| CreateSpreadsheet (title credentials_file token_file : str)
| FindSpreadsheetByName (name credentials_file token_file : str)
| DeleteSpreadsheet (spreadsheet_id name : option str)
                    (credentials_file token_file : str)
| Authenticate
| GetSheetList
| ReadAll (sheet_name : str)
| ReadRange (sheet_name range_name : str)
| WriteRow (sheet_name : str) (row_data : list json) (row_number : option Z)
| WriteCell (sheet_name cell_address : str) (value : json)
| WriteRange (sheet_name range_name : str) (data : json)
| GetSpreadsheetInfo.

Definition run (e : Google.env) (o : op) : M sheets answer :=
  match o with
  | CreateSpreadsheet t cf tf => value_of (create_spreadsheet e t cf tf)
  | FindSpreadsheetByName n cf tf =>
      value_of (find_spreadsheet_by_name e n cf tf)
  | DeleteSpreadsheet id n cf tf => done_of (delete_spreadsheet e id n cf tf)
  | Authenticate => done_of (authenticate e)
  | GetSheetList => value_of (get_sheet_list e)
  | ReadAll s => value_of (read_all e s)
  | ReadRange s r => value_of (read_range e s r)
  | WriteRow s d n => done_of (write_row e s d n)
  | WriteCell s c v => done_of (write_cell e s c v)
  | WriteRange s r d => done_of (write_range e s r d)
  | GetSpreadsheetInfo => value_of (get_spreadsheet_info e)
  end.

End GoogleSheets.

(** ** atlassian/confluence.py *)

Module Confluence.

Record session : Type := Session {
  base_url : str;
  username : str;
  api_token : str;
  default_space : option str
}.

(** The collaborators: the HTTP session and the reshaping of one vendor
    result (the dictionary display of [search_content] and
    [get_space_content], which only reads the vendor's JSON and may
    raise on a malformed one). *)
Record env : Type := Env {
  session_get : str -> json -> oracle response;
  format_result : json -> oracle json
}.

Definition init (base_url username api_token : str)
           (default_space : option str) : session :=
  Session (rstrip_slash base_url) username api_token default_space.

Definition test_connection (e : env) : M session bool :=
  try_except
    (slf <- get_self ;;
     response <- vendor "session.get"
                   [JStr (base_url slf ++ lit "/rest/api/user/current")]
                   (session_get e
                      (base_url slf ++ lit "/rest/api/user/current") JNull) ;;
     if (status_code response =? 200)%Z then
       user_info <- lift (body response) ;;
       name <- lift (dict_get user_info "displayName" (JStr (lit "Unknown"))) ;;
       print "✓ Connected to Confluence as: {}" [name] ;;
       ret true
     else
       print "✗ Connection failed: {} - {}"
             [JInt (status_code response); JStr (text response)] ;;
       ret false)
    (fun ex =>
       print "✗ Connection error: {}" [JStr (exn_str ex)] ;;
       ret false).

Definition get_spaces (e : env) : M session json :=
  try_except
    (slf <- get_self ;;
     response <- vendor "session.get"
                   [JStr (base_url slf ++ lit "/rest/api/space")]
                   (session_get e (base_url slf ++ lit "/rest/api/space")
                                JNull) ;;
     if (status_code response =? 200)%Z then
       data <- lift (body response) ;;
       spaces <- lift (dict_get data "results" (JList [])) ;;
       items <- lift (elements spaces) ;;
       print "✓ Found {} spaces" [JInt (Z.of_nat (List.length items))] ;;
       ret spaces
     else
       print "✗ Failed to get spaces: {} - {}"
             [JInt (status_code response); JStr (text response)] ;;
       ret JNull)
    (fun ex =>
       print "✗ Error getting spaces: {}" [JStr (exn_str ex)] ;;
       ret JNull).

Definition search_content (e : env) (query : str)
           (space_key content_type : option str) (limit start : Z)
           (expand : option str) (use_default_space : bool)
  : M session json :=
  try_except
    (slf <- get_self ;;
     let expand_param :=
       match expand with
       | Some (c :: x) => c :: x
       | _ => lit "space,history,body.view,metadata.labels"
       end in
     let cql_parts := [query] in
     effective_space <-
       (if negb (truthy space_key) && use_default_space
              && truthy (default_space slf)
        then
          print "🏠 Using default space: {}" [opt_json (default_space slf)] ;;
          ret (default_space slf)
        else ret space_key) ;;
     let cql_parts :=
       match effective_space with
       | Some (c :: x) =>
           cql_parts ++ [lit "space = " ++ dquote ++ (c :: x) ++ dquote]
       | _ => cql_parts
       end in
     let cql_parts :=
       match content_type with
       | Some (c :: x) =>
           cql_parts ++ [lit "type = " ++ dquote ++ (c :: x) ++ dquote]
       | _ => cql_parts
       end in
     let params :=
       JDict [(lit "cql", JStr (join (lit " AND ") cql_parts));
              (lit "limit", JInt (Z.min limit 200));
              (lit "start", JInt start);
              (lit "expand", JStr expand_param)] in
     print "🔍 Searching with CQL: {}"
           [JStr (join (lit " AND ") cql_parts)] ;;
     response <- vendor "session.get"
                   [JStr (base_url slf ++ lit "/rest/api/content/search");
                    params]
                   (session_get e
                      (base_url slf ++ lit "/rest/api/content/search")
                      params) ;;
     if (status_code response =? 200)%Z then
       data <- lift (body response) ;;
       results <- lift (dict_get data "results" (JList [])) ;;
       items <- lift (elements results) ;;
       formatted_results <-
         for_each (fun r => vendor "format_result" [r] (format_result e r))
                  items ;;
       size <- lift (dict_get data "size" (JInt 0)) ;;
       limit' <- lift (dict_get data "limit" (JInt limit)) ;;
       start' <- lift (dict_get data "start" (JInt start)) ;;
       let total := JInt (Z.of_nat (List.length formatted_results)) in
       print "✓ Found {} results" [total] ;;
       ret (JDict
              [(lit "results", JList formatted_results);
               (lit "size", size);
               (lit "limit", limit');
               (lit "start", start');
               (lit "total_results", total);
               (lit "query", JStr (join (lit " AND ") cql_parts))])
     else
       print "✗ Search failed: {} - {}"
             [JInt (status_code response); JStr (text response)] ;;
       ret JNull)
    (fun ex =>
       print "✗ Error searching content: {}" [JStr (exn_str ex)] ;;
       ret JNull).

Definition search_in_space (e : env) (space_key query : str)
           (content_type : option str) (limit : Z)
  : M session json :=
  try_except
    (print "🔍 Searching in space '{}' for: {}" [JStr space_key; JStr query] ;;
     search_result <- search_content e query (Some space_key) content_type
                                     limit 0 None true ;;
     if json_truthy search_result then
       lift (dict_item search_result "results")
     else ret JNull)
    (fun ex =>
       print "✗ Error searching in space: {}" [JStr (exn_str ex)] ;;
       ret JNull).

Definition get_space_content (e : env) (space_key content_type : str)
           (limit start : Z) : M session json :=
  try_except
    (slf <- get_self ;;
     let params :=
       JDict [(lit "spaceKey", JStr space_key);
              (lit "type", JStr content_type);
              (lit "limit", JInt (Z.min limit 200));
              (lit "start", JInt start);
              (lit "expand",
               JStr (lit "space,history,body.view,metadata.labels"))] in
     print "📄 Getting {} content from space '{}'..."
           [JStr content_type; JStr space_key] ;;
     response <- vendor "session.get"
                   [JStr (base_url slf ++ lit "/rest/api/content"); params]
                   (session_get e (base_url slf ++ lit "/rest/api/content")
                                params) ;;
     if (status_code response =? 200)%Z then
       data <- lift (body response) ;;
       results <- lift (dict_get data "results" (JList [])) ;;
       items <- lift (elements results) ;;
       formatted_results <-
         for_each (fun r => vendor "format_result" [r] (format_result e r))
                  items ;;
       print "✓ Found {} {} items in space '{}'"
             [JInt (Z.of_nat (List.length formatted_results));
              JStr content_type; JStr space_key] ;;
       ret (JList formatted_results)
     else
       print "✗ Failed to get space content: {} - {}"
             [JInt (status_code response); JStr (text response)] ;;
       ret JNull)
    (fun ex =>
       print "✗ Error getting space content: {}" [JStr (exn_str ex)] ;;
       ret JNull).

(** [re.sub(r'<[^>]+>', ' ', s)], as a scan of [s].  A tag starts at a
    [<] that is followed by at least one character other than [>] and
    then by a [>]; [tag_closes] tells so of what follows the [<]. *)
Definition tag_closes (s : str) : bool :=
  match take_while (fun c => negb (Ascii.eqb c ">")) s with
  | [] => false
  | inside =>
      match skipn (List.length inside) s with
      | c :: _ => Ascii.eqb c ">"
      | [] => false
      end
  end.

(** [inside] holds while the scan is between the [<] and the [>] of a
    tag, which is replaced by one space when it ends. *)
Fixpoint sub_tags (inside : bool) (s : str) : str :=
  match s with
  | [] => []
  | c :: s' =>
      if inside then
        if Ascii.eqb c ">" then " "%char :: sub_tags false s'
        else sub_tags true s'
      else if Ascii.eqb c "<" && tag_closes s' then sub_tags true s'
      else c :: sub_tags false s'
  end.

(** [re.sub(r'\s+', ' ', s)]: every run of whitespace becomes one
    space; [in_run] holds after a whitespace character. *)
Fixpoint sub_spaces (in_run : bool) (s : str) : str :=
  match s with
  | [] => []
  | c :: s' =>
      if re_space c then
        if in_run then sub_spaces true s'
        else " "%char :: sub_spaces true s'
      else c :: sub_spaces false s'
  end.

(** [_extract_excerpt(html_content, max_length)].  On a [str] neither
    [re.sub] nor the slice raises, so the handler of its [try] is never
    entered. *)
Definition _extract_excerpt (html_content : str) (max_length : Z) : str :=
  let text := sub_tags false html_content in
  let text := strip_spaces (sub_spaces false text) in
  if (max_length <? Z.of_nat (List.length text))%Z
  then before_last_space (slice_to max_length text) ++ lit "..."
  else text.

(** The public operations of the facade and what a call gives back:
    a value or [None] (which is [JNull]) for the reads, a boolean for [test_connection]. *)
Inductive op : Type :=
| TestConnection
| GetSpaces
| SearchContent (query : str) (space_key content_type : option str)
                (limit start : Z) (expand : option str)
                (use_default_space : bool)
| SearchInSpace (space_key query : str) (content_type : option str)
                (limit : Z)
| GetSpaceContent (space_key content_type : str) (limit start : Z).

Definition run (e : env) (o : op) : M session answer :=
  match o with
  | TestConnection => done_of (test_connection e)
  | GetSpaces => value_of (get_spaces e)
  | SearchContent q sk ct l s x u =>
      value_of (search_content e q sk ct l s x u)
  | SearchInSpace sk q ct l =>
      value_of (search_in_space e sk q ct l)
  | GetSpaceContent sk ct l s =>
      value_of (get_space_content e sk ct l s)
  end.

End Confluence.

(** ** atlassian/jira.py *)

Module Jira.

(** The facade object; [connected] tells whether [self.jira] holds a
    client. *)
Record jira : Type := Session {
  base_url : str;
  username : str;
  api_token : str;
  connected : bool
}.

(** The collaborators: the [JIRA] constructor, the methods of the
    client and of the objects it returns, and the reshaping of vendor
    objects into dictionaries, which only reads them and may raise on
    an attribute or key that is missing. *)
Record env : Type := Env {
  connect : str -> str -> str -> oracle unit;
  call : string -> list json -> oracle json;
  reshape : string -> list json -> oracle json
}.

(** [obj.name] *)
Definition attr (obj : json) (name : string) : result json :=
  match obj with
  | JDict kv =>
      match assoc (lit name) kv with
      | Some v => Ret v
      | None => Raise (OtherError (lit "AttributeError"))
      end
  | _ => Raise (OtherError (lit "AttributeError"))
  end.

Definition client (e : env) (method : string) (args : list json)
  : M jira json :=
  vendor method args (call e method args).

Definition data (e : env) (what : string) (args : list json)
  : M jira json :=
  vendor what args (reshape e what args).

Definition _connect (e : env) : M jira bool :=
  try_except
    (slf <- get_self ;;
     vendor "JIRA" [JStr (base_url slf); JStr (username slf)]
            (connect e (base_url slf) (username slf) (api_token slf)) ;;
     set_self (Session (base_url slf) (username slf) (api_token slf) true) ;;
     ret true)
    (fun ex =>
       match ex with
       | JIRAError _ =>
           print "✗ Jira connection error: {}" [JStr (exn_str ex)] ;;
           ret false
       | _ =>
           print "✗ Connection error: {}" [JStr (exn_str ex)] ;;
           ret false
       end).

Definition init (e : env) (base_url username api_token : str)
  : M jira unit :=
  set_self (Session (rstrip_slash base_url) username api_token
                    false) ;;
  _connect e ;;
  ret tt.

(** [if not self.jira: if not self._connect(): return sentinel] *)
Definition ensure_connected (e : env) : M jira bool :=
  slf <- get_self ;;
  if connected slf then ret true else _connect e.

(** The shape of every operation: the whole body in one [try], the
    connection first, and the two handlers, which print and return the
    sentinel. *)
Definition operation {A : Type} (e : env) (sentinel : A) (body : M jira A)
           (failed : string) (failed_args : list json)
           (error : string) (error_args : list json) : M jira A :=
  try_except
    (ok <- ensure_connected e ;;
     if ok then body else ret sentinel)
    (fun ex =>
       match ex with
       | JIRAError _ =>
           print failed (failed_args ++ [JStr (exn_str ex)]) ;;
           ret sentinel
       | _ =>
           print error (error_args ++ [JStr (exn_str ex)]) ;;
           ret sentinel
       end).

Definition get_issue (e : env) (issue_key : str) (fields : option str)
  : M jira json :=
  operation e JNull
    (issue <- client e "jira.issue" [JStr issue_key; opt_json fields] ;;
     key <- lift (attr issue "key") ;;
     issue_fields <- lift (attr issue "fields") ;;
     summary <- lift (attr issue_fields "summary") ;;
     print "✓ Retrieved issue: {} - {}" [key; summary] ;;
     ret issue)
    "✗ Failed to get issue {}: {}" [JStr issue_key]
    "✗ Error getting issue {}: {}" [JStr issue_key].

Definition search_issues (e : env) (jql : str) (max_results : Z)
           (fields : option str) : M jira json :=
  operation e JNull
    (issues <- client e "jira.search_issues"
                 [JStr jql; JInt max_results; opt_json fields] ;;
     n <- lift (json_len issues) ;;
     print "✓ Found {} issues" [JInt (Z.of_nat n)] ;;
     ret issues)
    "✗ Search failed: {}" []
    "✗ Search error: {}" [].

Definition create_issue (e : env) (project_key summary description : str)
           (issue_type : str) (kwargs : list (str * json)) : M jira json :=
  operation e JNull
    (let issue_dict :=
       JDict ([(lit "project", JDict [(lit "key", JStr project_key)]);
               (lit "summary", JStr summary);
               (lit "description", JStr description);
               (lit "issuetype", JDict [(lit "name", JStr issue_type)])]
              ++ kwargs) in
     issue <- client e "jira.create_issue" [issue_dict] ;;
     key <- lift (attr issue "key") ;;
     issue_fields <- lift (attr issue "fields") ;;
     summary' <- lift (attr issue_fields "summary") ;;
     print "✓ Created issue: {} - {}" [key; summary'] ;;
     ret issue)
    "✗ Failed to create issue: {}" []
    "✗ Error creating issue: {}" [].

Definition get_projects (e : env) : M jira json :=
  operation e JNull
    (projects <- client e "jira.projects" [] ;;
     n <- lift (json_len projects) ;;
     print "✓ Found {} projects" [JInt (Z.of_nat n)] ;;
     ret projects)
    "✗ Failed to get projects: {}" []
    "✗ Error getting projects: {}" [].

Definition get_project (e : env) (project_key : str) : M jira json :=
  operation e JNull
    (project <- client e "jira.project" [JStr project_key] ;;
     key <- lift (attr project "key") ;;
     name <- lift (attr project "name") ;;
     print "✓ Retrieved project: {} - {}" [key; name] ;;
     ret project)
    "✗ Failed to get project {}: {}" [JStr project_key]
    "✗ Error getting project {}: {}" [JStr project_key].

Definition update_issue (e : env) (issue_key : str) (fields : json)
  : M jira bool :=
  operation e false
    (issue <- client e "jira.issue" [JStr issue_key] ;;
     client e "issue.update" [issue; fields] ;;
     print "✓ Updated issue: {}" [JStr issue_key] ;;
     ret true)
    "✗ Failed to update issue {}: {}" [JStr issue_key]
    "✗ Error updating issue {}: {}" [JStr issue_key].

Definition add_comment (e : env) (issue_key comment : str) : M jira bool :=
  operation e false
    (client e "jira.add_comment" [JStr issue_key; JStr comment] ;;
     print "✓ Added comment to issue: {}" [JStr issue_key] ;;
     ret true)
    "✗ Failed to add comment to {}: {}" [JStr issue_key]
    "✗ Error adding comment to {}: {}" [JStr issue_key].

Definition get_issue_types (e : env) : M jira json :=
  operation e JNull
    (issue_types <- client e "jira.issue_types" [] ;;
     n <- lift (json_len issue_types) ;;
     print "✓ Found {} issue types" [JInt (Z.of_nat n)] ;;
     ret issue_types)
    "✗ Failed to get issue types: {}" []
    "✗ Error getting issue types: {}" [].

Definition get_groups (e : env) : M jira json :=
  operation e JNull
    (groups <- client e "jira.groups" [] ;;
     n <- lift (json_len groups) ;;
     print "✓ Found {} groups" [JInt (Z.of_nat n)] ;;
     ret groups)
    "✗ Failed to get groups: {}" []
    "✗ Error getting groups: {}" [].

Definition get_group_members (e : env) (group_name : str) : M jira json :=
  operation e JNull
    (members <- client e "jira.group_members" [JStr group_name] ;;
     n <- lift (json_len members) ;;
     print "✓ Found {} members in group '{}'"
           [JInt (Z.of_nat n); JStr group_name] ;;
     ret members)
    "✗ Failed to get members for group '{}': {}" [JStr group_name]
    "✗ Error getting group members: {}" [].

(** [try: project = self.jira.project(project_key)] whose handler
    catches [JIRAError] only and returns [None] from the operation
    (the [None] here). *)
Definition project_or_return (e : env) (project_key : str)
  : M jira (option json) :=
  try_except
    (project <- client e "jira.project" [JStr project_key] ;;
     ret (Some project))
    (fun ex =>
       match ex with
       | JIRAError _ =>
           print "✗ Project '{}' not found: {}"
                 [JStr project_key; JStr (exn_str ex)] ;;
           ret None
       | _ => raise ex
       end).

Definition get_project_components (e : env) (project_key : str)
  : M jira json :=
  operation e JNull
    (project <- project_or_return e project_key ;;
     match project with
     | None => ret JNull
     | Some project =>
         components <- client e "jira.project_components"
                         [JStr project_key] ;;
         component_list <- data e "component_info"
                             [components; JStr project_key; project] ;;
         n <- lift (json_len component_list) ;;
         print "✓ Found {} components in project '{}'"
               [JInt (Z.of_nat n); JStr project_key] ;;
         ret component_list
     end)
    "✗ Failed to get components for project '{}': {}" [JStr project_key]
    "✗ Error getting project components: {}" [].

Definition create_component (e : env) (project_key name : str)
           (description lead : option str) (assignee_type : str)
  : M jira json :=
  operation e JNull
    (let component_dict :=
       [(lit "name", JStr name); (lit "project", JStr project_key);
        (lit "assigneeType", JStr assignee_type)]
       ++ (if truthy description
           then [(lit "description", opt_json description)] else []) in
     lead_entry <-
       (if truthy lead then
          try_except
            (user <- client e "jira.user" [opt_json lead] ;;
             user_name <- lift (attr user "name") ;;
             ret [(lit "lead", JDict [(lit "name", user_name)])])
            (fun ex =>
               print "✗ Warning: Could not find user '{}': {}"
                     [opt_json lead; JStr (exn_str ex)] ;;
               print "  Creating component without lead assignment" [] ;;
               ret [])
        else ret []) ;;
     component <- client e "jira.create_component"
                    [JDict (component_dict ++ lead_entry)] ;;
     component_name <- lift (attr component "name") ;;
     print "✓ Created component: {} in project {}"
           [component_name; JStr project_key] ;;
     ret component)
    "✗ Failed to create component '{}' in project '{}': {}"
    [JStr name; JStr project_key]
    "✗ Error creating component: {}" [].

Definition update_component (e : env) (component_id : str)
           (name description lead assignee_type : option str)
  : M jira bool :=
  operation e false
    (component <- client e "jira.component" [JStr component_id] ;;
     let update_dict :=
       (if truthy name then [(lit "name", opt_json name)] else [])
       ++ (if truthy description
           then [(lit "description", opt_json description)] else [])
       ++ (if truthy assignee_type
           then [(lit "assigneeType", opt_json assignee_type)] else []) in
     lead_entry <-
       (if truthy lead then
          try_except
            (user <- client e "jira.user" [opt_json lead] ;;
             user_name <- lift (attr user "name") ;;
             ret (Some [(lit "lead", JDict [(lit "name", user_name)])]))
            (fun ex =>
               print "✗ Warning: Could not find user '{}': {}"
                     [opt_json lead; JStr (exn_str ex)] ;;
               ret None)
        else ret (Some [])) ;;
     match lead_entry with
     | None => ret false
     | Some lead_entry =>
         client e "component.update"
                [component; JDict (update_dict ++ lead_entry)] ;;
         component_name <- lift (attr component "name") ;;
         print "✓ Updated component: {}" [component_name] ;;
         ret true
     end)
    "✗ Failed to update component '{}': {}" [JStr component_id]
    "✗ Error updating component: {}" [].

Definition get_project_custom_fields (e : env) (project_key : str)
  : M jira json :=
  operation e JNull
    (project <- project_or_return e project_key ;;
     match project with
     | None => ret JNull
     | Some project =>
         all_fields <- client e "jira.fields" [] ;;
         custom_fields <- data e "custom_fields" [all_fields] ;;
         project_custom_fields <-
           try_except
             (sample_issues <- client e "jira.search_issues"
                                 [fstring "project = {}" [JStr project_key];
                                  JInt 50; JStr (lit "*all")] ;;
              used <- data e "used_field_info"
                        [sample_issues; custom_fields; JStr project_key;
                         project] ;;
              if negb (json_truthy used) then
                print "✓ No custom fields found in issues for project '{}'"
                      [JStr project_key] ;;
                n <- lift (json_len custom_fields) ;;
                print "✓ Returning all available custom fields ({} total)"
                      [JInt (Z.of_nat n)] ;;
                data e "field_info"
                     [custom_fields; JStr project_key; project]
              else ret used)
             (fun ex =>
                print "✗ Could not search issues to determine used fields: {}"
                      [JStr (exn_str ex)] ;;
                data e "field_info"
                     [custom_fields; JStr project_key; project]) ;;
         n <- lift (json_len project_custom_fields) ;;
         print "✓ Found {} custom fields for project '{}'"
               [JInt (Z.of_nat n); JStr project_key] ;;
         ret project_custom_fields
     end)
    "✗ Failed to get custom fields for project '{}': {}" [JStr project_key]
    "✗ Error getting project custom fields: {}" [].

(** [s.split('/')[-1]] *)
Fixpoint after_last_slash (s : str) : str :=
  match s with
  | [] => []
  | c :: s' =>
      if existsb (Ascii.eqb "/") s' then after_last_slash s'
      else if Ascii.eqb c "/" then s' else c :: s'
  end.

(** The role ID of one entry of [project_roles.items()]: the end of a
    URL string, or [str(role_url.get('id', ''))] of a dictionary;
    [None] for any other type. *)
Definition role_id_of (role_url : json) : result (option json) :=
  match role_url with
  | JStr s => Ret (Some (JStr (after_last_slash s)))
  | JDict _ =>
      match dict_get role_url "id" (JStr []) with
      | Ret (JStr s) => Ret (Some (JStr s))
      | Ret v => Ret (Some (fstring "{}" [v]))
      | Raise ex => Raise ex
      end
  | _ => Ret None
  end.

(** [project_roles.items()] *)
Definition dict_items (d : json) : result (list (json * json)) :=
  match d with
  | JDict kv => Ret (map (fun p => (JStr (fst p), snd p)) kv)
  | _ => Raise (OtherError (lit "AttributeError: object has no attribute 'items'"))
  end.

(** The entries a list of pieces adds to [users_with_roles]. *)
Definition collected (pieces : list json) : json :=
  JList (flat_map (fun v => match v with JList l => l | _ => [v] end) pieces).

(** The project branch of [get_users_with_roles] (lines 298-339);
    [None] is its [return None]. *)
Definition project_role_users (e : env) (project_key : str)
  : M jira (option json) :=
  try_except
    (project_roles <- client e "jira.project_roles" [JStr project_key] ;;
     n <- lift (json_len project_roles) ;;
     print "✓ Found {} project roles for {}"
           [JInt (Z.of_nat n); JStr project_key] ;;
     roles <- lift (dict_items project_roles) ;;
     pieces <-
       for_each
         (fun role =>
            try_except
              (role_id <- lift (role_id_of (snd role)) ;;
               match role_id with
               | None =>
                   print "✗ Unexpected role_url format for {}: {}"
                         [fst role; fstring "type({})" [snd role]] ;;
                   ret (JList [])
               | Some id =>
                   if negb (json_truthy id) then
                     print "✗ Could not extract role ID for {}" [fst role] ;;
                     ret (JList [])
                   else
                     role_actors <- client e "jira.project_role"
                                      [JStr project_key; id] ;;
                     data e "role_actor_info"
                          [role_actors; JStr project_key; fst role; id]
               end)
              (fun ex =>
                 print "✗ Error getting actors for role {}: {}"
                       [fst role; JStr (exn_str ex)] ;;
                 ret (JList [])))
         roles ;;
     ret (Some (collected pieces)))
    (fun ex =>
       print "✗ Error getting project roles for {}: {}"
             [JStr project_key; JStr (exn_str ex)] ;;
       ret None).

(** The fallback of the global branch (lines 375-442): the users
    through the groups; [None] is its [return None]. *)
Definition group_member_users (e : env) (so_far : json)
  : M jira (option json) :=
  try_except
    (groups <- client e "jira.groups" [] ;;
     items <- lift (elements groups) ;;
     pieces <-
       for_each
         (fun group =>
            try_except
              (group_name <- data e "group_name" [group] ;;
               group_members <- client e "jira.group_members" [group_name] ;;
               data e "group_member_info" [group_members; group_name])
              (fun ex =>
                 print "✗ Could not get members for group {}: {}"
                       [group; JStr (exn_str ex)] ;;
                 ret (JList [])))
         items ;;
     ret (Some (collected (so_far :: pieces))))
    (fun ex =>
       print "✗ Error with fallback groups method: {}" [JStr (exn_str ex)] ;;
       ret None).

(** The global branch of [get_users_with_roles] (lines 342-442). *)
Definition global_users (e : env) (include_groups : bool)
  : M jira (option json) :=
  try_except
    (users <-
       try_except
         (client e "jira.search_users" [JStr []; JInt 1000])
         (fun _ => client e "jira.search_users" [JStr (lit "."); JInt 1000]) ;;
     items <- lift (elements users) ;;
     pieces <-
       for_each
         (fun user =>
            user_info <- data e "global_user_info" [user] ;;
            if include_groups then
              try_except
                (user_name <- lift (attr user "name") ;;
                 user_groups <- client e "jira.user_groups" [user_name] ;;
                 names <- data e "group_names" [user_groups] ;;
                 ret (JList [user_info; names]))
                (fun ex =>
                   user_name <- lift (attr user "name") ;;
                   print "✗ Could not get groups for user {}: {}"
                         [user_name; JStr (exn_str ex)] ;;
                   ret (JList [user_info; JList []]))
            else ret user_info)
         items ;;
     ret (Some (collected pieces)))
    (fun ex =>
       print "✗ Error getting users: {}" [JStr (exn_str ex)] ;;
       group_member_users e (JList [])).

Definition get_users_with_roles (e : env) (project_key : option str)
           (include_groups : bool) : M jira json :=
  operation e JNull
    (users_with_roles <-
       match project_key with
       | Some (c :: x) => project_role_users e (c :: x)
       | _ => global_users e include_groups
       end ;;
     match users_with_roles with
     | None => ret JNull
     | Some users =>
         n <- lift (json_len users) ;;
         print "✓ Found {} users with role information" [JInt (Z.of_nat n)] ;;
         ret users
     end)
    "✗ Failed to get users with roles: {}" []
    "✗ Error getting users with roles: {}" [].

(** The public operations of the facade. *)
Inductive op : Type :=
| GetIssue (issue_key : str) (fields : option str)
| SearchIssues (jql : str) (max_results : Z) (fields : option str)
| CreateIssue (project_key summary description issue_type : str)
              (kwargs : list (str * json))
| GetProjects
| GetProject (project_key : str)
| UpdateIssue (issue_key : str) (fields : json)
| AddComment (issue_key comment : str)
| GetIssueTypes
| GetUsersWithRoles (project_key : option str) (include_groups : bool)
| GetGroups
| GetGroupMembers (group_name : str)
| GetProjectComponents (project_key : str)
| CreateComponent (project_key name : str) (description lead : option str)
                  (assignee_type : str)
| UpdateComponent (component_id : str)
                  (name description lead assignee_type : option str)
| GetProjectCustomFields (project_key : str).

Definition run (e : env) (o : op) : M jira answer :=
  match o with
  | GetIssue k f => value_of (get_issue e k f)
  | SearchIssues q n f => value_of (search_issues e q n f)
  | CreateIssue p s d t kw => value_of (create_issue e p s d t kw)
  | GetProjects => value_of (get_projects e)
  | GetProject p => value_of (get_project e p)
  | UpdateIssue k f => done_of (update_issue e k f)
  | AddComment k c => done_of (add_comment e k c)
  | GetIssueTypes => value_of (get_issue_types e)
  | GetUsersWithRoles p g => value_of (get_users_with_roles e p g)
  | GetGroups => value_of (get_groups e)
  | GetGroupMembers g => value_of (get_group_members e g)
  | GetProjectComponents p => value_of (get_project_components e p)
  | CreateComponent p n d l a => value_of (create_component e p n d l a)
  | UpdateComponent c n d l a => done_of (update_component e c n d l a)
  | GetProjectCustomFields p => value_of (get_project_custom_fields e p)
  end.

End Jira.

(** ** utils/file_utils.py *)

Module FileUtils.

(** A [pandas.DataFrame] as [save_to_csv] makes it: column labels and
    rows of cells, where a cell that a short row leaves out is missing. *)
Record frame : Type := Frame {
  columns : list str;
  rows : list (list (option str))
}.

(** The two entry points of pandas that [save_to_csv] calls: the
    [DataFrame] constructor and [to_csv(index=False)], which gives the
    text of the file. *)
Record pandas : Type := Pandas {
  DataFrame : list (list str) -> list str -> result frame;
  to_csv : frame -> result str
}.


(** [f"{str(cell)[:15]:15}"]: the first 15 characters of the cell,
    filled with spaces on the right to 15. *)
Definition cell15 (cell : str) : str :=
  firstn 15 cell ++ repeat " "%char (15 - List.length (firstn 15 cell)).

(** [" | ".join(f"{str(cell)[:15]:15}" for cell in cells)] *)
Definition table_line (cells : list str) : str :=
  join (lit " | ") (map cell15 cells).

(** The [while] loop of [print_data]: the empty string is appended to
    [row_data] until it has as many cells as [headers]. *)
Definition pad_row (n : nat) (row_data : list str) : list str :=
  row_data ++ repeat [] (n - List.length row_data).

Definition dashes : str := repeat "-"%char 80.

(** [print_data(data, max_rows, max_cols)]; a line that is not an
    f-string is printed through the template [{}]. *)
Definition print_data {Self : Type} (data : list (list str))
           (max_rows max_cols : Z) : M Self unit :=
  match data with
  | [] => print "No data to display." []
  | first :: _ =>
      print "\nDisplaying data ({} rows, {} columns):"
            [JInt (Z.of_nat (List.length data));
             JInt (Z.of_nat (List.length first))] ;;
      print "{}" [JStr dashes] ;;
      let headers := slice_to max_cols first in
      print "{}" [JStr (table_line headers)] ;;
      print "{}" [JStr dashes] ;;
      for_each
        (fun row =>
           let row_data := slice_to max_cols row in
           print "{}"
                 [JStr (table_line (pad_row (List.length headers) row_data))])
        (skipn 1 (slice_to max_rows data)) ;;
      if (max_rows <? Z.of_nat (List.length data))%Z then
        print "... and {} more rows"
              [JInt (Z.of_nat (List.length data) - max_rows)]
      else ret tt
  end.

End FileUtils.

(** ** The CSV collaborators

    pandas and Python's [csv] module are not part of the sources; what
    [save_to_csv] relies on is modelled here from the specification:
    "a two-dimensional value grid is written to a comma-separated file
    with the first row as header", and "reading it back yields the
    original header and data rows verbatim". *)

Module Csv.

Definition comma : ascii := ",".
Definition quote : ascii := ascii_of_nat 34.
Definition newline : ascii := ascii_of_nat 10.


(** Modelled from the spec: the writer behind [to_csv], which is pandas
    and Python's [csv] module and not part of the sources.  The grid is
    written "to a comma-separated file with the first row as header":
    one line for each row, ended by a line feed, the fields separated by
    commas; a field with a comma, a double quote or a line feed is put
    in double quotes with its double quotes doubled (minimal quoting),
    and so is the empty field of a row of one field, which would
    otherwise be an empty line. *)
Definition needs_quote (field : str) : bool :=
  existsb (fun c => Ascii.eqb c comma || Ascii.eqb c quote
                    || Ascii.eqb c newline) field.

(** Modelled from the spec: the text of a field with each double quote
    written twice. *)
Fixpoint doubled (field : str) : str :=
  match field with
  | [] => []
  | c :: field' =>
      if Ascii.eqb c quote then quote :: quote :: doubled field'
      else c :: doubled field'
  end.

(** Modelled from the spec: a field in double quotes. *)
Definition write_quoted (field : str) : str :=
  quote :: doubled field ++ [quote].

(** Modelled from the spec: a field, quoted only when it has to be. *)
Definition write_field (field : str) : str :=
  if needs_quote field then write_quoted field else field.

(** Modelled from the spec: the fields of a row, separated by commas. *)
Fixpoint write_fields (fields : list str) : str :=
  match fields with
  | [] => []
  | [f] => write_field f
  | f :: fields' => write_field f ++ comma :: write_fields fields'
  end.

(** Modelled from the spec: the line of a row; a row of one empty field
    is written as a pair of double quotes. *)
Definition write_row (fields : list str) : str :=
  match fields with
  | [[]] => write_quoted [] ++ [newline]
  | _ => write_fields fields ++ [newline]
  end.

(** Modelled from the spec: the text of a grid, header first. *)
Definition write_rows (grid : list (list str)) : str :=
  List.concat (map write_row grid).




(** Modelled from the spec: the [DataFrame] constructor of pandas on a
    list of rows with column labels.  The width of the data is that of
    its longest row; shorter rows are filled with missing cells; a width
    that differs from the number of labels is refused with
    [ValueError]. *)
Definition width (data : list (list str)) : nat :=
  fold_right Nat.max 0 (map (@List.length str) data).

(** Modelled from the spec: a row filled up to [n] cells. *)
Definition fill (n : nat) (row : list str) : list (option str) :=
  map Some row ++ repeat None (n - List.length row).

(** Modelled from the spec: [pandas.DataFrame(data, columns=labels)]. *)
Definition DataFrame (data : list (list str)) (labels : list str)
  : result FileUtils.frame :=
  match data with
  | [] => Ret (FileUtils.Frame labels [])
  | _ =>
      if Nat.eqb (width data) (List.length labels)
      then Ret (FileUtils.Frame labels (map (fill (List.length labels)) data))
      else Raise (ValueError (lit "columns passed, passed data had a different number of columns"))
  end.

(** Modelled from the spec: a missing cell is written as the empty
    field. *)
Definition shown (cell : option str) : str :=
  match cell with
  | Some s => s
  | None => []
  end.

(** Modelled from the spec: [df.to_csv(filename, index=False)], the
    header line and then the rows. *)
Definition to_csv (df : FileUtils.frame) : result str :=
  Ret (write_rows (FileUtils.columns df
                   :: map (map shown) (FileUtils.rows df))).

(** Modelled from the spec: the pandas [save_to_csv] runs with. *)
Definition pandas : FileUtils.pandas := FileUtils.Pandas DataFrame to_csv.



End Csv.

(** ** Vocabulary of the statements about [extract_id] *)

(** The literal strings an atom and a lead can match, in the order the
    matcher tries them. *)
Definition atom_lang (a : atom) : list str :=
  match a with
  | Str t => [lit t]
  | Alt ts => map lit ts
  | AnyOf cs => map (fun c => [c]) (lit cs)
  end.

Fixpoint lang (p : pattern) : list str :=
  match p with
  | [] => [[]]
  | a :: p' => flat_map (fun m => map (app m) (lang p')) (atom_lang a)
  end.

(** [needle] is a substring of [hay]. *)
Definition substring_of (needle hay : str) : Prop :=
  exists pre post, hay = pre ++ needle ++ post.

(** Position [i] of [s] starts one of the pattern's markers followed by
    an ID character: what a match of the pattern at [i] amounts to. *)
Definition occurs_at (p : pattern) (s : str) (i : nat) : Prop :=
  exists m c rest,
    In m (lang p) /\ id_char c = true /\ skipn i s = m ++ c :: rest.

(** The ID ends where [post] begins: [post] does not go on with an ID
    character. *)
Definition boundary (post : str) : Prop :=
  match post with
  | [] => True
  | c :: _ => id_char c = false
  end.

Definition host_markers : list str :=
  [lit "google.com"; lit "drive.google.com"; lit "docs.google.com"].

(** No marker of the lead is a proper prefix of another one. *)
Definition prefix_free (L : list str) : Prop :=
  forall m m', In m L -> In m' L -> starts_with m m' = true -> m = m'.

(** Deciding the side conditions on a concrete reference. *)
Definition no_match_before (p : pattern) (s : str) (n : nat) : bool :=
  forallb (fun i => match match_at p (skipn i s) with
                    | None => true
                    | Some _ => false
                    end) (seq 0 n).

(** ** Vocabulary of the statements about traces and the CQL sent *)

(** The operation only adds to the trace. *)
Definition extends {Self A : Type} (m : M Self A) : Prop :=
  forall st, exists evs, trace (snd (m st)) = trace st ++ evs.

(** The CQL strings of the requests recorded in a trace. *)
Definition cql_of (ev : event) : list str :=
  match ev with
  | Call target [_; params] =>
      if String.eqb target "session.get" then
        match dict_get params "cql" JNull with
        | Ret (JStr c) => [c]
        | _ => []
        end
      else []
  | _ => []
  end.

(** The clause [search_content] appends for a space or a content type
    that is given and not empty. *)
Definition clause (field : string) (v : option str) : str :=
  match v with
  | Some (c :: x) => lit " AND " ++ lit field ++ lit " = " ++ dquote ++ (c :: x) ++ dquote
  | _ => []
  end.

Definition is_print (ev : event) : Prop :=
  match ev with
  | Print _ _ => True
  | Call _ _ => False
  end.

(** Between the traces [before] and [after] the first call of a
    collaborator is a [session.get] whose [cql] parameter is [cql]. *)
Definition sends_cql (before after : list event) (cql : str) : Prop :=
  exists prints url params rest,
    after = before ++ prints ++ Call "session.get" [url; params] :: rest /\
    Forall is_print prints /\
    dict_get params "cql" JNull = Ret (JStr cql).

(** The [cql] parameter of the first call of a collaborator made after
    the trace [before], when that call is a [session.get]. *)
Fixpoint first_call (evs : list event) : option event :=
  match evs with
  | [] => None
  | Print _ _ :: evs' => first_call evs'
  | Call target args :: _ => Some (Call target args)
  end.

Definition sent_cql (before after : list event) : option str :=
  match first_call (skipn (List.length before) after) with
  | Some ev => hd_error (cql_of ev)
  | None => None
  end.

(** ** Vocabulary of the statements about the credential lifecycle *)

(** The lifecycle is left without a credential and turns to the consent
    flow: no token file, a token file that does not load, or an expired
    credential whose refresh fails. *)
Definition needs_consent {Self : Type} (e : Google.env) (scopes : json)
           (tf : str) (st : state Self) : Prop :=
  files st tf = None \/
  (exists content ex,
      files st tf = Some content /\
      always (Google.from_authorized_user_file e tf content scopes) (Raise ex)) \/
  (exists content c ex,
      files st tf = Some content /\
      always (Google.from_authorized_user_file e tf content scopes) (Ret c) /\
      Google.expired c = true /\ truthy (Google.refresh_token c) = true /\
      always (Google.refresh e c) (Raise ex)).

(** The token file can be opened and written with the credential. *)
Definition save_succeeds (e : Google.env) (tf : str)
           (c : Google.credentials) : Prop :=
  always (Google.open_w e tf) (Ret tt) /\
  always (Google.file_write e tf (Google.to_json c)) (Ret tt).

(** The token file holds the credential and no other file has changed. *)
Definition token_saved {Self : Type} (tf : str) (c : Google.credentials)
           (before after : state Self) : Prop :=
  files after tf = Some (Google.to_json c) /\
  forall p, str_eqb p tf = false -> files after p = files before p.

(** ** Vocabulary of the statements about name resolution *)

(** The value of a key of a file entry; [JNull] when it has none. *)
Definition field (file : json) (key : string) : json :=
  match dict_item file key with
  | Ret v => v
  | Raise _ => JNull
  end.

Definition type_of (file : json) : json :=
  match Drive.type_desc file with
  | Ret v => v
  | Raise _ => JNull
  end.

(** The entry has the keys the listing reads. *)
Definition named_file (file : json) : Prop :=
  (exists v, dict_item file "name" = Ret v) /\
  (exists v, dict_item file "id" = Ret v).

Definition typed_file (file : json) : Prop :=
  named_file file /\ exists v, Drive.type_desc file = Ret v.

(** The line of the listing for one candidate. *)
Definition sheet_line (file : json) : event :=
  Print "  - {} (ID: {})" [field file "name"; field file "id"].

Definition file_line (file : json) : event :=
  Print "  - {} (ID: {}, Type: {})"
        [field file "name"; field file "id"; type_of file].

(** The search has been reached with the credential [c] and answers with
    the list [found]. *)
Definition search_finds {Self : Type} (e : Google.env) (scopes : json)
           (cf tf : str) (st st1 : state Self) (c : Google.credentials)
           (found : list json) : Prop :=
  Google.credential_lifecycle e scopes cf tf st = (Ret (Some c), st1) /\
  always (Google.build e "drive" "v3" c) (Ret tt) /\
  forall args,
    always (Google.execute e (Google.Client "drive" "v3" c) "files.list" args)
           (Ret (JDict [(lit "files", JList found)])).

(** Modelled from the spec: the outcome type of the name resolver of
    section 4.3, which the sources do not declare: zero matches give
    [NotFound], exactly one its ID, two or more [Ambiguous] with the
    candidate (name, id, type) tuples. *)
Inductive resolution : Type :=
| NotFound
| Found (id : json)
| Ambiguous (candidates : list (json * json * json)).

(** Modelled from the spec: [resolve_by_name] of section 4.3 on the
    matches of the search. *)
Definition resolve_by_name_spec (found : list json) : resolution :=
  match found with
  | [] => NotFound
  | [file] => Found (field file "id")
  | _ =>
      Ambiguous
        (map (fun file => (field file "name", field file "id", type_of file))
             found)
  end.

(** ** Vocabulary of the statements about the CSV text *)



(** ** Vocabulary of the statements about the exception boundary *)

(** What an operation answers when it fails: [None] for a read, [False]
    for a mutation. *)
Definition Jira_sentinel (o : Jira.op) : answer :=
  match o with
  | Jira.UpdateIssue _ _ | Jira.AddComment _ _
  | Jira.UpdateComponent _ _ _ _ _ => Done false
  | _ => Value JNull
  end.


Definition GoogleSheets_sentinel (o : GoogleSheets.op) : answer :=
  match o with
  | GoogleSheets.DeleteSpreadsheet _ _ _ _ | GoogleSheets.Authenticate
  | GoogleSheets.WriteRow _ _ _ | GoogleSheets.WriteCell _ _ _
  | GoogleSheets.WriteRange _ _ _ => Done false
  | _ => Value JNull
  end.




(** ** Vocabulary of the statements about what an operation does and keeps *)

(** The events an operation adds to the trace. *)
Definition added {Self A : Type} (m : M Self A) (st : state Self)
  : list event :=
  skipn (List.length (trace st)) (trace (snd (m st))).

(** From an object that satisfies [P] the operation leaves an object
    that satisfies [P], and every event it adds satisfies [Q]. *)
Definition keeps {Self A : Type} (P : Self -> Prop) (Q : event -> Prop)
           (m : M Self A) : Prop :=
  forall st, P (self st) ->
    P (self (snd (m st))) /\
    exists evs, trace (snd (m st)) = trace st ++ evs /\ Forall Q evs.

(** The event is a call of the collaborator [target]. *)
Definition is_call (target : string) (ev : event) : bool :=
  match ev with
  | Call t _ => String.eqb t target
  | Print _ _ => false
  end.

Definition not_call (target : string) (ev : event) : Prop :=
  is_call target ev = false.

(** ** Vocabulary of the statements about base URLs *)

(** [r] is [b] without its trailing slashes. *)
Definition trimmed (b r : str) : Prop :=
  (exists n, b = r ++ repeat "/"%char n) /\
  forall pre, r <> pre ++ lit "/".

(** ** Vocabulary of the statements about a [GoogleSheets] object *)

(** The methods that work through the client of the object. *)
Definition needs_client (o : GoogleSheets.op) : bool :=
  match o with
  | GoogleSheets.GetSheetList | GoogleSheets.ReadAll _
  | GoogleSheets.ReadRange _ _ | GoogleSheets.WriteRow _ _ _
  | GoogleSheets.WriteCell _ _ _ | GoogleSheets.WriteRange _ _ _
  | GoogleSheets.GetSpreadsheetInfo => true
  | _ => false
  end.



(** ** Further vocabulary of the statements about the credential lifecycle *)

(** The event is no step of a refresh or of the consent flow. *)
Definition no_renewal (ev : event) : Prop :=
  not_call "creds.refresh" ev /\
  not_call "InstalledAppFlow.from_client_secrets_file" ev /\
  not_call "flow.run_local_server" ev.

(** The consent flow fails: the client-secret file cannot be read, or
    the local server does not come back with a credential. *)
Definition consent_fails (e : Google.env) (scopes : json) (cf : str)
  : Prop :=
  (exists ex, always (Google.from_client_secrets_file e cf scopes) (Raise ex)) \/
  (always (Google.from_client_secrets_file e cf scopes) (Ret tt) /\
   exists ex, always (Google.run_local_server e) (Raise ex)).

(** ** Vocabulary of the statements about Confluence requests *)

(** A request with parameters carries the given [limit], capped at 200,
    and the given [start]. *)
Definition paginated (limit start : Z) (ev : event) : Prop :=
  forall url params,
    ev = Call "session.get" [url; params] ->
    dict_get params "limit" JNull = Ret (JInt (Z.min limit 200)) /\
    dict_get params "start" JNull = Ret (JInt start).

(** The entry of [search_content]'s result under [key]; [None] when the
    result is [None] or has no such entry. *)
Definition entry (result : json) (key : string) : json :=
  match dict_item result key with
  | Ret v => v
  | Raise _ => JNull
  end.

(** ** Vocabulary of the statements about excerpts *)

Definition not_gt (c : ascii) : bool := negb (Ascii.eqb c ">").

(** [s] has a match of [<[^>]+>]: a [<], at least one character other
    than [>], and a [>]. *)
Definition has_tag (s : str) : Prop :=
  exists pre inner post,
    inner <> [] /\ forallb not_gt inner = true /\
    s = pre ++ "<"%char :: inner ++ ">"%char :: post.

(** What follows a [<] that opens no tag: nothing, a [>] at once, or no
    [>] at all. *)
Definition opens_nothing (rest : str) : Prop :=
  match rest with
  | [] => True
  | c :: _ => c = ">"%char \/ forallb not_gt rest = true
  end.

(** No [<] of [s] opens a tag. *)
Definition tag_free (s : str) : Prop :=
  forall pre rest, s = pre ++ "<"%char :: rest -> opens_nothing rest.

(** ** Sample environments *)

Definition no_files : str -> option str := fun _ => None.

Module ConfluenceSample.

(** A server that answers every request with status 500. *)
Definition failing : Confluence.env :=
  Confluence.Env
    (fun _ _ _ => Ret (Response 500 (lit "Internal Server Error") (Ret JNull)))
    (fun r _ => Ret r).

(** A server that answers every request with two pages, and results
    that are kept as they come. *)
Definition two_pages : list json :=
  [JDict [(lit "id", JStr (lit "101")); (lit "title", JStr (lit "Roadmap"))];
   JDict [(lit "id", JStr (lit "102")); (lit "title", JStr (lit "Budget"))]].

Definition answering : Confluence.env :=
  Confluence.Env
    (fun _ _ _ =>
       Ret (Response 200 (lit "OK")
                     (Ret (JDict [(lit "results", JList two_pages);
                                  (lit "size", JInt 2)]))))
    (fun r _ => Ret r).

Definition with_docs : Confluence.session :=
  Confluence.init (lit "https://example.atlassian.net/wiki/")
                  (lit "me@example.com") (lit "secret") (Some (lit "DOCS")).

Definition with_empty_default : Confluence.session :=
  Confluence.init (lit "https://example.atlassian.net/wiki/")
                  (lit "me@example.com") (lit "secret") (Some []).

End ConfluenceSample.

Module JiraSample.

(** A server that refuses every call. *)
Definition refusing : Jira.env :=
  Jira.Env (fun _ _ _ _ => Raise (JIRAError (lit "Unauthorized")))
           (fun _ _ _ => Raise (JIRAError (lit "Issue Does Not Exist")))
           (fun _ _ _ => Ret JNull).

Definition session : Jira.jira :=
  Jira.Session (lit "https://example.atlassian.net") (lit "me@example.com")
               (lit "secret") true.

(** A server that knows the component asked for and no user. *)
Definition lead_unknown : Jira.env :=
  Jira.Env (fun _ _ _ _ => Ret tt)
           (fun method _ _ =>
              if String.eqb method "jira.user"
              then Raise (JIRAError (lit "User does not exist"))
              else Ret (JDict [(lit "name", JStr (lit "API"))]))
           (fun _ _ _ => Ret JNull).

(** A server that lists the roles of a project and refuses to show any
    of them. *)
Definition roles_unreadable : Jira.env :=
  Jira.Env (fun _ _ _ _ => Ret tt)
           (fun method _ _ =>
              if String.eqb method "jira.project_roles"
              then Ret (JDict [(lit "Developers",
                                JStr (lit "https://example.atlassian.net/rest/api/2/project/10000/role/10001"))])
              else Raise (JIRAError (lit "Forbidden")))
           (fun _ _ _ => Ret JNull).

End JiraSample.

Module GoogleSample.

Definition stale : Google.credentials :=
  Google.Credentials (Some (lit "ya29.old")) true (Some (lit "1//refresh"))
                     (lit "{token: ya29.old}").

Definition fresh : Google.credentials :=
  Google.Credentials (Some (lit "ya29.new")) false (Some (lit "1//refresh"))
                     (lit "{token: ya29.new}").

Definition current : Google.credentials :=
  Google.Credentials (Some (lit "ya29.cur")) false (Some (lit "1//refresh"))
                     (lit "{token: ya29.cur}").

(** The environment is given by what the token file loads to, what the
    refresh does, whether the token file can be opened for writing and
    what the Drive search answers; the consent flow gives [fresh]. *)
Definition make (loaded : Google.credentials)
           (refreshed : result Google.credentials)
           (opened : result unit) (listing : result json) : Google.env :=
  Google.Env (fun _ _ _ _ => Ret loaded)
             (fun _ _ => refreshed)
             (fun _ _ _ => Ret tt)
             (fun _ => Ret fresh)
             (fun _ _ => opened)
             (fun _ _ _ => Ret tt)
             (fun _ _ _ _ => Ret tt)
             (fun _ _ _ _ => listing)
             (fun _ => Ret (lit "no")).




Definition token_present : str -> option str :=
  fun p => if str_eqb p (lit "token.json")
           then Some (lit "{token: ya29.old}") else None.

Definition start : state unit := State tt token_present [].

End GoogleSample.

Module DriveSample.

Definition budget_2023 : json :=
  JDict [(lit "id", JStr (lit "1AAA")); (lit "name", JStr (lit "Budget"));
         (lit "mimeType", JStr (lit "application/vnd.google-apps.spreadsheet"))].

Definition budget_2024 : json :=
  JDict [(lit "id", JStr (lit "1BBB")); (lit "name", JStr (lit "Budget"));
         (lit "mimeType", JStr (lit "application/vnd.google-apps.spreadsheet"))].

(** A valid persisted credential and a Drive that lists [found]. *)
Definition listing (found : list json) : Google.env :=
  GoogleSample.make GoogleSample.current (Ret GoogleSample.fresh) (Ret tt)
                    (Ret (JDict [(lit "files", JList found)])).

End DriveSample.

Module SheetsSample.

(** A valid persisted credential, a Drive that knows the file and a
    user who confirms. *)
Definition confirming : Google.env :=
  Google.Env (fun _ _ _ _ => Ret GoogleSample.current)
             (fun _ _ => Ret GoogleSample.fresh)
             (fun _ _ _ => Ret tt)
             (fun _ => Ret GoogleSample.fresh)
             (fun _ _ => Ret tt)
             (fun _ _ _ => Ret tt)
             (fun _ _ _ _ => Ret tt)
             (fun _ _ _ _ => Ret (JDict [(lit "name", JStr (lit "Budget"))]))
             (fun _ => Ret (lit " Yes ")).

Definition unauthenticated : GoogleSheets.sheets :=
  GoogleSheets.Sheets (lit "1AAA") (lit "credentials.json")
                      (lit "token.json") None.

Definition authenticated : GoogleSheets.sheets :=
  GoogleSheets.Sheets (lit "1AAA") (lit "credentials.json")
                      (lit "token.json")
                      (Some (Google.Client "sheets" "v4" GoogleSample.current)).

End SheetsSample.

Module GoogleSample2.

(** A persisted credential that has expired and has no refresh token. *)
Definition worn_out : Google.credentials :=
  Google.Credentials (Some (lit "ya29.old")) true None
                     (lit "{token: ya29.old}").

(** No client-secret file: the consent flow cannot start. *)
Definition no_client_secret : Google.env :=
  Google.Env (fun _ _ _ _ => Ret GoogleSample.stale)
             (fun _ _ => Raise (OtherError (lit "invalid_grant")))
             (fun _ _ _ => Raise (FileNotFoundError (lit "credentials.json")))
             (fun _ => Ret GoogleSample.fresh)
             (fun _ _ => Ret tt)
             (fun _ _ _ => Ret tt)
             (fun _ _ _ _ => Ret tt)
             (fun _ _ _ _ => Ret JNull)
             (fun _ => Ret (lit "no")).

End GoogleSample2.

(** * Properties *)

(** ** Strings *)

Lemma ascii_eqb_true (a b : ascii) : Ascii.eqb a b = true -> a = b.
Proof. apply Ascii.eqb_eq. Qed.

Lemma strip_app (m r : str) : strip m (m ++ r) = Some r.
Proof.
  induction m as [|a m IH]; simpl; [reflexivity|].
  now rewrite Ascii.eqb_refl.
Qed.

Lemma strip_Some (p s r : str) : strip p s = Some r -> s = p ++ r.
Proof.
  revert s; induction p as [|a p IH]; intros [|b s] H; simpl in *;
    try discriminate; try (now inversion H).
  destruct (Ascii.eqb a b) eqn:E; [|discriminate].
  apply ascii_eqb_true in E; subst b. now rewrite (IH s H).
Qed.

Lemma starts_with_app (p r : str) : starts_with p (p ++ r) = true.
Proof.
  induction p as [|a p IH]; simpl; [reflexivity|].
  now rewrite Ascii.eqb_refl.
Qed.

Lemma starts_with_inv (p s : str) :
  starts_with p s = true -> exists r, s = p ++ r.
Proof.
  revert s; induction p as [|a p IH]; intros s H; simpl in *.
  - now exists s.
  - destruct s as [|b s]; [discriminate|].
    apply andb_true_iff in H as [E H]. apply ascii_eqb_true in E; subst b.
    destruct (IH s H) as [r ->]. now exists r.
Qed.

Lemma contains_unfold (needle hay : str) :
  contains needle hay =
  starts_with needle hay ||
  match hay with [] => false | _ :: hay' => contains needle hay' end.
Proof. destruct hay; reflexivity. Qed.

Lemma contains_spec (needle hay : str) :
  contains needle hay = true <-> substring_of needle hay.
Proof.
  split.
  - induction hay as [|c hay IH]; simpl; intros H.
    + rewrite orb_false_r in H. apply starts_with_inv in H as [r ->].
      now exists [], r.
    + apply orb_true_iff in H as [H|H].
      * apply starts_with_inv in H as [r ->]. now exists [], r.
      * destruct (IH H) as (pre & post & ->). now exists (c :: pre), post.
  - intros (pre & post & ->). induction pre as [|c pre IH]; simpl.
    + rewrite contains_unfold, starts_with_app. reflexivity.
    + rewrite IH. apply orb_true_r.
Qed.

Lemma app_same_start (m m' r r' : str) :
  m ++ r = m' ++ r' -> starts_with m m' = true \/ starts_with m' m = true.
Proof.
  revert m'; induction m as [|a m IH]; intros m' H; simpl.
  - now left.
  - destruct m' as [|b m']; simpl; [now right|].
    simpl in H. inversion H; subst. rewrite Ascii.eqb_refl; simpl.
    now apply IH.
Qed.

Lemma take_while_app (f : ascii -> bool) (g post : str) :
  forallb f g = true ->
  match post with [] => True | c :: _ => f c = false end ->
  take_while f (g ++ post) = g.
Proof.
  intros Hg Hp. induction g as [|c g IH]; simpl in *.
  - destruct post as [|c post]; simpl; [reflexivity|now rewrite Hp].
  - apply andb_true_iff in Hg as [Hc Hg]. rewrite Hc. now rewrite IH.
Qed.

Lemma take_while_nil (f : ascii -> bool) (s : str) :
  take_while f s = [] <->
  match s with [] => True | c :: _ => f c = false end.
Proof.
  destruct s as [|c s]; simpl; [tauto|].
  destruct (f c); split; intros; congruence.
Qed.

Example extract_id_sheet_url :
  Drive.extract_id
    (lit "https://docs.google.com/spreadsheets/d/1BxiMVs0XRA5nFMdKvBdBZjgmUUqptlbs74OgvE2upms/edit")
  = Ret (lit "1BxiMVs0XRA5nFMdKvBdBZjgmUUqptlbs74OgvE2upms").
Proof. vm_compute. reflexivity. Qed.

(** ** The matcher against the language of a pattern *)

Lemma match_atom_spec (a : atom) (s r : str) :
  In r (match_atom a s) <-> exists m, In m (atom_lang a) /\ s = m ++ r.
Proof.
  destruct a as [t|ts|cs]; simpl.
  - destruct (strip (lit t) s) as [r'|] eqn:E; simpl.
    + apply strip_Some in E. split.
      * intros [<-|[]]. exists (lit t); auto.
      * intros (m & [<-|[]] & H). left. subst s.
        now apply app_inv_head in H.
    + split; [intros []|]. intros (m & [<-|[]] & ->).
      rewrite strip_app in E. discriminate.
  - rewrite in_flat_map. split.
    + intros (t & Ht & Hr). destruct (strip (lit t) s) as [r'|] eqn:E;
        simpl in Hr; [|destruct Hr]. destruct Hr as [<-|[]].
      apply strip_Some in E. exists (lit t). split; [now apply in_map|easy].
    + intros (m & Hm & ->). apply in_map_iff in Hm as (t & <- & Ht).
      exists t. split; [easy|]. rewrite strip_app. now left.
  - destruct s as [|c s].
    + split; [intros []|]. intros (m & Hm & H).
      apply in_map_iff in Hm as (c & <- & _). discriminate.
    + destruct (existsb (Ascii.eqb c) (lit cs)) eqn:E.
      * apply existsb_exists in E as (c' & Hc' & E).
        apply ascii_eqb_true in E; subst c'. split.
        -- intros [<-|[]]. exists [c]. split; [|reflexivity].
           apply in_map_iff. now exists c.
        -- intros (m & Hm & H). apply in_map_iff in Hm as (c' & <- & _).
           inversion H. now left.
      * split; [intros []|]. intros (m & Hm & H).
        apply in_map_iff in Hm as (c' & <- & Hc'). inversion H; subst c'.
        assert (existsb (Ascii.eqb c) (lit cs) = true); [|congruence].
        apply existsb_exists. exists c. split; [easy|apply Ascii.eqb_refl].
Qed.

Lemma match_lead_spec (p : pattern) (s r : str) :
  In r (match_lead p s) <-> exists m, In m (lang p) /\ s = m ++ r.
Proof.
  revert s; induction p as [|a p IH]; intros s; simpl.
  - split.
    + intros [<-|[]]. exists []. auto.
    + intros (m & [<-|[]] & ->). now left.
  - rewrite in_flat_map. split.
    + intros (s' & Hs' & Hr). apply match_atom_spec in Hs' as (m1 & Hm1 & ->).
      apply IH in Hr as (m2 & Hm2 & ->). exists (m1 ++ m2).
      split; [|now rewrite app_assoc]. apply in_flat_map. exists m1.
      split; [easy|]. now apply in_map.
    + intros (m & Hm & ->). apply in_flat_map in Hm as (m1 & Hm1 & Hm).
      apply in_map_iff in Hm as (m2 & <- & Hm2). exists (m2 ++ r). split.
      * apply match_atom_spec. exists m1. now rewrite app_assoc.
      * apply IH. now exists m2.
Qed.

Lemma first_group_None (rs : list str) :
  first_group rs = None <-> forall r, In r rs -> take_while id_char r = [].
Proof.
  induction rs as [|r rs IH]; simpl.
  - split; [intros _ r []|reflexivity].
  - destruct (take_while id_char r) eqn:E.
    + rewrite IH. split.
      * intros H r' [<-|Hr']; auto.
      * intros H r' Hr'. apply H. now right.
    + split; [discriminate|]. intros H. specialize (H r (or_introl eq_refl)).
      congruence.
Qed.

Lemma first_group_same (rs : list str) (r g : str) :
  In r rs -> (forall r', In r' rs -> r' = r) ->
  take_while id_char r = g -> g <> [] -> first_group rs = Some g.
Proof.
  destruct rs as [|r0 rs]; [intros []|]. intros _ H E Hg.
  rewrite (H r0 (or_introl eq_refl)). simpl. rewrite E.
  destruct g; [now elim Hg|reflexivity].
Qed.

Lemma match_at_None (p : pattern) (s : str) :
  match_at p s = None <-> ~ occurs_at p s 0.
Proof.
  unfold match_at, occurs_at. rewrite first_group_None. simpl. split.
  - intros H (m & c & rest & Hm & Hc & ->).
    assert (E : take_while id_char (c :: rest) = []).
    { apply H, match_lead_spec. now exists m. }
    simpl in E. rewrite Hc in E. discriminate.
  - intros H r Hr. apply match_lead_spec in Hr as (m & Hm & ->).
    apply take_while_nil. destruct r as [|c r]; [exact I|].
    destruct (id_char c) eqn:Hc; [|reflexivity].
    exfalso. apply H. now exists m, c, r.
Qed.

Lemma match_at_marker (p : pattern) (m g post : str) :
  prefix_free (lang p) -> In m (lang p) ->
  g <> [] -> forallb id_char g = true -> boundary post ->
  match_at p (m ++ g ++ post) = Some g.
Proof.
  intros Hpf Hm Hg Hid Hb. unfold match_at.
  apply first_group_same with (r := g ++ post); auto.
  - apply match_lead_spec. now exists m.
  - intros r' Hr'. apply match_lead_spec in Hr' as (m' & Hm' & E).
    assert (m = m') as <-.
    { destruct (app_same_start _ _ _ _ E) as [H|H].
      - now apply Hpf.
      - symmetry. now apply Hpf. }
    now apply app_inv_head in E.
  - now apply take_while_app.
Qed.

Lemma occurs_at_S (p : pattern) (c : ascii) (s : str) (i : nat) :
  occurs_at p (c :: s) (S i) <-> occurs_at p s i.
Proof. reflexivity. Qed.

Lemma re_search_skip (p : pattern) (pre rest : str) :
  (forall i, i < List.length pre -> ~ occurs_at p (pre ++ rest) i) ->
  re_search p (pre ++ rest) = re_search p rest.
Proof.
  induction pre as [|c pre IH]; intros H; [reflexivity|].
  simpl app. simpl re_search.
  assert (E : match_at p (c :: pre ++ rest) = None).
  { apply match_at_None. apply (H 0). simpl; lia. }
  rewrite E. apply IH. intros i Hi. rewrite <- occurs_at_S.
  apply H. simpl; lia.
Qed.

Lemma re_search_None (p : pattern) (s : str) :
  re_search p s = None <-> forall i, ~ occurs_at p s i.
Proof.
  induction s as [|c s IH]; simpl.
  - destruct (match_at p []) eqn:E.
    + split; [discriminate|]. intros H. exfalso.
      assert (N : match_at p [] = None) by (apply match_at_None, H).
      congruence.
    + split; [|reflexivity]. intros _ [|i]; [now apply match_at_None|].
      intros (m & c & rest & _ & _ & H). simpl in H.
      destruct m; discriminate.
  - destruct (match_at p (c :: s)) eqn:E.
    + split; [discriminate|]. intros H. exfalso.
      assert (N : match_at p (c :: s) = None) by (apply match_at_None, H).
      congruence.
    + rewrite IH. split.
      * intros H [|i]; [now apply match_at_None|]. rewrite occurs_at_S. apply H.
      * intros H i. rewrite <- occurs_at_S. apply H.
Qed.

Lemma re_search_leftmost (p : pattern) (pre m g post : str) :
  prefix_free (lang p) -> In m (lang p) ->
  g <> [] -> forallb id_char g = true -> boundary post ->
  (forall i, i < List.length pre -> ~ occurs_at p (pre ++ m ++ g ++ post) i) ->
  re_search p (pre ++ m ++ g ++ post) = Some g.
Proof.
  intros Hpf Hm Hg Hid Hb Hleft. rewrite re_search_skip by exact Hleft.
  destruct (m ++ g ++ post) eqn:E; simpl; rewrite <- E;
    now rewrite match_at_marker.
Qed.

(** ** [Drive.extract_id] *)

(** The markers of the five patterns, spelled out. *)
Example pattern_markers :
  map lang Drive.patterns =
  [ [lit "/spreadsheets/d/"; lit "/document/d/"; lit "/presentation/d/";
     lit "/forms/d/"];
    [lit "/file/d/"];
    [lit "?id="; lit "&id="];
    [lit "/d/"];
    [lit "id="] ].
Proof. reflexivity. Qed.

Lemma patterns_prefix_free (p : pattern) :
  In p Drive.patterns -> prefix_free (lang p).
Proof.
  intros Hp m m' Hm Hm' H.
  repeat (destruct Hp as [<-|Hp]; [
    simpl in Hm, Hm';
    repeat (destruct Hm as [<-|Hm]; [|]);
    repeat (destruct Hm' as [<-|Hm']; [|]);
    solve [reflexivity | discriminate H | contradiction]|]).
  destruct Hp.
Qed.

Lemma has_host_marker_true (s : str) :
  (exists h, In h host_markers /\ substring_of h s) ->
  Drive.has_host_marker s = true.
Proof.
  intros (h & Hh & Hs). apply contains_spec in Hs. unfold Drive.has_host_marker.
  destruct Hh as [<-|[<-|[<-|[]]]]; rewrite Hs;
    rewrite ?orb_true_r; reflexivity.
Qed.

Lemma has_host_marker_false (s : str) :
  (forall h, In h host_markers -> ~ substring_of h s) ->
  Drive.has_host_marker s = false.
Proof.
  intros H. unfold Drive.has_host_marker.
  assert (N : forall h, In h host_markers -> contains h s = false).
  { intros h Hh. destruct (contains h s) eqn:E; [|reflexivity].
    apply contains_spec in E. now elim (H h Hh). }
  rewrite !N; simpl; auto.
Qed.

Lemma first_match_nth (ps : list pattern) (k : nat) (p : pattern) (s g : str) :
  nth_error ps k = Some p ->
  (forall j q, j < k -> nth_error ps j = Some q -> re_search q s = None) ->
  re_search p s = Some g ->
  Drive.first_match ps s = Some g.
Proof.
  revert k; induction ps as [|p0 ps IH]; intros [|k] Hk Hbefore Hp;
    simpl in *; try discriminate.
  - inversion Hk; subst. now rewrite Hp.
  - rewrite (Hbefore 0 p0) by (simpl; auto; lia).
    apply (IH k); auto. intros j q Hj Hq. apply (Hbefore (S j)); [lia|exact Hq].
Qed.

Lemma first_match_None (ps : list pattern) (s : str) :
  (forall p, In p ps -> re_search p s = None) ->
  Drive.first_match ps s = None.
Proof.
  induction ps as [|p ps IH]; intros H; simpl; [reflexivity|].
  rewrite (H p (or_introl eq_refl)). apply IH. intros q Hq. apply H. now right.
Qed.

(** The first pattern, in the order of the list, that occurs in the
    reference gives the result: the ID after its leftmost marker. *)
Lemma extract_id_first_pattern
      (k : nat) (p : pattern) (url pre m id post : str) :
  url = pre ++ m ++ id ++ post ->
  nth_error Drive.patterns k = Some p -> In m (lang p) ->
  id <> [] -> forallb id_char id = true -> boundary post ->
  (exists h, In h host_markers /\ substring_of h url) ->
  (forall j q i,
      j < k -> nth_error Drive.patterns j = Some q -> ~ occurs_at q url i) ->
  (forall i, i < List.length pre -> ~ occurs_at p url i) ->
  Drive.extract_id url = Ret id.
Proof.
  intros -> Hk Hm Hid Hchars Hpost Hhost Hearlier Hleft.
  unfold Drive.extract_id. rewrite (has_host_marker_true Hhost). simpl negb.
  cbv iota.
  rewrite (@first_match_nth Drive.patterns k p _ id); auto.
  - intros j q Hj Hq. apply re_search_None. intros i. now apply (Hearlier j q i).
  - apply re_search_leftmost; auto.
    apply patterns_prefix_free. eapply nth_error_In; eauto.
Qed.

Lemma no_match_before_sound (p : pattern) (s : str) (n : nat) :
  no_match_before p s n = true ->
  forall i, i < n -> ~ occurs_at p s i.
Proof.
  unfold no_match_before. rewrite forallb_forall. intros H i Hi.
  specialize (H i). rewrite in_seq in H. specialize (H ltac:(lia)).
  destruct (match_at p (skipn i s)) eqn:E; [discriminate|].
  apply match_at_None in E. exact E.
Qed.

Lemma no_match_sound (p : pattern) (s : str) :
  re_search p s = None -> forall i, ~ occurs_at p s i.
Proof. apply re_search_None. Qed.

Lemma substring_of_decide (h s : str) :
  contains h s = true -> substring_of h s.
Proof. apply contains_spec. Qed.

Lemma not_substring_of_decide (h s : str) :
  contains h s = false -> ~ substring_of h s.
Proof. intros E H. apply contains_spec in H. congruence. Qed.

(** C2. A reference that contains none of the host markers
    [google.com], [drive.google.com], [docs.google.com] is returned as it
    is: [extract_id] looks at nothing else of it. *)
Theorem extract_id_raw_id_unchanged (s : str) :
  (forall h, In h host_markers -> ~ substring_of h s) ->
  Drive.extract_id s = Ret s.
Proof.
  intros H. unfold Drive.extract_id.
  now rewrite (has_host_marker_false H).
Qed.

Lemma extract_id_raw_id_unchanged_witness :
  (forall h, In h host_markers ->
             ~ substring_of h (lit "1BxiMVs0XRA5nFMdKvBdBZjgmUUqptlbs74OgvE2upms")) /\
  Drive.extract_id (lit "1BxiMVs0XRA5nFMdKvBdBZjgmUUqptlbs74OgvE2upms")
  = Ret (lit "1BxiMVs0XRA5nFMdKvBdBZjgmUUqptlbs74OgvE2upms").
Proof.
  assert (H : forall h, In h host_markers ->
     ~ substring_of h (lit "1BxiMVs0XRA5nFMdKvBdBZjgmUUqptlbs74OgvE2upms")).
  { intros h [<-|[<-|[<-|[]]]]; apply not_substring_of_decide;
      vm_compute; reflexivity. }
  split; [exact H|].
  apply (@extract_id_raw_id_unchanged
           (lit "1BxiMVs0XRA5nFMdKvBdBZjgmUUqptlbs74OgvE2upms") H).
Defined.



(** The short shape, the fourth pattern of the list. *)
Example extract_id_short_url :
  Drive.extract_id (lit "https://docs.google.com/d/abc-123_X")
  = Ret (lit "abc-123_X").
Proof.
  apply (@extract_id_first_pattern 3 [Str "/d/"]%string
           _ (lit "https://docs.google.com") (lit "/d/")
           (lit "abc-123_X") []).
  - reflexivity.
  - reflexivity.
  - simpl. auto.
  - discriminate.
  - vm_compute. reflexivity.
  - exact I.
  - exists (lit "google.com"). split; [simpl; auto|].
    apply substring_of_decide. vm_compute. reflexivity.
  - intros [|[|[|j]]] q i Hj Hq; [| | |lia]; inversion Hq; subst q;
      apply no_match_sound; vm_compute; reflexivity.
  - apply no_match_before_sound. vm_compute. reflexivity.
Qed.

(** C4. A reference with a host marker in which none of the patterns
    occurs is refused: [extract_id] raises [ValueError]. *)
Theorem extract_id_unrecognized (url : str) :
  (exists h, In h host_markers /\ substring_of h url) ->
  (forall p i, In p Drive.patterns -> ~ occurs_at p url i) ->
  Drive.extract_id url =
  Raise (ValueError (lit "Could not extract file ID from URL: " ++ url)).
Proof.
  intros Hhost Hnone. unfold Drive.extract_id.
  rewrite (has_host_marker_true Hhost). simpl negb. cbv iota.
  rewrite first_match_None; [reflexivity|].
  intros p Hp. apply re_search_None. intros i. now apply Hnone.
Qed.

Lemma extract_id_unrecognized_witness :
  Drive.extract_id (lit "https://docs.google.com/unknown/xyz") =
  Raise (ValueError (lit "Could not extract file ID from URL: " ++
                     lit "https://docs.google.com/unknown/xyz")).
Proof.
  apply (@extract_id_unrecognized (lit "https://docs.google.com/unknown/xyz")).
  - exists (lit "docs.google.com"). split; [simpl; auto|].
    apply substring_of_decide. vm_compute. reflexivity.
  - intros p i Hp. revert i. apply no_match_sound.
    repeat (destruct Hp as [<-|Hp]; [vm_compute; reflexivity|]).
    destruct Hp.
Defined.

(** C5. The resource-type path pattern is the first of the list, before
    both [id=] patterns, so a compound URL with a resource-type segment
    [/{kind}/d/{id1}] and an [id={id2}] query parameter yields [id1]. *)
Theorem extract_id_path_before_query
        (url pre kind id1 post a sep id2 b : str) :
  In kind [lit "spreadsheets"; lit "document"; lit "presentation";
           lit "forms"] ->
  url = pre ++ (lit "/" ++ kind ++ lit "/d/") ++ id1 ++ post ->
  id1 <> [] -> forallb id_char id1 = true -> boundary post ->
  In sep [lit "?"; lit "&"] ->
  url = a ++ (sep ++ lit "id=") ++ id2 ++ b ->
  id2 <> [] -> forallb id_char id2 = true -> boundary b ->
  (exists h, In h host_markers /\ substring_of h url) ->
  (forall i, i < List.length pre ->
             ~ occurs_at (nth 0 Drive.patterns []) url i) ->
  Drive.extract_id url = Ret id1.
Proof.
  intros Hkind Hurl Hid1 Hc1 Hpost _ _ _ _ _ Hhost Hleft.
  apply (@extract_id_first_pattern 0 (nth 0 Drive.patterns [])
           url pre (lit "/" ++ kind ++ lit "/d/") id1 post); auto.
  - simpl in Hkind. simpl.
    destruct Hkind as [<-|[<-|[<-|[<-|[]]]]]; auto.
  - intros j q i Hj. lia.
Qed.

Lemma extract_id_path_before_query_witness :
  Drive.extract_id
    (lit "https://docs.google.com/spreadsheets/d/AAA111/edit?id=BBB222")
  = Ret (lit "AAA111").
Proof.
  apply (@extract_id_path_before_query
           _ (lit "https://docs.google.com") (lit "spreadsheets")
           (lit "AAA111") (lit "/edit?id=BBB222")
           (lit "https://docs.google.com/spreadsheets/d/AAA111/edit")
           (lit "?") (lit "BBB222") []).
  - simpl. auto.
  - reflexivity.
  - discriminate.
  - vm_compute. reflexivity.
  - vm_compute. reflexivity.
  - simpl. auto.
  - reflexivity.
  - discriminate.
  - vm_compute. reflexivity.
  - exact I.
  - exists (lit "google.com"). split; [simpl; auto|].
    apply substring_of_decide. vm_compute. reflexivity.
  - apply no_match_before_sound. vm_compute. reflexivity.
Defined.

(** ** The exception monad *)

Lemma extends_ret {Self A : Type} (a : A) : extends (@ret Self A a).
Proof. intros st. exists []. simpl. now rewrite app_nil_r. Qed.

Lemma extends_raise {Self A : Type} (e : exn) : extends (@raise Self A e).
Proof. intros st. exists []. simpl. now rewrite app_nil_r. Qed.

Lemma extends_lift {Self A : Type} (r : result A) : extends (@lift Self A r).
Proof. intros st. exists []. simpl. now rewrite app_nil_r. Qed.

Lemma extends_get_self {Self : Type} : extends (@get_self Self).
Proof. intros st. exists []. simpl. now rewrite app_nil_r. Qed.

Lemma extends_set_self {Self : Type} (s : Self) : extends (set_self s).
Proof. intros st. exists []. simpl. now rewrite app_nil_r. Qed.

Lemma extends_emit {Self : Type} (ev : event) : extends (@emit Self ev).
Proof. intros st. now exists [ev]. Qed.

Lemma extends_print {Self : Type} (fmt : string) (args : list json) :
  extends (@print Self fmt args).
Proof. apply extends_emit. Qed.

Lemma extends_vendor {Self A : Type} (target : string) (args : list json)
      (o : oracle A) :
  extends (@vendor Self A target args o).
Proof. intros st. now exists [Call target args]. Qed.

Lemma extends_bind {Self A B : Type} (m : M Self A) (k : A -> M Self B) :
  extends m -> (forall a, extends (k a)) -> extends (bind m k).
Proof.
  intros Hm Hk st. unfold bind. destruct (Hm st) as [evs E].
  destruct (m st) as [[a|e] st1]; simpl in E.
  - destruct (Hk a st1) as [evs' E']. exists (evs ++ evs').
    now rewrite E', E, app_assoc.
  - now exists evs.
Qed.

Lemma extends_try_except {Self A : Type} (m : M Self A)
      (h : exn -> M Self A) :
  extends m -> (forall e, extends (h e)) -> extends (try_except m h).
Proof.
  intros Hm Hh st. unfold try_except. destruct (Hm st) as [evs E].
  destruct (m st) as [[a|e] st1]; simpl in E.
  - now exists evs.
  - destruct (Hh e st1) as [evs' E']. exists (evs ++ evs').
    now rewrite E', E, app_assoc.
Qed.

Lemma extends_for_each {Self A B : Type} (f : A -> M Self B) (xs : list A) :
  (forall x, extends (f x)) -> extends (for_each f xs).
Proof.
  intros Hf. induction xs as [|x xs IH]; simpl.
  - apply extends_ret.
  - apply extends_bind; [apply Hf|]. intros y.
    apply extends_bind; [apply IH|]. intros ys. apply extends_ret.
Qed.

Create HintDb py discriminated.
#[global] Hint Resolve extends_ret extends_raise extends_lift extends_get_self
  extends_set_self extends_emit extends_print extends_vendor : py.

(** Goes through the combinators of an operation. *)
Ltac extends_tac :=
  repeat first
    [ progress auto with py
    | apply extends_bind; [|intros ?]
    | apply extends_try_except; [|intros ?]
    | apply extends_for_each; intros ?
    | match goal with
      | |- extends (if ?b then _ else _) => destruct b
      | |- extends (match ?x with _ => _ end) => destruct x
      | |- extends (let _ := _ in _) => cbv zeta
      end ].

Lemma returns_try_except {Self A : Type} (m : M Self A)
      (h : exn -> M Self A) (st : state Self) :
  (forall e st', returns (h e) st') -> returns (try_except m h) st.
Proof.
  intros Hh. unfold returns, try_except.
  destruct (m st) as [[a|e] st1]; [now exists a, st1|apply Hh].
Qed.

Lemma returns_bind {Self A B : Type} (m : M Self A) (k : A -> M Self B)
      (st : state Self) :
  returns m st -> (forall a st', returns (k a) st') -> returns (bind m k) st.
Proof.
  intros (a & st1 & E) Hk. unfold returns, bind. rewrite E. apply Hk.
Qed.

Lemma returns_ret {Self A : Type} (a : A) (st : state Self) :
  returns (ret a) st.
Proof. now exists a, st. Qed.

Lemma returns_print {Self : Type} (fmt : string) (args : list json)
      (st : state Self) :
  returns (print fmt args) st.
Proof. unfold returns, print, emit. eauto. Qed.

Lemma returns_value_of {Self : Type} (m : M Self json)
      (st : state Self) :
  returns m st -> returns (value_of m) st.
Proof. intros H. apply returns_bind; [exact H|]. intros. apply returns_ret. Qed.

Lemma returns_done_of {Self : Type} (m : M Self bool) (st : state Self) :
  returns m st -> returns (done_of m) st.
Proof. intros H. apply returns_bind; [exact H|]. intros. apply returns_ret. Qed.

#[global] Hint Resolve returns_ret returns_print : py.

(** A handler that prints and returns its sentinel. *)
Ltac returns_tac :=
  repeat first
    [ progress auto with py
    | apply returns_value_of
    | apply returns_done_of
    | apply returns_try_except; intros ? ?
    | apply returns_bind; [|intros ? ?]
    | match goal with
      | |- returns (if ?b then _ else _) _ => destruct b
      | |- returns (match ?x with _ => _ end) _ => destruct x
      end ].

(** ** atlassian/confluence.py *)

Lemma Confluence_returns (e : Confluence.env) (o : Confluence.op)
      (st : state Confluence.session) :
  returns (Confluence.run e o) st.
Proof. destruct o; unfold Confluence.run; returns_tac. Qed.

Lemma try_bind_get_self {Self A : Type} (k : Self -> M Self A)
      (h : exn -> M Self A) (st : state Self) :
  try_except (x <- get_self ;; k x) h st = try_except (k (self st)) h st.
Proof. reflexivity. Qed.

Lemma try_bind_ret {Self A B : Type} (b : B) (k : B -> M Self A)
      (h : exn -> M Self A) (st : state Self) :
  try_except (x <- ret b ;; k x) h st = try_except (k b) h st.
Proof. reflexivity. Qed.

Lemma try_bind_print {Self A : Type} (fmt : string) (args : list json)
      (m : M Self A) (h : exn -> M Self A) (st : state Self) :
  try_except (print fmt args ;; m) h st =
  try_except m h (State (self st) (files st) (trace st ++ [Print fmt args])).
Proof. reflexivity. Qed.

Lemma try_bind_assoc {Self A B C : Type} (m : M Self B) (k1 : B -> M Self C)
      (k2 : C -> M Self A) (h : exn -> M Self A) (st : state Self) :
  try_except (x <- (y <- m ;; k1 y) ;; k2 x) h st =
  try_except (y <- m ;; x <- k1 y ;; k2 x) h st.
Proof.
  unfold try_except, bind. destruct (m st) as [[b|e] st1]; reflexivity.
Qed.

Lemma try_bind_vendor {Self A B : Type} (target : string) (args : list json)
      (o : oracle B) (k : B -> M Self A) (h : exn -> M Self A)
      (st : state Self) :
  (forall b, extends (k b)) -> (forall e, extends (h e)) ->
  exists rest,
    trace (snd (try_except (x <- vendor target args o ;; k x) h st)) =
    trace st ++ Call target args :: rest.
Proof.
  intros Hk Hh.
  set (st1 := State (self st) (files st) (trace st ++ [Call target args])).
  assert (E : exists evs,
             trace (snd (try_except (x <- vendor target args o ;; k x) h st)) =
             trace st1 ++ evs).
  { unfold try_except, bind, vendor. fold st1.
    destruct (o (trace st)) as [b|e].
    - destruct (Hk b st1) as [evs Ek].
      destruct (k b st1) as [[a|e'] st2]; simpl in *.
      + now exists evs.
      + destruct (Hh e' st2) as [evs' Eh]. exists (evs ++ evs').
        now rewrite Eh, Ek, app_assoc.
    - apply Hh. }
  destruct E as [evs E]. exists evs. rewrite E. simpl.
  now rewrite <- app_assoc.
Qed.

Lemma sends_cql_sent (before after : list event) (cql : str) :
  sends_cql before after cql -> sent_cql before after = Some cql.
Proof.
  intros (prints & url & params & rest & -> & Hp & Hc).
  unfold sent_cql. rewrite skipn_app, skipn_all, Nat.sub_diag. simpl.
  induction Hp as [|ev prints Hev _ IH]; simpl.
  - now rewrite Hc.
  - destruct ev; [exact IH|destruct Hev].
Qed.

(** What [search_content] sends: the query, the space clause of the
    effective space, the content-type clause. *)
Lemma search_content_sends
      (e : Confluence.env) (slf : Confluence.session)
      (fs : str -> option str) (tr : list event)
      (query : str) (space_key content_type : option str)
      (limit start : Z) (expand : option str) (use_default_space : bool)
      (space : option str) :
  (if negb (truthy space_key) && use_default_space
      && truthy (Confluence.default_space slf)
   then Confluence.default_space slf else space_key) = space ->
  sends_cql tr
    (trace (snd (Confluence.search_content e query space_key content_type
                   limit start expand use_default_space (State slf fs tr))))
    (query ++ clause "space" space ++ clause "type" content_type).
Proof.
  intros Hspace. unfold Confluence.search_content.
  rewrite try_bind_get_self. cbv beta zeta. cbn [self].
  destruct (negb (truthy space_key) && use_default_space
            && truthy (Confluence.default_space slf)) eqn:C; subst space.
  - rewrite try_bind_assoc, try_bind_print, try_bind_ret. cbv beta.
    rewrite try_bind_print.
    match goal with
    | |- context [try_except (bind (vendor ?t ?a ?o) ?k) ?h ?st] =>
        destruct (@try_bind_vendor _ _ _ t a o k h st) as [rest E];
          [intros; extends_tac|intros; extends_tac|]
    end.
    rewrite E. cbn [trace].
    eexists [_; _], _, _, rest. split; [|split].
    + rewrite <- !app_assoc. reflexivity.
    + repeat constructor.
    + cbn. do 2 f_equal.
      destruct content_type as [[|c x]|],
               (Confluence.default_space slf) as [[|c0 x0]|];
        unfold clause; simpl; rewrite ?app_nil_r, <- ?app_assoc; reflexivity.
  - rewrite try_bind_ret. cbv beta. rewrite try_bind_print.
    match goal with
    | |- context [try_except (bind (vendor ?t ?a ?o) ?k) ?h ?st] =>
        destruct (@try_bind_vendor _ _ _ t a o k h st) as [rest E];
          [intros; extends_tac|intros; extends_tac|]
    end.
    rewrite E. cbn [trace].
    eexists [_], _, _, rest. split; [|split].
    + rewrite <- !app_assoc. reflexivity.
    + repeat constructor.
    + cbn. do 2 f_equal.
      destruct content_type as [[|c x]|], space_key as [[|c0 x0]|];
        unfold clause; simpl; rewrite ?app_nil_r, <- ?app_assoc; reflexivity.
Qed.

(** C10, as the code has it: the CQL [search_content] sends is the query,
    then the space clause, then the content-type clause.  The space of
    the clause is the configured default when [space_key] is [None] or
    empty, [use_default_space] holds and the default is not empty; in
    every other case it is [space_key], and an empty or absent
    [space_key] adds no space clause at all. *)
Theorem search_content_cql
        (e : Confluence.env) (slf : Confluence.session)
        (fs : str -> option str) (tr : list event)
        (query : str) (space_key content_type : option str)
        (limit start : Z) (expand : option str) (use_default_space : bool) :
  let after :=
    trace (snd (Confluence.search_content e query space_key content_type
                  limit start expand use_default_space (State slf fs tr))) in
  (truthy space_key = false -> use_default_space = true ->
   forall d, Confluence.default_space slf = Some d -> d <> [] ->
   sent_cql tr after =
   Some (query ++ (lit " AND space = " ++ dquote ++ d ++ dquote)
               ++ clause "type" content_type)) /\
  (use_default_space = false \/ truthy space_key = true \/
   truthy (Confluence.default_space slf) = false ->
   sent_cql tr after =
   Some (query ++ clause "space" space_key ++ clause "type" content_type)).
Proof.
  cbv zeta. split.
  - intros Hsk -> d Hd Hne. apply sends_cql_sent.
    replace (lit " AND space = " ++ dquote ++ d ++ dquote)
      with (clause "space" (Some d))
      by (destruct d; [now elim Hne|reflexivity]).
    apply search_content_sends.
    rewrite Hsk, Hd. destruct d; [now elim Hne|reflexivity].
  - intros H. apply sends_cql_sent, search_content_sends.
    destruct H as [-> | [-> | ->]]; rewrite ?andb_false_r; reflexivity.
Qed.

Lemma search_content_cql_witness :
  sent_cql []
    (trace (snd (Confluence.search_content ConfluenceSample.failing
                   (lit "text ~ report") None (Some (lit "page")) 25 0 None
                   true (State ConfluenceSample.with_docs no_files []))))
  = Some (lit "text ~ report AND space = " ++ dquote ++ lit "DOCS" ++ dquote ++
          lit " AND type = " ++ dquote ++ lit "page" ++ dquote).
Proof.
  assert (Hd : lit "DOCS" <> []) by discriminate.
  exact (proj1 (@search_content_cql ConfluenceSample.failing
                  ConfluenceSample.with_docs no_files []
                  (lit "text ~ report") None (Some (lit "page")) 25 0 None
                  true)
               eq_refl eq_refl (lit "DOCS") eq_refl Hd).
Defined.

(** C10 as stated fails for a default space that is configured as the
    empty string: it is not [None], and no space clause is sent. *)
Lemma search_content_empty_default_space :
  Confluence.default_space ConfluenceSample.with_empty_default <> None /\
  sent_cql []
    (trace (snd (Confluence.search_content ConfluenceSample.failing
                   (lit "text ~ report") None None 25 0 None true
                   (State ConfluenceSample.with_empty_default no_files []))))
  = Some (lit "text ~ report") /\
  Some (lit "text ~ report") <>
  Some (lit "text ~ report" ++ lit " AND space = " ++ dquote ++ [] ++ dquote).
Proof.
  split; [discriminate|]. split; [vm_compute; reflexivity|].
  vm_compute. discriminate.
Qed.

(** ** No exception crosses the operations *)

Lemma returns_get_self {Self : Type} (st : state Self) : returns get_self st.
Proof. unfold returns, get_self. eauto. Qed.

Lemma returns_set_self {Self : Type} (s : Self) (st : state Self) :
  returns (set_self s) st.
Proof. unfold returns, set_self. eauto. Qed.

Lemma returns_path_exists {Self : Type} (p : str) (st : state Self) :
  returns (path_exists p) st.
Proof. unfold returns, path_exists. eauto. Qed.

Lemma returns_store_file {Self : Type} (p c : str) (st : state Self) :
  returns (store_file p c) st.
Proof. unfold returns, store_file. eauto. Qed.

#[global] Hint Resolve returns_get_self returns_set_self returns_path_exists
  returns_store_file : py.

Lemma returns_lifecycle {Self : Type} (e : Google.env) (scopes : json)
      (cf tf : str) (st : state Self) :
  returns (Google.credential_lifecycle e scopes cf tf) st.
Proof.
  unfold Google.credential_lifecycle, Google.load_token,
    Google.refresh_expired, Google.consent, Google.save_token.
  returns_tac.
Qed.

#[global] Hint Resolve returns_lifecycle : py.







(** ** The credential lifecycle *)

Lemma bind_Ret {Self A B : Type} (m : M Self A) (k : A -> M Self B)
      (st st1 : state Self) (a : A) :
  m st = (Ret a, st1) -> bind m k st = k a st1.
Proof. intros E. unfold bind. now rewrite E. Qed.

Lemma bind_Raise {Self A B : Type} (m : M Self A) (k : A -> M Self B)
      (st st1 : state Self) (ex : exn) :
  m st = (Raise ex, st1) -> bind m k st = (Raise ex, st1).
Proof. intros E. unfold bind. now rewrite E. Qed.

Lemma valid_expired (c : Google.credentials) :
  Google.expired c = true -> Google.valid c = false.
Proof. unfold Google.valid. intros ->. now destruct (Google.token c). Qed.




(** [authenticate] is the lifecycle followed by the construction of the
    client: the sentinel of the lifecycle is its [False], and with a
    credential its result is that of [build]. *)
Lemma authenticate_lifecycle (e : Google.env)
      (st : state GoogleSheets.sheets) :
  let cf := GoogleSheets.credentials_file (self st) in
  let tf := GoogleSheets.token_file (self st) in
  (fst (Google.credential_lifecycle e GoogleSheets.SCOPES cf tf st) = Ret None ->
   fst (GoogleSheets.authenticate e st) = Ret false) /\
  (forall c,
      fst (Google.credential_lifecycle e GoogleSheets.SCOPES cf tf st)
      = Ret (Some c) ->
      always (Google.build e "sheets" "v4" c) (Ret tt) ->
      fst (GoogleSheets.authenticate e st) = Ret true).
Proof.
  cbv zeta.
  assert (E : GoogleSheets.authenticate e st =
              bind (Google.credential_lifecycle e GoogleSheets.SCOPES
                      (GoogleSheets.credentials_file (self st))
                      (GoogleSheets.token_file (self st)))
                   (fun creds =>
                      match creds with
                      | Some c =>
                          try_except
                            (vendor "build"
                                    [JStr (lit "sheets"); JStr (lit "v4")]
                                    (Google.build e "sheets" "v4" c) ;;
                             set_self
                               (GoogleSheets.Sheets
                                  (GoogleSheets.spreadsheet_id (self st))
                                  (GoogleSheets.credentials_file (self st))
                                  (GoogleSheets.token_file (self st))
                                  (Some (Google.Client "sheets" "v4" c))) ;;
                             ret true)
                            (fun ex =>
                               print "Error building service: {}"
                                     [JStr (exn_str ex)] ;;
                               ret false)
                      | None => ret false
                      end) st) by reflexivity.
  rewrite E. clear E.
  destruct (Google.credential_lifecycle e GoogleSheets.SCOPES
              (GoogleSheets.credentials_file (self st))
              (GoogleSheets.token_file (self st)) st)
    as [[[c|]|ex] st1] eqn:EL;
    cbn [fst]; split; try discriminate.
  - intros c' H Hb. inversion H; subst c'. erewrite bind_Ret by exact EL.
    unfold try_except, bind, vendor. rewrite Hb. reflexivity.
  - intros _. now erewrite bind_Ret by exact EL.
Qed.

Lemma str_eqb_refl (s : str) : str_eqb s s = true.
Proof.
  unfold str_eqb. rewrite <- (app_nil_r s) at 2 4.
  now rewrite starts_with_app.
Qed.

(** Unfolds the lifecycle down to the calls of the collaborators. *)
Ltac lifecycle_unfold :=
  unfold Google.credential_lifecycle, Google.load_token,
    Google.refresh_expired, Google.consent, Google.save_token,
    bind, try_except, vendor, path_exists, file_content, print, emit, ret,
    store_file;
  cbn [trace self files fst snd].

Ltac simp := cbn [trace self files fst snd negb andb].
Ltac rw H := repeat (rewrite H; simp).








(** ** Name resolution *)

Lemma print_sheet_lines {Self : Type} (found : list json) (st : state Self) :
  Forall named_file found ->
  for_each
    (fun file =>
       file_name <- lift (dict_item file "name") ;;
       file_id <- lift (dict_item file "id") ;;
       print "  - {} (ID: {})" [file_name; file_id])
    found st =
  (Ret (map (fun _ => tt) found),
   State (self st) (files st) (trace st ++ map sheet_line found)).
Proof.
  intros H. revert st. induction H as [|file found [[n Hn] [i Hi]] _ IH];
    intros st; simpl.
  - unfold ret. rewrite app_nil_r. now destruct st.
  - unfold bind at 1. unfold bind at 1. unfold lift at 1. rewrite Hn.
    unfold bind at 1. unfold lift at 1. rewrite Hi.
    unfold print, emit. unfold bind at 1. rewrite IH. unfold ret. simpl.
    unfold sheet_line, field. rewrite Hn, Hi.
    now rewrite <- app_assoc.
Qed.

Lemma print_file_lines {Self : Type} (found : list json) (st : state Self) :
  Forall typed_file found ->
  for_each
    (fun file =>
       file_type_desc <- lift (Drive.type_desc file) ;;
       file_name <- lift (dict_item file "name") ;;
       file_id <- lift (dict_item file "id") ;;
       print "  - {} (ID: {}, Type: {})" [file_name; file_id; file_type_desc])
    found st =
  (Ret (map (fun _ => tt) found),
   State (self st) (files st) (trace st ++ map file_line found)).
Proof.
  intros H. revert st.
  induction H as [|file found [[[n Hn] [i Hi]] [t Ht]] _ IH];
    intros st; simpl.
  - unfold ret. rewrite app_nil_r. now destruct st.
  - unfold bind at 1. unfold bind at 1. unfold lift at 1. rewrite Ht.
    unfold bind at 1. unfold lift at 1. rewrite Hn.
    unfold bind at 1. unfold lift at 1. rewrite Hi.
    unfold print, emit. unfold bind at 1. rewrite IH. unfold ret. simpl.
    unfold file_line, field, type_of. rewrite Hn, Hi, Ht.
    now rewrite <- app_assoc.
Qed.

Lemma vendor_always {Self A : Type} (target : string) (args : list json)
      (o : oracle A) (r : result A) (st : state Self) :
  always o r ->
  vendor target args o st =
  (r, State (self st) (files st) (trace st ++ [Call target args])).
Proof. intros H. unfold vendor. now rewrite H. Qed.

Lemma try_except_Ret {Self A : Type} (m : M Self A) (h : exn -> M Self A)
      (st st1 : state Self) (a : A) :
  m st = (Ret a, st1) -> try_except m h st = (Ret a, st1).
Proof. intros E. unfold try_except. now rewrite E. Qed.

(** One step of a body: the next call or print returns. *)
Ltac step :=
  erewrite bind_Ret
    by first [ apply vendor_always; solve [eauto]
             | reflexivity ];
  cbv beta zeta; cbn [json_truthy json_len List.length Nat.eqb negb].

Lemma search_spreadsheet_none {Self : Type} (e : Google.env)
      (c : Google.credentials) (name : str) (st : state Self) :
  always (Google.build e "drive" "v3" c) (Ret tt) ->
  (forall args,
      always (Google.execute e (Google.Client "drive" "v3" c) "files.list" args)
             (Ret (JDict [(lit "files", JList [])]))) ->
  fst (GoogleSheets.search_spreadsheet e c name st) = Ret JNull /\
  exists calls,
    trace (snd (GoogleSheets.search_spreadsheet e c name st)) =
    trace st ++ calls ++
    [Print "✗ No spreadsheet found with name: '{}'" [JStr name]].
Proof.
  intros Hbuild Hlist. unfold GoogleSheets.search_spreadsheet.
  erewrite try_except_Ret.
  2:{ do 3 step. cbn [json_truthy List.length Nat.eqb negb]. step.
      reflexivity. }
  split; [reflexivity|]. cbn [snd trace self files].
  eexists [_; _]. rewrite <- !app_assoc. reflexivity.
Qed.

Lemma search_spreadsheet_unique {Self : Type} (e : Google.env)
      (c : Google.credentials) (name : str) (st : state Self)
      (file id : json) :
  always (Google.build e "drive" "v3" c) (Ret tt) ->
  (forall args,
      always (Google.execute e (Google.Client "drive" "v3" c) "files.list" args)
             (Ret (JDict [(lit "files", JList [file])]))) ->
  dict_item file "id" = Ret id ->
  fst (GoogleSheets.search_spreadsheet e c name st) = Ret id.
Proof.
  intros Hbuild Hlist Hid. unfold GoogleSheets.search_spreadsheet.
  erewrite try_except_Ret; [reflexivity|].
  do 3 step. cbn [json_truthy List.length Nat.eqb negb]. do 2 step.
  erewrite bind_Ret by (unfold lift; rewrite Hid; reflexivity). cbv beta.
  step. reflexivity.
Qed.

Lemma search_spreadsheet_many {Self : Type} (e : Google.env)
      (c : Google.credentials) (name : str) (st : state Self)
      (found : list json) :
  always (Google.build e "drive" "v3" c) (Ret tt) ->
  (forall args,
      always (Google.execute e (Google.Client "drive" "v3" c) "files.list" args)
             (Ret (JDict [(lit "files", JList found)]))) ->
  2 <= List.length found -> Forall named_file found ->
  fst (GoogleSheets.search_spreadsheet e c name st) = Ret JNull /\
  exists calls,
    trace (snd (GoogleSheets.search_spreadsheet e c name st)) =
    trace st ++ calls ++
    [Print "✗ Multiple spreadsheets found with name: '{}'" [JStr name];
     Print "Found spreadsheets:" []] ++
    map sheet_line found ++
    [Print "Please use a more specific name or use the spreadsheet ID directly." []].
Proof.
  intros Hbuild Hlist Hlen Hnamed. unfold GoogleSheets.search_spreadsheet.
  destruct found as [|f1 [|f2 found]]; simpl in Hlen; try lia.
  erewrite try_except_Ret.
  2:{ do 3 step. cbn [json_truthy List.length Nat.eqb negb]. do 4 step.
      erewrite bind_Ret by (apply print_sheet_lines; exact Hnamed).
      cbv beta. step. reflexivity. }
  split; [reflexivity|]. cbn [snd trace self files].
  eexists [_; _]. rewrite <- !app_assoc. reflexivity.
Qed.

Lemma search_by_name_start {Self : Type} (e : Google.env)
      (c : Google.credentials) (name : str) (file_type : option str)
      (st : state Self) (k : str -> M Self json) (h : exn -> M Self json) :
  always (Google.build e "drive" "v3" c) (Ret tt) ->
  exists q evs,
    try_except
      (vendor "build" [JStr (lit "drive"); JStr (lit "v3")]
              (Google.build e "drive" "v3" c) ;;
       query <-
         match file_type with
         | Some (ch :: x) =>
             match Drive.lookup (ch :: x) Drive.mime_types with
             | Some mime =>
                 ret ((lit "name='" ++ name ++ lit "' and trashed=false")
                        ++ lit " and mimeType='" ++ mime ++ lit "'")
             | None =>
                 print "Warning: Unknown file type '{}'. Searching all file types."
                       [JStr (ch :: x)] ;;
                 ret (lit "name='" ++ name ++ lit "' and trashed=false")
             end
         | _ => ret (lit "name='" ++ name ++ lit "' and trashed=false")
         end ;;
       k query) h st =
    try_except (k q) h (State (self st) (files st) (trace st ++ evs)).
Proof.
  intros Hbuild. unfold try_except at 1. unfold bind at 1.
  rewrite (vendor_always _ _ st Hbuild). cbv beta iota.
  destruct file_type as [[|ch x]|].
  - eexists _, [_]. reflexivity.
  - destruct (Drive.lookup (ch :: x) Drive.mime_types).
    + eexists _, [_]. reflexivity.
    + eexists _, [_; _]. unfold bind, print, emit, ret, try_except.
      cbn [trace self files]. rewrite <- !app_assoc. reflexivity.
  - eexists _, [_]. reflexivity.
Qed.

(** The three outcomes of [Drive.search_by_name]. *)
Lemma search_by_name_outcomes {Self : Type} (e : Google.env)
      (c : Google.credentials) (name : str) (file_type : option str)
      (st : state Self) (found : list json) :
  always (Google.build e "drive" "v3" c) (Ret tt) ->
  (forall args,
      always (Google.execute e (Google.Client "drive" "v3" c) "files.list" args)
             (Ret (JDict [(lit "files", JList found)]))) ->
  let run := Drive.search_by_name e c name file_type st in
  (found = [] ->
   fst run = Ret JNull /\
   exists calls,
     trace (snd run) =
     trace st ++ calls ++
     [Print "✗ No{} file found with name: '{}'"
            [Drive.file_type_str file_type; JStr name]]) /\
  (forall file id t,
      found = [file] -> dict_item file "id" = Ret id ->
      Drive.type_desc file = Ret t -> fst run = Ret id) /\
  (2 <= List.length found -> Forall typed_file found ->
   fst run = Ret JNull /\
   exists calls,
     trace (snd run) =
     trace st ++ calls ++
     [Print "✗ Multiple{} files found with name: '{}'"
            [Drive.file_type_str file_type; JStr name];
      Print "Found files:" []] ++
     map file_line found ++
     [Print "Please use a more specific name or use the file ID directly." []]).
Proof.
  intros Hbuild Hlist run. subst run. unfold Drive.search_by_name. cbv zeta.
  match goal with
  | |- context [try_except (bind _ (fun _ => bind _ ?k)) ?h st] =>
      destruct (@search_by_name_start Self e c name file_type st k h Hbuild)
        as (q & evs & E)
  end.
  rewrite E. clear E. split; [|split].
  - intros ->. erewrite try_except_Ret.
    2:{ do 2 step. step. reflexivity. }
    split; [reflexivity|]. cbn [snd trace self files].
    eexists (evs ++ [_]). rewrite <- !app_assoc. reflexivity.
  - intros file id t -> Hid Ht. erewrite try_except_Ret; [reflexivity|].
    do 4 step.
    erewrite bind_Ret by (unfold lift; rewrite Hid; reflexivity). cbv beta.
    erewrite bind_Ret by (unfold lift; rewrite Ht; reflexivity). cbv beta.
    step. reflexivity.
  - intros Hlen Htyped.
    destruct found as [|f1 [|f2 found]]; simpl in Hlen; try lia.
    erewrite try_except_Ret.
    2:{ do 6 step.
        erewrite bind_Ret by (apply print_file_lines; exact Htyped).
        cbv beta. step. reflexivity. }
    split; [reflexivity|]. cbn [snd trace self files].
    eexists (evs ++ [_]). rewrite <- !app_assoc. reflexivity.
Qed.

(** C6, as the code has it.  Once the search is reached and answers:
    with no match both resolvers print that nothing was found and return
    [None]; with exactly one match they return its ID; with two or more
    they print one line for each candidate, in the order of the answer
    (name and ID, and in [Drive.find_by_name] the type too), and return
    [None]: none of the candidates is chosen, and the value returned is
    the one of the no-match case. *)
Theorem name_resolution_outcomes
        (Self : Type) (e : Google.env) (cf tf name : str)
        (file_type : option str) (st st1 : state Self)
        (c : Google.credentials) (found : list json) :
  (search_finds e GoogleSheets.SCOPES cf tf st st1 c found ->
   let run := GoogleSheets.find_spreadsheet_by_name e name cf tf st in
   (found = [] ->
    fst run = Ret JNull /\
    exists calls,
      trace (snd run) =
      trace st1 ++ calls ++
      [Print "✗ No spreadsheet found with name: '{}'" [JStr name]]) /\
   (forall file id,
       found = [file] -> dict_item file "id" = Ret id -> fst run = Ret id) /\
   (2 <= List.length found -> Forall named_file found ->
    fst run = Ret JNull /\
    exists calls,
      trace (snd run) =
      trace st1 ++ calls ++
      [Print "✗ Multiple spreadsheets found with name: '{}'" [JStr name];
       Print "Found spreadsheets:" []] ++
      map sheet_line found ++
      [Print "Please use a more specific name or use the spreadsheet ID directly." []])) /\
  (search_finds e Drive.SCOPES cf tf st st1 c found ->
   let run := Drive.find_by_name e name file_type cf tf st in
   (found = [] ->
    fst run = Ret JNull /\
    exists calls,
      trace (snd run) =
      trace st1 ++ calls ++
      [Print "✗ No{} file found with name: '{}'"
             [Drive.file_type_str file_type; JStr name]]) /\
   (forall file id t,
       found = [file] -> dict_item file "id" = Ret id ->
       Drive.type_desc file = Ret t -> fst run = Ret id) /\
   (2 <= List.length found -> Forall typed_file found ->
    fst run = Ret JNull /\
    exists calls,
      trace (snd run) =
      trace st1 ++ calls ++
      [Print "✗ Multiple{} files found with name: '{}'"
             [Drive.file_type_str file_type; JStr name];
       Print "Found files:" []] ++
      map file_line found ++
      [Print "Please use a more specific name or use the file ID directly." []])).
Proof.
  split; intros (Hlife & Hbuild & Hlist); cbv zeta.
  - unfold GoogleSheets.find_spreadsheet_by_name.
    erewrite bind_Ret by exact Hlife. split; [|split].
    + intros ->. now apply search_spreadsheet_none.
    + intros file id -> Hid. now apply search_spreadsheet_unique with (file := file).
    + intros Hlen Hnamed. now apply search_spreadsheet_many.
  - unfold Drive.find_by_name.
    erewrite bind_Ret by exact Hlife.
    now apply search_by_name_outcomes.
Qed.

Lemma name_resolution_outcomes_witness :
  fst (GoogleSheets.find_spreadsheet_by_name
         (DriveSample.listing [DriveSample.budget_2023; DriveSample.budget_2024])
         (lit "Budget") (lit "credentials.json") (lit "token.json")
         GoogleSample.start) = Ret JNull.
Proof.
  assert (Hfinds :
    search_finds
      (DriveSample.listing [DriveSample.budget_2023; DriveSample.budget_2024])
      GoogleSheets.SCOPES (lit "credentials.json") (lit "token.json")
      GoogleSample.start
      (State tt GoogleSample.token_present
             [Call "Credentials.from_authorized_user_file"
                   [JStr (lit "token.json"); GoogleSheets.SCOPES]])
      GoogleSample.current
      [DriveSample.budget_2023; DriveSample.budget_2024]).
  { split; [reflexivity|]. split; intros; intros tr; reflexivity. }
  assert (Hlen : 2 <= List.length
                       [DriveSample.budget_2023; DriveSample.budget_2024])
    by (simpl; lia).
  assert (Hnamed : Forall named_file
                     [DriveSample.budget_2023; DriveSample.budget_2024]).
  { repeat constructor; eexists; reflexivity. }
  exact (proj1 (proj2 (proj2 (proj1
    (@name_resolution_outcomes unit
       (DriveSample.listing [DriveSample.budget_2023; DriveSample.budget_2024])
       (lit "credentials.json") (lit "token.json") (lit "Budget") None
       GoogleSample.start _ GoogleSample.current _) Hfinds)) Hlen Hnamed)).
Defined.

(** C6 as stated fails: with two matches the resolvers return what they
    return with none, [None]; the candidates are printed and are not
    part of the value, so a caller cannot tell [Ambiguous] from
    [NotFound], which the resolver of the specification keeps apart. *)
Lemma ambiguous_returns_like_not_found :
  let two := [DriveSample.budget_2023; DriveSample.budget_2024] in
  fst (GoogleSheets.find_spreadsheet_by_name (DriveSample.listing two)
         (lit "Budget") (lit "credentials.json") (lit "token.json")
         GoogleSample.start) = Ret JNull /\
  fst (GoogleSheets.find_spreadsheet_by_name (DriveSample.listing [])
         (lit "Budget") (lit "credentials.json") (lit "token.json")
         GoogleSample.start) = Ret JNull /\
  fst (Drive.find_by_name (DriveSample.listing two)
         (lit "Budget") None (lit "credentials.json") (lit "token.json")
         GoogleSample.start) = Ret JNull /\
  fst (Drive.find_by_name (DriveSample.listing [])
         (lit "Budget") None (lit "credentials.json") (lit "token.json")
         GoogleSample.start) = Ret JNull /\
  resolve_by_name_spec two =
  Ambiguous [(JStr (lit "Budget"), JStr (lit "1AAA"), JStr (lit "spreadsheet"));
             (JStr (lit "Budget"), JStr (lit "1BBB"), JStr (lit "spreadsheet"))] /\
  resolve_by_name_spec [] = NotFound.
Proof.
  cbv zeta. repeat split; vm_compute; reflexivity.
Qed.

(** ** The CSV text: reading back what was written *)










(** ** [save_to_csv] *)













(** ** The sentinel of a failed operation *)







(** ** The exception boundary of the facades *)




(** * Further properties of the code *)

(** ** [Drive.extract_id]: what a result looks like *)

Lemma take_while_split (f : ascii -> bool) (s : str) :
  forallb f (take_while f s) = true /\
  exists post, s = take_while f s ++ post.
Proof.
  induction s as [|c s [IH1 [post IH2]]]; simpl.
  - split; [reflexivity|now exists []].
  - destruct (f c) eqn:E; simpl.
    + rewrite E, IH1. split; [reflexivity|]. exists post. now rewrite <- IH2.
    + split; [reflexivity|]. now exists (c :: s).
Qed.

Lemma first_group_Some (rs : list str) (g : str) :
  first_group rs = Some g ->
  g <> [] /\ exists r, In r rs /\ take_while id_char r = g.
Proof.
  induction rs as [|r rs IH]; simpl; [discriminate|].
  destruct (take_while id_char r) as [|c t] eqn:E.
  - intros H. destruct (IH H) as [Hg (r' & Hr' & E')].
    split; [exact Hg|]. exists r'. auto.
  - intros H. inversion H; subst g. split; [discriminate|].
    exists r. auto.
Qed.

Lemma match_at_Some (p : pattern) (s g : str) :
  match_at p s = Some g ->
  g <> [] /\ forallb id_char g = true /\
  exists m post, In m (lang p) /\ s = m ++ g ++ post.
Proof.
  unfold match_at. intros H.
  apply first_group_Some in H as [Hg (r & Hr & E)].
  apply match_lead_spec in Hr as (m & Hm & ->).
  destruct (take_while_split id_char r) as [Hid [post Hpost]].
  rewrite E in Hid, Hpost. split; [exact Hg|]. split; [exact Hid|].
  exists m, post. split; [exact Hm|]. now rewrite <- Hpost.
Qed.

Lemma re_search_Some (p : pattern) (s g : str) :
  re_search p s = Some g ->
  g <> [] /\ forallb id_char g = true /\
  exists pre m post, In m (lang p) /\ s = pre ++ m ++ g ++ post.
Proof.
  induction s as [|c s IH]; simpl.
  - destruct (match_at p []) as [g'|] eqn:E; [|discriminate].
    intros H; inversion H; subst g'.
    apply match_at_Some in E as (Hg & Hid & m & post & Hm & E).
    split; [exact Hg|]. split; [exact Hid|]. now exists [], m, post.
  - destruct (match_at p (c :: s)) as [g'|] eqn:E.
    + intros H; inversion H; subst g'.
      apply match_at_Some in E as (Hg & Hid & m & post & Hm & E).
      split; [exact Hg|]. split; [exact Hid|]. now exists [], m, post.
    + intros H. destruct (IH H) as (Hg & Hid & pre & m & post & Hm & ->).
      split; [exact Hg|]. split; [exact Hid|]. now exists (c :: pre), m, post.
Qed.

Lemma first_match_Some (ps : list pattern) (s g : str) :
  Drive.first_match ps s = Some g ->
  exists p, In p ps /\ re_search p s = Some g.
Proof.
  induction ps as [|p ps IH]; simpl; [discriminate|].
  destruct (re_search p s) as [g'|] eqn:E.
  - intros H; inversion H; subst g'. exists p. auto.
  - intros H. destruct (IH H) as (q & Hq & Eq). exists q. auto.
Qed.

(** A string of ID characters holds no host marker: each marker has a
    dot, which is not an ID character. *)
Lemma id_chars_no_host_marker (g : str) :
  forallb id_char g = true -> Drive.has_host_marker g = false.
Proof.
  intros Hid. apply has_host_marker_false. intros h Hh (pre & post & ->).
  rewrite !forallb_app in Hid.
  apply andb_true_iff in Hid as [_ Hid]. apply andb_true_iff in Hid as [Hid _].
  destruct Hh as [<-|[<-|[<-|[]]]]; vm_compute in Hid; discriminate.
Qed.

(** X1. [extract_id] is idempotent: what it returns is a reference it
    returns unchanged, so an ID taken from a URL can be given wherever a
    URL or an ID is expected; in particular a [GoogleSheets] object can
    always be constructed from it, and is bound to that very ID. *)
Theorem extract_id_idempotent (s id : str) :
  Drive.extract_id s = Ret id ->
  Drive.extract_id id = Ret id /\
  forall credentials_file token_file,
    GoogleSheets.init id credentials_file token_file
    = Ret (GoogleSheets.Sheets id credentials_file token_file None).
Proof.
  intros H.
  assert (E : Drive.extract_id id = Ret id).
  { revert H. unfold Drive.extract_id.
    destruct (Drive.has_host_marker s) eqn:Hs; cbn [negb].
    - destruct (Drive.first_match Drive.patterns s) as [g|] eqn:E;
        [|discriminate].
      intros H; inversion H; subst g.
      apply first_match_Some in E as (p & _ & E).
      apply re_search_Some in E as (_ & Hid & _).
      now rewrite (id_chars_no_host_marker _ Hid).
    - intros H; inversion H; subst id. now rewrite Hs. }
  split; [exact E|]. intros cf tf. unfold GoogleSheets.init. now rewrite E.
Qed.

Lemma extract_id_idempotent_witness :
  Drive.extract_id (lit "https://drive.google.com/file/d/1AbC-dEf_9/view")
  = Ret (lit "1AbC-dEf_9") /\
  Drive.extract_id (lit "1AbC-dEf_9") = Ret (lit "1AbC-dEf_9").
Proof.
  split; [reflexivity|].
  apply (@extract_id_idempotent
           (lit "https://drive.google.com/file/d/1AbC-dEf_9/view")).
  reflexivity.
Defined.

(** X2. The ID [extract_id] returns for a reference with a host marker
    is never empty, consists of ID characters only, and stands in the
    reference right after a marker of one of the five patterns. *)
Theorem extract_id_result_shape (url id : str) :
  Drive.has_host_marker url = true ->
  Drive.extract_id url = Ret id ->
  id <> [] /\ forallb id_char id = true /\
  exists p pre m post,
    In p Drive.patterns /\ In m (lang p) /\ url = pre ++ m ++ id ++ post.
Proof.
  unfold Drive.extract_id. intros ->. cbn [negb].
  destruct (Drive.first_match Drive.patterns url) as [g|] eqn:E;
    [|discriminate].
  intros H; inversion H; subst g.
  apply first_match_Some in E as (p & Hp & E).
  apply re_search_Some in E as (Hg & Hid & pre & m & post & Hm & Hurl).
  split; [exact Hg|]. split; [exact Hid|]. now exists p, pre, m, post.
Qed.

Lemma extract_id_result_shape_witness :
  lit "1AbC-dEf_9" <> [] /\ forallb id_char (lit "1AbC-dEf_9") = true /\
  exists p pre m post,
    In p Drive.patterns /\ In m (lang p) /\
    lit "https://drive.google.com/open?id=1AbC-dEf_9&usp=sharing"
    = pre ++ m ++ lit "1AbC-dEf_9" ++ post.
Proof.
  apply (@extract_id_result_shape
           (lit "https://drive.google.com/open?id=1AbC-dEf_9&usp=sharing"));
    reflexivity.
Defined.

(** ** The base URL of a session *)

Lemma rstrip_slash_trimmed (b : str) : trimmed b (rstrip_slash b).
Proof.
  unfold rstrip_slash.
  set (drop := fix drop (r : str) : str :=
                 match r with
                 | c :: r' => if Ascii.eqb c "/" then drop r' else r
                 | [] => []
                 end).
  assert (H : forall r, (exists n, r = repeat "/"%char n ++ drop r) /\
                        forall c r', drop r = c :: r' -> c <> "/"%char).
  { induction r as [|c r [[n IH1] IH2]]; simpl.
    - split; [now exists 0|discriminate].
    - destruct (Ascii.eqb c "/") eqn:E.
      + apply ascii_eqb_true in E; subst c. split; [|exact IH2].
        exists (S n). simpl. now rewrite <- IH1.
      + split; [now exists 0|]. intros c' r' H'. inversion H'; subst.
        intros ->. now rewrite Ascii.eqb_refl in E. }
  destruct (H (rev b)) as [[n Hn] Hhead]. split.
  - exists n. rewrite <- (rev_involutive b) at 1. rewrite Hn at 1.
    rewrite rev_app_distr. f_equal.
    clear. induction n as [|n IH]; [reflexivity|].
    simpl. rewrite IH. clear. induction n; simpl; [reflexivity|].
    now f_equal.
  - intros pre E. apply (f_equal (@rev ascii)) in E.
    rewrite rev_involutive, rev_app_distr in E. simpl in E.
    now apply (Hhead _ _ E).
Qed.

(** X3. The base URL a Confluence or a Jira session keeps is the
    argument of the constructor without its trailing slashes: it does
    not end with a slash, so the paths appended to it start at exactly
    one slash.  For Jira this holds whether the connection was made or
    not. *)
Theorem base_url_trimmed
        (b u t : str) (d : option str) (e : Jira.env)
        (st : state Jira.jira) :
  trimmed b (Confluence.base_url (Confluence.init b u t d)) /\
  trimmed b (Jira.base_url (self (snd (Jira.init e b u t st)))).
Proof.
  split; [apply rstrip_slash_trimmed|].
  unfold Jira.init, Jira._connect, bind, try_except, set_self, get_self,
    vendor, print, emit, ret. cbn [self trace files Jira.base_url
    Jira.username Jira.api_token].
  destruct (Jira.connect e _ _ _ _) as [[]|[]]; cbn;
    apply rstrip_slash_trimmed.
Qed.

(** ** [Confluence._extract_excerpt] *)

Lemma before_last_space_length (s : str) :
  List.length (before_last_space s) <= List.length s.
Proof.
  induction s as [|c s IH]; simpl; [lia|].
  destruct (existsb (Ascii.eqb " ") s); simpl; [lia|].
  destruct (Ascii.eqb c " "); simpl; lia.
Qed.

Lemma slice_to_length {A : Type} (stop : Z) (l : list A) :
  (0 <= stop)%Z -> (Z.of_nat (List.length (slice_to stop l)) <= stop)%Z.
Proof.
  intros H. unfold slice_to.
  destruct (stop <? 0)%Z eqn:E; [apply Z.ltb_lt in E; lia|].
  rewrite length_firstn. lia.
Qed.

(** X4. An excerpt is never longer than [max_length] characters and the
    three dots of the ellipsis; a text that is cut ends with the
    ellipsis. *)
Theorem extract_excerpt_bounded (html_content : str) (max_length : Z) :
  (0 <= max_length)%Z ->
  let excerpt := Confluence._extract_excerpt html_content max_length in
  (Z.of_nat (List.length excerpt) <= max_length + 3)%Z /\
  ((max_length < Z.of_nat (List.length excerpt))%Z ->
   exists body, excerpt = body ++ lit "...").
Proof.
  intros Hmax. cbv zeta. unfold Confluence._extract_excerpt.
  set (text := strip_spaces (Confluence.sub_spaces false (Confluence.sub_tags false html_content))).
  destruct (max_length <? Z.of_nat (List.length text))%Z eqn:E.
  - split; [|intros _; eexists; reflexivity].
    rewrite length_app. simpl List.length.
    pose proof (before_last_space_length (slice_to max_length text)).
    pose proof (slice_to_length text Hmax). lia.
  - apply Z.ltb_ge in E. split; [lia|]. intros H. lia.
Qed.

Lemma extract_excerpt_bounded_witness :
  (Z.of_nat (List.length
     (Confluence._extract_excerpt
        (lit "<p>Quarterly <b>report</b> for the board</p>") 12)) <= 12 + 3)%Z.
Proof.
  apply (@extract_excerpt_bounded
           (lit "<p>Quarterly <b>report</b> for the board</p>") 12).
  lia.
Defined.

(** ** [print_data] *)

Lemma cell15_length (cell : str) : List.length (FileUtils.cell15 cell) = 15.
Proof.
  unfold FileUtils.cell15. rewrite length_app, repeat_length.
  pose proof (firstn_le_length 15 cell).
  assert (List.length (firstn 15 cell) <= 15)
    by (rewrite length_firstn; lia).
  lia.
Qed.

(** The width of a line of the table is given by its number of cells. *)
Lemma table_line_length (cells : list str) :
  List.length (FileUtils.table_line cells) = 18 * List.length cells - 3.
Proof.
  unfold FileUtils.table_line.
  induction cells as [|c [|c' cells] IH].
  - reflexivity.
  - simpl. rewrite cell15_length. reflexivity.
  - change (map FileUtils.cell15 (c :: c' :: cells))
      with (FileUtils.cell15 c :: map FileUtils.cell15 (c' :: cells)).
    change (join (lit " | ")
              (FileUtils.cell15 c :: map FileUtils.cell15 (c' :: cells)))
      with (FileUtils.cell15 c ++ lit " | " ++
            join (lit " | ") (map FileUtils.cell15 (c' :: cells))).
    rewrite !length_app, IH, cell15_length.
    change (List.length (lit " | ")) with 3.
    simpl List.length. lia.
Qed.

Lemma slice_to_length_mono {A B : Type} (stop : Z) (l : list A) (l' : list B) :
  List.length l <= List.length l' ->
  List.length (slice_to stop l) <= List.length (slice_to stop l').
Proof.
  intros H. unfold slice_to. destruct (stop <? 0)%Z; rewrite !length_firstn; lia.
Qed.

Lemma pad_row_length (n : nat) (row : list str) :
  List.length row <= n -> List.length (FileUtils.pad_row n row) = n.
Proof.
  intros H. unfold FileUtils.pad_row. rewrite length_app, repeat_length. lia.
Qed.

Lemma in_skipn_in {A : Type} (n : nat) (l : list A) (x : A) :
  In x (skipn n l) -> In x l.
Proof.
  intros H. rewrite <- (firstn_skipn n l). apply in_or_app. now right.
Qed.

Lemma in_firstn_in {A : Type} (n : nat) (l : list A) (x : A) :
  In x (firstn n l) -> In x l.
Proof.
  intros H. rewrite <- (firstn_skipn n l). apply in_or_app. now left.
Qed.

Lemma print_rows {Self : Type} (n : nat) (max_cols : Z)
      (rows : list (list str)) (st : state Self) :
  for_each
    (fun row =>
       print "{}"
             [JStr (FileUtils.table_line
                      (FileUtils.pad_row n (slice_to max_cols row)))])
    rows st =
  (Ret (map (fun _ => tt) rows),
   State (self st) (files st)
         (trace st ++
          map (fun row =>
                 Print "{}"
                       [JStr (FileUtils.table_line
                                (FileUtils.pad_row n (slice_to max_cols row)))])
              rows)).
Proof.
  revert st. induction rows as [|row rows IH]; intros st; simpl.
  - unfold ret. rewrite app_nil_r. now destruct st.
  - unfold bind at 1. unfold print at 1, emit at 1.
    unfold bind at 1. rewrite IH. cbn [self files trace]. unfold ret.
    now rewrite <- app_assoc.
Qed.

(** What [print_data] prints for a grid that is not empty. *)
Lemma print_data_trace {Self : Type} (first : list str)
      (rest : list (list str)) (max_rows max_cols : Z) (st : state Self) :
  let data := first :: rest in
  let headers := slice_to max_cols first in
  FileUtils.print_data data max_rows max_cols st =
  (Ret tt,
   State (self st) (files st)
     (trace st ++
      [Print "\nDisplaying data ({} rows, {} columns):"
             [JInt (Z.of_nat (List.length data));
              JInt (Z.of_nat (List.length first))];
       Print "{}" [JStr FileUtils.dashes];
       Print "{}" [JStr (FileUtils.table_line headers)];
       Print "{}" [JStr FileUtils.dashes]] ++
      map (fun row =>
             Print "{}"
                   [JStr (FileUtils.table_line
                            (FileUtils.pad_row (List.length headers)
                                               (slice_to max_cols row)))])
          (skipn 1 (slice_to max_rows data)) ++
      (if (max_rows <? Z.of_nat (List.length data))%Z
       then [Print "... and {} more rows"
                   [JInt (Z.of_nat (List.length data) - max_rows)]]
       else []))).
Proof.
  cbv zeta. unfold FileUtils.print_data.
  unfold bind at 1. unfold print at 1, emit at 1.
  unfold bind at 1. unfold print at 1, emit at 1.
  unfold bind at 1. unfold print at 1, emit at 1.
  unfold bind at 1. unfold print at 1, emit at 1.
  unfold bind at 1. rewrite print_rows. cbn [self files trace].
  destruct (max_rows <? Z.of_nat (List.length (first :: rest)))%Z;
    unfold print, emit, ret; cbn [self files trace];
    repeat rewrite <- app_assoc; cbn [app]; rewrite ?app_nil_r; reflexivity.
Qed.

Lemma added_trace {Self A : Type} (m : M Self A) (st : state Self)
      (evs : list event) :
  trace (snd (m st)) = trace st ++ evs -> added m st = evs.
Proof.
  intros E. unfold added. rewrite E, skipn_app, skipn_all, Nat.sub_diag.
  reflexivity.
Qed.

(** X5. The table [print_data] prints is aligned: when no row has more
    cells than the first one, every row is printed, padded with empty
    cells, in a line exactly as wide as the header line, whatever
    [max_rows] and [max_cols] are; and what is printed for an empty grid
    is the one line that says so. *)
Theorem print_data_aligned
        (Self : Type) (first : list str) (rest : list (list str))
        (max_rows max_cols : Z) (st : state Self) :
  Forall (fun row => List.length row <= List.length first) rest ->
  added (FileUtils.print_data [] max_rows max_cols) st
  = [Print "No data to display." []] /\
  exists info header lines more,
    added (FileUtils.print_data (first :: rest) max_rows max_cols) st =
    [info; Print "{}" [JStr FileUtils.dashes]; Print "{}" [JStr header];
     Print "{}" [JStr FileUtils.dashes]] ++
    map (fun line => Print "{}" [JStr line]) lines ++ more /\
    List.length lines
    = List.length (skipn 1 (slice_to max_rows (first :: rest))) /\
    List.length more <= 1 /\
    Forall (fun line => List.length line = List.length header) lines.
Proof.
  intros Hrows. split; [now apply added_trace|].
  pose proof (@print_data_trace Self first rest max_rows max_cols st) as E.
  cbv zeta in E.
  eexists _, _,
    (map (fun row =>
            FileUtils.table_line
              (FileUtils.pad_row (List.length (slice_to max_cols first))
                                 (slice_to max_cols row)))
         (skipn 1 (slice_to max_rows (first :: rest)))), _.
  split; [|split; [|split]].
  - apply added_trace. rewrite E. cbn [snd trace]. rewrite map_map.
    reflexivity.
  - now rewrite length_map.
  - destruct (max_rows <? _)%Z; simpl; lia.
  - apply Forall_map.
    assert (Hshown : Forall (fun row => List.length row <= List.length first)
                            (skipn 1 (slice_to max_rows (first :: rest)))).
    { apply Forall_forall. intros row Hrow.
      apply in_skipn_in in Hrow.
      unfold slice_to in Hrow. destruct (max_rows <? 0)%Z;
        apply in_firstn_in in Hrow;
        (destruct Hrow as [<-|Hrow]; [lia|]);
        now apply (proj1 (Forall_forall _ _) Hrows). }
    eapply Forall_impl; [|exact Hshown]. intros row Hrow. cbv beta in *.
    rewrite !table_line_length, pad_row_length; [reflexivity|].
    now apply slice_to_length_mono.
Qed.

Lemma print_data_aligned_witness :
  exists info header lines more,
    added (FileUtils.print_data
             [[lit "name"; lit "city"]; [lit "Ada"]; [lit "Bo"; lit "Oslo"]]
             50 10) (State tt no_files []) =
    [info; Print "{}" [JStr FileUtils.dashes]; Print "{}" [JStr header];
     Print "{}" [JStr FileUtils.dashes]] ++
    map (fun line => Print "{}" [JStr line]) lines ++ more /\
    List.length lines
    = List.length (skipn 1 (slice_to 50 [[lit "name"; lit "city"];
                                         [lit "Ada"]; [lit "Bo"; lit "Oslo"]])) /\
    List.length more <= 1 /\
    Forall (fun line => List.length line = List.length header) lines.
Proof.
  apply (@print_data_aligned unit [lit "name"; lit "city"]
           [[lit "Ada"]; [lit "Bo"; lit "Oslo"]] 50 10 (State tt no_files [])).
  repeat constructor.
Defined.

(** X6. With [max_rows] at least 1, [print_data] shows the header and
    the first [max_rows - 1] rows after it; when the grid has more than
    [max_rows] rows its last line counts the rows left out, and the
    lines shown and that count add up to the rows of the grid; otherwise
    every row of the grid is shown and no such line is printed. *)
Theorem print_data_accounts_for_rows
        (Self : Type) (first : list str) (rest : list (list str))
        (max_rows max_cols : Z) (st : state Self) :
  (1 <= max_rows)%Z ->
  let data := first :: rest in
  exists top lines more,
    added (FileUtils.print_data data max_rows max_cols) st =
    top ++ map (fun line => Print "{}" [JStr line]) lines ++ more /\
    List.length top = 4 /\
    Z.of_nat (List.length lines)
    = Z.min (Z.of_nat (List.length rest)) (max_rows - 1) /\
    ((max_rows < Z.of_nat (List.length data))%Z ->
     exists hidden,
       more = [Print "... and {} more rows" [JInt hidden]] /\
       (1 + Z.of_nat (List.length lines) + hidden
        = Z.of_nat (List.length data))%Z) /\
    ((Z.of_nat (List.length data) <= max_rows)%Z ->
     more = [] /\ List.length lines = List.length rest).
Proof.
  intros Hmax. cbv zeta.
  pose proof (@print_data_trace Self first rest max_rows max_cols st) as E.
  cbv zeta in E.
  assert (Hshown : skipn 1 (slice_to max_rows (first :: rest))
                   = firstn (Z.to_nat (max_rows - 1)) rest).
  { unfold slice_to. destruct (max_rows <? 0)%Z eqn:N;
      [apply Z.ltb_lt in N; lia|].
    replace (Z.to_nat max_rows) with (S (Z.to_nat (max_rows - 1))) by lia.
    reflexivity. }
  eexists [_; _; _; _],
    (map (fun row =>
            FileUtils.table_line
              (FileUtils.pad_row (List.length (slice_to max_cols first))
                                 (slice_to max_cols row)))
         (firstn (Z.to_nat (max_rows - 1)) rest)), _.
  split; [|split; [|split; [|split]]].
  - apply added_trace. rewrite E, Hshown. cbn [snd trace]. rewrite map_map.
    reflexivity.
  - reflexivity.
  - rewrite length_map, length_firstn. lia.
  - intros Hlt. apply Z.ltb_lt in Hlt. rewrite Hlt. eexists. split; [reflexivity|].
    apply Z.ltb_lt in Hlt. rewrite length_map, length_firstn.
    simpl List.length in *. lia.
  - intros Hle. apply Z.ltb_ge in Hle. rewrite Hle. split; [reflexivity|].
    apply Z.ltb_ge in Hle. rewrite length_map, length_firstn.
    simpl List.length in *. lia.
Qed.

Lemma print_data_accounts_for_rows_witness :
  exists top lines more,
    added (FileUtils.print_data
             [[lit "n"]; [lit "1"]; [lit "2"]; [lit "3"]] 2 10)
          (State tt no_files []) =
    top ++ map (fun line => Print "{}" [JStr line]) lines ++ more /\
    List.length top = 4 /\
    Z.of_nat (List.length lines) = Z.min 3 (2 - 1) /\
    ((2 < 4)%Z ->
     exists hidden,
       more = [Print "... and {} more rows" [JInt hidden]] /\
       (1 + Z.of_nat (List.length lines) + hidden = 4)%Z) /\
    ((4 <= 2)%Z -> more = [] /\ List.length lines = 3).
Proof.
  apply (@print_data_accounts_for_rows unit [lit "n"]
           [[lit "1"]; [lit "2"]; [lit "3"]] 2 10 (State tt no_files [])).
  lia.
Defined.

(** ** What an operation keeps of its object and adds to the trace *)

Lemma keeps_quiet {Self A : Type} (P : Self -> Prop) (Q : event -> Prop)
      (m : M Self A) :
  (forall st, self (snd (m st)) = self st /\ trace (snd (m st)) = trace st) ->
  keeps P Q m.
Proof.
  intros H st HP. destruct (H st) as [Hs Ht]. rewrite Hs. split; [exact HP|].
  exists []. rewrite Ht, app_nil_r. auto.
Qed.

Lemma keeps_ret {Self A : Type} (P : Self -> Prop) (Q : event -> Prop)
      (a : A) : keeps P Q (@ret Self A a).
Proof. now apply keeps_quiet. Qed.

Lemma keeps_raise {Self A : Type} (P : Self -> Prop) (Q : event -> Prop)
      (e : exn) : keeps P Q (@raise Self A e).
Proof. now apply keeps_quiet. Qed.

Lemma keeps_lift {Self A : Type} (P : Self -> Prop) (Q : event -> Prop)
      (r : result A) : keeps P Q (@lift Self A r).
Proof. now apply keeps_quiet. Qed.

Lemma keeps_get_self {Self : Type} (P : Self -> Prop) (Q : event -> Prop) :
  keeps P Q (@get_self Self).
Proof. now apply keeps_quiet. Qed.

Lemma keeps_path_exists {Self : Type} (P : Self -> Prop) (Q : event -> Prop)
      (p : str) : keeps P Q (@path_exists Self p).
Proof. now apply keeps_quiet. Qed.

Lemma keeps_file_content {Self : Type} (P : Self -> Prop) (Q : event -> Prop)
      (p : str) : keeps P Q (@file_content Self p).
Proof. now apply keeps_quiet. Qed.

Lemma keeps_store_file {Self : Type} (P : Self -> Prop) (Q : event -> Prop)
      (p c : str) : keeps P Q (@store_file Self p c).
Proof. now apply keeps_quiet. Qed.

Lemma keeps_set_self {Self : Type} (P : Self -> Prop) (Q : event -> Prop)
      (s : Self) : P s -> keeps P Q (set_self s).
Proof.
  intros Hs st _. split; [exact Hs|]. exists []. simpl.
  now rewrite app_nil_r.
Qed.

Lemma keeps_print {Self : Type} (P : Self -> Prop) (Q : event -> Prop)
      (fmt : string) (args : list json) :
  Q (Print fmt args) -> keeps P Q (@print Self fmt args).
Proof.
  intros HQ st HP. split; [exact HP|]. exists [Print fmt args]. auto.
Qed.

Lemma keeps_vendor {Self A : Type} (P : Self -> Prop) (Q : event -> Prop)
      (target : string) (args : list json) (o : oracle A) :
  Q (Call target args) -> keeps P Q (@vendor Self A target args o).
Proof.
  intros HQ st HP. split; [exact HP|]. exists [Call target args]. auto.
Qed.

Lemma keeps_bind {Self A B : Type} (P : Self -> Prop) (Q : event -> Prop)
      (m : M Self A) (k : A -> M Self B) :
  keeps P Q m -> (forall a, keeps P Q (k a)) -> keeps P Q (bind m k).
Proof.
  intros Hm Hk st HP. unfold bind.
  destruct (Hm st HP) as [HP1 (evs & E & HQ)].
  destruct (m st) as [[a|e] st1]; cbn [snd] in *.
  - destruct (Hk a st1 HP1) as [HP2 (evs' & E' & HQ')]. split; [exact HP2|].
    exists (evs ++ evs'). rewrite E', E, app_assoc. split; [reflexivity|].
    apply Forall_app. auto.
  - split; [exact HP1|]. now exists evs.
Qed.


(** What follows [get_self] runs on an object that satisfies [P]. *)
Lemma keeps_bind_get_self {Self B : Type} (P : Self -> Prop)
      (Q : event -> Prop) (k : Self -> M Self B) :
  (forall s, P s -> keeps P Q (k s)) -> keeps P Q (bind get_self k).
Proof. intros Hk st HP. exact (Hk (self st) HP st HP). Qed.

Lemma keeps_try_except {Self A : Type} (P : Self -> Prop) (Q : event -> Prop)
      (m : M Self A) (h : exn -> M Self A) :
  keeps P Q m -> (forall e, keeps P Q (h e)) -> keeps P Q (try_except m h).
Proof.
  intros Hm Hh st HP. unfold try_except.
  destruct (Hm st HP) as [HP1 (evs & E & HQ)].
  destruct (m st) as [[a|e] st1]; cbn [snd] in *.
  - split; [exact HP1|]. now exists evs.
  - destruct (Hh e st1 HP1) as [HP2 (evs' & E' & HQ')]. split; [exact HP2|].
    exists (evs ++ evs'). rewrite E', E, app_assoc. split; [reflexivity|].
    apply Forall_app. auto.
Qed.

Lemma keeps_for_each {Self A B : Type} (P : Self -> Prop) (Q : event -> Prop)
      (f : A -> M Self B) (xs : list A) :
  (forall x, keeps P Q (f x)) -> keeps P Q (for_each f xs).
Proof.
  intros Hf. induction xs as [|x xs IH]; simpl.
  - apply keeps_ret.
  - apply keeps_bind; [apply Hf|]. intros y.
    apply keeps_bind; [apply IH|]. intros ys. apply keeps_ret.
Qed.

Lemma keeps_weaken {Self A : Type} (P : Self -> Prop) (Q Q' : event -> Prop)
      (m : M Self A) :
  (forall ev, Q ev -> Q' ev) -> keeps P Q m -> keeps P Q' m.
Proof.
  intros HQ Hm st HP. destruct (Hm st HP) as [HP1 (evs & E & HF)].
  split; [exact HP1|]. exists evs. split; [exact E|].
  eapply Forall_impl; [exact HQ|exact HF].
Qed.

Lemma keeps_added {Self A : Type} (P : Self -> Prop) (Q : event -> Prop)
      (m : M Self A) (st : state Self) :
  keeps P Q m -> P (self st) ->
  P (self (snd (m st))) /\ Forall Q (added m st).
Proof.
  intros Hm HP. destruct (Hm st HP) as [HP1 (evs & E & HF)].
  split; [exact HP1|]. now rewrite (@added_trace _ _ m st evs E).
Qed.

#[global] Hint Resolve keeps_ret keeps_raise keeps_lift keeps_get_self
  keeps_path_exists keeps_file_content keeps_store_file : py.

(** Goes through the combinators of an operation; [side] settles what
    is asked of an event or of the object that is set. *)
Ltac keeps_with side :=
  repeat first
    [ progress auto with py
    | apply keeps_print; side
    | apply keeps_vendor; side
    | apply keeps_set_self; side
    | apply keeps_bind; [|intros ?]
    | apply keeps_try_except; [|intros ?]
    | apply keeps_for_each; intros ?
    | match goal with
      | |- keeps _ _ (if ?b then _ else _) => destruct b
      | |- keeps _ _ (match ?x with _ => _ end) => destruct x
      | |- keeps _ _ (let _ := _ in _) => cbv zeta
      end ].

Lemma keeps_lifecycle {Self : Type} (P : Self -> Prop) (Q : event -> Prop)
      (e : Google.env) (scopes : json) (cf tf : str) :
  (forall fmt args, Q (Print fmt args)) ->
  (forall target args,
      In target ["Credentials.from_authorized_user_file"; "creds.refresh";
                 "InstalledAppFlow.from_client_secrets_file";
                 "flow.run_local_server"; "open"; "token.write"]%string ->
      Q (Call target args)) ->
  keeps P Q (@Google.credential_lifecycle Self e scopes cf tf).
Proof.
  intros Hprint Hcall.
  unfold Google.credential_lifecycle, Google.load_token,
    Google.refresh_expired, Google.consent, Google.save_token.
  keeps_with ltac:(first [apply Hprint | apply Hcall; simpl; tauto]).
Qed.

(** ** The connection of a Jira session *)

Lemma keeps_operation {A : Type} (Q : event -> Prop) (s0 : Jira.jira)
      (e : Jira.env) (sentinel : A) (body : M Jira.jira A)
      (failed : string) (failed_args : list json)
      (error : string) (error_args : list json) :
  Jira.connected s0 = true ->
  (forall fmt args, Q (Print fmt args)) ->
  keeps (eq s0) Q body ->
  keeps (eq s0) Q
        (Jira.operation e sentinel body failed failed_args error error_args).
Proof.
  intros Hc Hprint Hbody. unfold Jira.operation.
  apply keeps_try_except.
  - apply keeps_bind.
    + unfold Jira.ensure_connected. apply keeps_bind_get_self.
      intros s <-. rewrite Hc. apply keeps_ret.
    + intros [|]; [exact Hbody|apply keeps_ret].
  - intros ex. destruct ex; keeps_with ltac:(apply Hprint).
Qed.

Ltac unfold_jira :=
  unfold Jira.get_issue, Jira.search_issues, Jira.create_issue,
    Jira.get_projects, Jira.get_project, Jira.update_issue,
    Jira.add_comment, Jira.get_issue_types, Jira.get_users_with_roles,
    Jira.get_groups, Jira.get_group_members, Jira.get_project_components,
    Jira.create_component, Jira.update_component,
    Jira.get_project_custom_fields.

Lemma keeps_jira_run (e : Jira.env) (o : Jira.op) (s0 : Jira.jira) :
  Jira.connected s0 = true ->
  keeps (eq s0) (not_call "JIRA") (Jira.run e o).
Proof.
  intros Hc.
  destruct o; unfold Jira.run, value_of, done_of; unfold_jira;
    (apply keeps_bind; [|intros ?; apply keeps_ret]);
    (apply keeps_operation; [exact Hc|reflexivity|]);
    unfold Jira.project_or_return, Jira.project_role_users,
      Jira.global_users, Jira.group_member_users, Jira.client, Jira.data;
    keeps_with ltac:(reflexivity).
Qed.

(** X7. A connected Jira session stays as it is: no operation changes
    the object, and none calls the [JIRA] constructor again. *)
Theorem jira_connected_session_kept
        (e : Jira.env) (o : Jira.op) (st : state Jira.jira) :
  Jira.connected (self st) = true ->
  self (snd (Jira.run e o st)) = self st /\
  Forall (not_call "JIRA") (added (Jira.run e o) st).
Proof.
  intros Hc.
  destruct (keeps_added st (@keeps_jira_run e o (self st) Hc) eq_refl)
    as [Hs Ha].
  split; [now symmetry|exact Ha].
Qed.

Lemma jira_connected_session_kept_witness :
  self (snd (Jira.run JiraSample.refusing
               (Jira.GetIssue (lit "PROJ-1") None)
               (State JiraSample.session no_files [])))
  = JiraSample.session /\
  Forall (not_call "JIRA")
         (added (Jira.run JiraSample.refusing
                          (Jira.GetIssue (lit "PROJ-1") None))
                (State JiraSample.session no_files [])).
Proof.
  apply (@jira_connected_session_kept JiraSample.refusing
           (Jira.GetIssue (lit "PROJ-1") None)
           (State JiraSample.session no_files [])).
  reflexivity.
Defined.

Lemma operation_unreachable {A : Type} (e : Jira.env) (sentinel : A)
      (body : M Jira.jira A) (failed : string) (failed_args : list json)
      (error : string) (error_args : list json) (st : state Jira.jira)
      (ex : exn) :
  Jira.connected (self st) = false ->
  Jira.connect e (Jira.base_url (self st)) (Jira.username (self st))
               (Jira.api_token (self st)) (trace st) = Raise ex ->
  Jira.operation e sentinel body failed failed_args error error_args st =
  (Ret sentinel,
   State (self st) (files st)
         (trace st ++
          [Call "JIRA" [JStr (Jira.base_url (self st));
                        JStr (Jira.username (self st))];
           Print (match ex with
                  | JIRAError _ => "✗ Jira connection error: {}"
                  | _ => "✗ Connection error: {}"
                  end) [JStr (exn_str ex)]])).
Proof.
  intros Hc Hconn.
  unfold Jira.operation, Jira.ensure_connected, Jira._connect.
  unfold try_except at 1. unfold bind at 1. unfold bind at 1.
  unfold get_self at 1. rewrite Hc.
  unfold try_except at 1. unfold bind at 1. unfold get_self at 1.
  unfold bind at 1. unfold vendor at 1. rewrite Hconn.
  destruct ex; unfold bind, print, emit, ret; cbn [self files trace];
    rewrite <- app_assoc; reflexivity.
Qed.

(** X8. On a session without a client (the constructor could not
    connect) every operation first tries to connect; when that fails,
    the operation returns its sentinel having done nothing but the
    connection attempt and the report of its failure: no method of the
    client is called, and the object is as it was. *)
Theorem jira_unreachable_no_call
        (e : Jira.env) (o : Jira.op) (st : state Jira.jira) (ex : exn) :
  Jira.connected (self st) = false ->
  Jira.connect e (Jira.base_url (self st)) (Jira.username (self st))
               (Jira.api_token (self st)) (trace st) = Raise ex ->
  exists report,
    Jira.run e o st =
    (Ret (Jira_sentinel o),
     State (self st) (files st)
           (trace st ++
            [Call "JIRA" [JStr (Jira.base_url (self st));
                          JStr (Jira.username (self st))];
             Print report [JStr (exn_str ex)]])).
Proof.
  intros Hc Hconn. eexists.
  destruct o; unfold Jira.run, value_of, done_of; unfold_jira;
    (erewrite bind_Ret by (apply operation_unreachable; eassumption));
    reflexivity.
Qed.

Lemma jira_unreachable_no_call_witness :
  exists report,
    Jira.run JiraSample.refusing (Jira.AddComment (lit "PROJ-1") (lit "done"))
             (State (Jira.Session (lit "https://example.atlassian.net")
                                  (lit "me@example.com") (lit "secret") false)
                    no_files []) =
    (Ret (Done false),
     State (Jira.Session (lit "https://example.atlassian.net")
                         (lit "me@example.com") (lit "secret") false)
           no_files
           [Call "JIRA" [JStr (lit "https://example.atlassian.net");
                         JStr (lit "me@example.com")];
            Print report [JStr (lit "Unauthorized")]]).
Proof.
  apply (@jira_unreachable_no_call JiraSample.refusing
           (Jira.AddComment (lit "PROJ-1") (lit "done"))
           (State (Jira.Session (lit "https://example.atlassian.net")
                                (lit "me@example.com") (lit "secret") false)
                  no_files [])
           (JIRAError (lit "Unauthorized")));
    reflexivity.
Defined.

(** ** A component lead that cannot be found *)

(** X9. When the lookup of the lead fails, [create_component] warns and
    goes on: the next call creates the component from a dictionary
    without a [lead] entry.  [update_component] gives up instead: it
    returns [False] after the warning and the component is not
    updated. *)
Theorem component_lead_not_found
        (e : Jira.env) (st : state Jira.jira) (ex : exn)
        (c : ascii) (x : str) :
  let lead := c :: x in
  let warning :=
    Print "✗ Warning: Could not find user '{}': {}"
          [JStr lead; JStr (exn_str ex)] in
  Jira.connected (self st) = true ->
  always (Jira.call e "jira.user" [JStr lead]) (Raise ex) ->
  (forall project_key name description assignee_type,
      exists fields rest,
        added (Jira.create_component e project_key name description
                                     (Some lead) assignee_type) st =
        [Call "jira.user" [JStr lead]; warning;
         Print "  Creating component without lead assignment" [];
         Call "jira.create_component" [JDict fields]] ++ rest /\
        assoc (lit "lead") fields = None /\
        assoc (lit "name") fields = Some (JStr name)) /\
  (forall component_id name description assignee_type component,
      always (Jira.call e "jira.component" [JStr component_id])
             (Ret component) ->
      Jira.update_component e component_id name description (Some lead)
                            assignee_type st =
      (Ret false,
       State (self st) (files st)
             (trace st ++
              [Call "jira.component" [JStr component_id];
               Call "jira.user" [JStr lead]; warning]))).
Proof.
  cbv zeta. intros Hc Huser. split.
  - intros project_key name description assignee_type.
    exists ([(lit "name", JStr name); (lit "project", JStr project_key);
             (lit "assigneeType", JStr assignee_type)]
            ++ (if truthy description
                then [(lit "description", opt_json description)] else [])).
    match goal with
    | |- exists rest, added ?m st = ?evs ++ rest /\ _ =>
        assert (H : exists rest, trace (snd (m st)) = trace st ++ evs ++ rest)
    end.
    { unfold Jira.create_component, Jira.operation, Jira.ensure_connected,
        Jira.client.
      cbn [truthy opt_json].
      unfold try_except, bind, get_self, vendor, ret, print, emit, lift.
      rewrite Hc, Huser. cbn [self files trace]. rewrite app_nil_r.
      match goal with
      | |- context [Jira.call e "jira.create_component" ?a ?t] =>
          destruct (Jira.call e "jira.create_component" a t) as [comp|ex']
      end.
      - destruct (Jira.attr comp "name") as [n|ex'']; [|destruct ex''];
          eexists; cbn [snd trace]; rewrite <- !app_assoc; cbn [app];
          reflexivity.
      - destruct ex'; eexists; cbn [snd trace]; rewrite <- !app_assoc;
          cbn [app]; reflexivity. }
    destruct H as [rest H]. exists rest. split; [now apply added_trace|].
    destruct (truthy description); split; reflexivity.
  - intros component_id name description assignee_type component Hcomp.
    unfold Jira.update_component, Jira.operation, Jira.ensure_connected,
      Jira.client.
    cbn [truthy opt_json].
    unfold try_except, bind, get_self, vendor, ret, print, emit, lift.
    rewrite Hc, Hcomp. cbn [self files trace]. rewrite Huser.
    cbn [self files trace]. rewrite <- !app_assoc. reflexivity.
Qed.

Lemma component_lead_not_found_witness :
  Jira.update_component JiraSample.lead_unknown (lit "10010")
                        (Some (lit "Backend")) None (Some (lit "nobody")) None
                        (State JiraSample.session no_files []) =
  (Ret false,
   State JiraSample.session no_files
         [Call "jira.component" [JStr (lit "10010")];
          Call "jira.user" [JStr (lit "nobody")];
          Print "✗ Warning: Could not find user '{}': {}"
                [JStr (lit "nobody"); JStr (lit "User does not exist")]]).
Proof.
  refine (proj2 (@component_lead_not_found JiraSample.lead_unknown
                   (State JiraSample.session no_files [])
                   (JIRAError (lit "User does not exist")) "n" (lit "obody")
                   eq_refl _)
                (lit "10010") (Some (lit "Backend")) None None
                (JDict [(lit "name", JStr (lit "API"))]) _);
    intros tr; reflexivity.
Defined.

(** ** The [GoogleSheets] object *)

(** X10. A method that works through the client, called before
    [authenticate] has set one, reports that and returns its sentinel:
    nothing is sent, and the object is as it was. *)
Theorem sheets_not_authenticated
        (e : Google.env) (o : GoogleSheets.op)
        (st : state GoogleSheets.sheets) :
  needs_client o = true ->
  GoogleSheets.service (self st) = None ->
  GoogleSheets.run e o st =
  (Ret (GoogleSheets_sentinel o),
   State (self st) (files st)
         (trace st ++
          [Print "Error: Not authenticated. Call authenticate() first." []])).
Proof.
  intros Ho Hs.
  destruct o; try discriminate Ho;
    unfold GoogleSheets.run, value_of, done_of, GoogleSheets.get_sheet_list,
      GoogleSheets.read_all, GoogleSheets.read_range, GoogleSheets.write_row,
      GoogleSheets.write_cell, GoogleSheets.write_range,
      GoogleSheets.get_spreadsheet_info, GoogleSheets.with_service;
    unfold bind at 1; unfold bind at 1; unfold get_self at 1; rewrite Hs;
    reflexivity.
Qed.

Lemma sheets_not_authenticated_witness :
  GoogleSheets.run SheetsSample.confirming
                   (GoogleSheets.WriteCell (lit "Sheet1") (lit "A1")
                                           (JStr (lit "x")))
                   (State SheetsSample.unauthenticated no_files []) =
  (Ret (Done false),
   State SheetsSample.unauthenticated no_files
         [Print "Error: Not authenticated. Call authenticate() first." []]).
Proof.
  apply (@sheets_not_authenticated SheetsSample.confirming
           (GoogleSheets.WriteCell (lit "Sheet1") (lit "A1") (JStr (lit "x")))
           (State SheetsSample.unauthenticated no_files []));
    reflexivity.
Defined.

Ltac unfold_sheets :=
  unfold GoogleSheets.create_spreadsheet,
    GoogleSheets.find_spreadsheet_by_name, GoogleSheets.search_spreadsheet,
    GoogleSheets.delete_spreadsheet, GoogleSheets.delete_file,
    GoogleSheets.get_sheet_list, GoogleSheets.read_all,
    GoogleSheets.read_range, GoogleSheets.write_row, GoogleSheets.write_cell,
    GoogleSheets.write_range, GoogleSheets.get_spreadsheet_info,
    GoogleSheets.with_service, GoogleSheets.http_handlers,
    GoogleSheets.read_handlers.

Lemma keeps_lifecycle_any {Self : Type} (P : Self -> Prop)
      (e : Google.env) (scopes : json) (cf tf : str) :
  keeps P (fun _ => True) (@Google.credential_lifecycle Self e scopes cf tf).
Proof. apply keeps_lifecycle; intros; exact I. Qed.

#[global] Hint Resolve keeps_lifecycle_any : py.

(** X11. The spreadsheet ID and the two file paths of a [GoogleSheets]
    object are fixed at construction: no method changes them.  Only
    [authenticate] changes the object at all, and what it changes is the
    client: when it returns [True] the object holds a Sheets v4 client,
    and a client once set is never taken away, also by an
    [authenticate] that fails. *)
Theorem sheets_object_kept
        (e : Google.env) (o : GoogleSheets.op)
        (st : state GoogleSheets.sheets) :
  let s := self st in
  let s' := self (snd (GoogleSheets.run e o st)) in
  GoogleSheets.spreadsheet_id s' = GoogleSheets.spreadsheet_id s /\
  GoogleSheets.credentials_file s' = GoogleSheets.credentials_file s /\
  GoogleSheets.token_file s' = GoogleSheets.token_file s /\
  (GoogleSheets.service s <> None -> GoogleSheets.service s' <> None) /\
  (o <> GoogleSheets.Authenticate -> s' = s) /\
  (o = GoogleSheets.Authenticate ->
   fst (GoogleSheets.run e o st) = Ret (Done true) ->
   exists c, GoogleSheets.service s' = Some (Google.Client "sheets" "v4" c)).
Proof.
  cbv zeta.
  assert (Hother : o <> GoogleSheets.Authenticate ->
                   self (snd (GoogleSheets.run e o st)) = self st).
  { intros Ho.
    assert (K : keeps (eq (self st)) (fun _ => True) (GoogleSheets.run e o)).
    { destruct o; try (now elim Ho);
        unfold GoogleSheets.run, value_of, done_of;
        (apply keeps_bind; [|intros ?; apply keeps_ret]);
        repeat first [progress unfold_sheets
                     | progress keeps_with ltac:(exact I)]. }
    destruct (K st eq_refl) as [Hs _]. now symmetry. }
  assert (Hauth : o = GoogleSheets.Authenticate ->
    let s := self st in
    let s' := self (snd (GoogleSheets.run e o st)) in
    GoogleSheets.spreadsheet_id s' = GoogleSheets.spreadsheet_id s /\
    GoogleSheets.credentials_file s' = GoogleSheets.credentials_file s /\
    GoogleSheets.token_file s' = GoogleSheets.token_file s /\
    (GoogleSheets.service s <> None -> GoogleSheets.service s' <> None) /\
    (fst (GoogleSheets.run e o st) = Ret (Done true) ->
     exists c, GoogleSheets.service s' = Some (Google.Client "sheets" "v4" c))).
  { clear Hother. intros ->. cbv zeta.
    unfold GoogleSheets.run, done_of, GoogleSheets.authenticate, bind,
      get_self.
    cbv beta iota.
    destruct (@keeps_lifecycle_any _ (eq (self st)) e GoogleSheets.SCOPES
                (GoogleSheets.credentials_file (self st))
                (GoogleSheets.token_file (self st)) st eq_refl) as [Hs _].
    destruct (Google.credential_lifecycle e GoogleSheets.SCOPES
                (GoogleSheets.credentials_file (self st))
                (GoogleSheets.token_file (self st)) st)
      as [[[c|]|ex] st1]; cbn [snd] in Hs.
    - unfold try_except, vendor, set_self, print, emit, ret.
      destruct (Google.build e "sheets" "v4" c (trace st1)) as [[]|ex];
        cbn [fst snd self GoogleSheets.spreadsheet_id
             GoogleSheets.credentials_file GoogleSheets.token_file
             GoogleSheets.service].
      + split; [reflexivity|]. split; [reflexivity|]. split; [reflexivity|].
        split; [discriminate|]. intros _. now exists c.
      + rewrite <- Hs. split; [reflexivity|]. split; [reflexivity|].
        split; [reflexivity|]. split; [auto|]. discriminate.
    - unfold ret. cbn [fst snd]. rewrite <- Hs.
      split; [reflexivity|]. split; [reflexivity|].
      split; [reflexivity|]. split; [auto|]. discriminate.
    - cbn [fst snd]. rewrite <- Hs.
      split; [reflexivity|]. split; [reflexivity|].
      split; [reflexivity|]. split; [auto|]. discriminate. }
  assert (D : o = GoogleSheets.Authenticate \/ o <> GoogleSheets.Authenticate)
    by (destruct o; (now left) || (right; discriminate)).
  destruct D as [Ho|Ho].
  - destruct (Hauth Ho) as (H1 & H2 & H3 & H4 & H5).
    split; [exact H1|]. split; [exact H2|]. split; [exact H3|].
    split; [exact H4|]. split; [intros N; now elim N|]. intros _. exact H5.
  - rewrite (Hother Ho).
    split; [reflexivity|]. split; [reflexivity|]. split; [reflexivity|].
    split; [auto|]. split; [reflexivity|]. intros E. now elim Ho.
Qed.

(** X12. [read_all] and [read_range] keep "no data" apart from
    failure: when the API answers the request with a dictionary, the
    result is never [None]; it is the list under [values], or the empty
    list when that entry is missing or empty. *)
Theorem read_answers_never_none
        (e : Google.env) (st : state GoogleSheets.sheets)
        (svc : Google.service) (kv : list (str * json))
        (sheet_name range_name : str) :
  GoogleSheets.service (self st) = Some svc ->
  (forall args,
      Google.execute e svc "spreadsheets.values.get" args (trace st)
      = Ret (JDict kv)) ->
  let values :=
    match assoc (lit "values") kv with
    | Some v => if json_truthy v then v else JList []
    | None => JList []
    end in
  values <> JNull /\
  fst (GoogleSheets.read_all e sheet_name st) = Ret values /\
  fst (GoogleSheets.read_range e sheet_name range_name st) = Ret values.
Proof.
  intros Hs Hget. cbv zeta. split.
  - destruct (assoc (lit "values") kv) as [v|];
      [destruct (json_truthy v) eqn:T|]; try discriminate.
    intros ->. discriminate T.
  - unfold GoogleSheets.read_all, GoogleSheets.read_range,
      GoogleSheets.with_service, try_except, bind, get_self, vendor, lift.
    cbv beta iota. rewrite Hs, !Hget. unfold dict_get.
    destruct (assoc (lit "values") kv) as [v|]; cbn [json_truthy negb];
      [destruct (json_truthy v)|]; split; reflexivity.
Qed.

Lemma read_answers_never_none_witness :
  fst (GoogleSheets.read_all SheetsSample.confirming (lit "Sheet1")
         (State SheetsSample.authenticated no_files [])) = Ret (JList []).
Proof.
  refine (proj1 (proj2
    (@read_answers_never_none SheetsSample.confirming
       (State SheetsSample.authenticated no_files [])
       (Google.Client "sheets" "v4" GoogleSample.current)
       [(lit "name", JStr (lit "Budget"))] (lit "Sheet1") (lit "A1:B2")
       eq_refl _)));
    intros args; reflexivity.
Defined.

(** ** [delete_spreadsheet] asks first *)








(** ** The credential lifecycle: the paths without a new credential *)

(** X14. A persisted credential that loads, is not valid and cannot be
    refreshed (it has not expired, or it has no refresh token) is used
    as it is: the lifecycle does not try a refresh, does not start the
    consent flow, writes the same credential back to the token file and
    hands it to the operation. *)
Theorem lifecycle_keeps_unrefreshable_credential
        (Self : Type) (e : Google.env) (scopes : json) (cf tf : str)
        (st : state Self) (content : str) (c : Google.credentials) :
  files st tf = Some content ->
  always (Google.from_authorized_user_file e tf content scopes) (Ret c) ->
  Google.valid c = false ->
  Google.expired c && truthy (Google.refresh_token c) = false ->
  let run := Google.credential_lifecycle e scopes cf tf st in
  fst run = Ret (Some c) /\
  Forall no_renewal (added (Google.credential_lifecycle e scopes cf tf) st) /\
  (save_succeeds e tf c -> token_saved tf c st (snd run)).
Proof.
  intros Hfile Hload Hvalid Hexp. cbv zeta.
  assert (H : exists evs,
    fst (Google.credential_lifecycle e scopes cf tf st) = Ret (Some c) /\
    trace (snd (Google.credential_lifecycle e scopes cf tf st))
    = trace st ++ evs /\
    Forall no_renewal evs /\
    (save_succeeds e tf c ->
     token_saved tf c st (snd (Google.credential_lifecycle e scopes cf tf st)))).
  { lifecycle_unfold. rw Hfile. rw Hload. rewrite Hvalid, Hexp. simp.
    match goal with
    | |- context [Google.open_w e tf ?t] =>
        destruct (Google.open_w e tf t) as [[]|ex1] eqn:E1
    end; simp.
    - match goal with
      | |- context [Google.file_write e tf ?x ?t] =>
          destruct (Google.file_write e tf x t) as [[]|ex2] eqn:E2
      end; simp.
      + eexists. split; [reflexivity|]. split;
          [rewrite <- !app_assoc; reflexivity|]. split.
        * repeat constructor.
        * intros _. unfold token_saved; simp. split.
          -- now rewrite str_eqb_refl.
          -- intros p Hp. now rewrite Hp.
      + eexists. split; [reflexivity|]. split;
          [rewrite <- !app_assoc; reflexivity|]. split.
        * repeat constructor.
        * intros [_ Hw]. rewrite Hw in E2. discriminate.
    - eexists. split; [reflexivity|]. split;
        [rewrite <- !app_assoc; reflexivity|]. split.
      + repeat constructor.
      + intros [Ho _]. rewrite Ho in E1. discriminate. }
  destruct H as (evs & Hr & Ht & Hq & Hs).
  split; [exact Hr|]. split; [|exact Hs].
  now rewrite (@added_trace _ _ _ st evs Ht).
Qed.

Lemma lifecycle_keeps_unrefreshable_credential_witness :
  fst (Google.credential_lifecycle
         (GoogleSample.make GoogleSample2.worn_out (Ret GoogleSample.fresh)
                            (Ret tt) (Ret JNull))
         GoogleSheets.SCOPES (lit "credentials.json") (lit "token.json")
         GoogleSample.start)
  = Ret (Some GoogleSample2.worn_out).
Proof.
  refine (proj1
    (@lifecycle_keeps_unrefreshable_credential unit
       (GoogleSample.make GoogleSample2.worn_out (Ret GoogleSample.fresh)
                          (Ret tt) (Ret JNull))
       GoogleSheets.SCOPES (lit "credentials.json") (lit "token.json")
       GoogleSample.start (lit "{token: ya29.old}") GoogleSample2.worn_out
       _ _ _ _));
    try reflexivity; intros tr; reflexivity.
Defined.

(** X15. When the lifecycle has to turn to the consent flow and the
    consent flow fails, the operation gets the failure sentinel and
    nothing is written: no file has changed, the token file is not even
    opened, and [authenticate] returns [False]. *)
Theorem consent_failure_writes_nothing
        (e : Google.env) (st : state GoogleSheets.sheets) :
  let cf := GoogleSheets.credentials_file (self st) in
  let tf := GoogleSheets.token_file (self st) in
  let run := Google.credential_lifecycle e GoogleSheets.SCOPES cf tf st in
  needs_consent e GoogleSheets.SCOPES tf st ->
  consent_fails e GoogleSheets.SCOPES cf ->
  fst run = Ret None /\
  files (snd run) = files st /\
  Forall (not_call "open")
         (added (Google.credential_lifecycle e GoogleSheets.SCOPES cf tf) st) /\
  fst (GoogleSheets.authenticate e st) = Ret false.
Proof.
  cbv zeta. intros Hneed Hfail.
  assert (H : exists evs,
    Google.credential_lifecycle e GoogleSheets.SCOPES
      (GoogleSheets.credentials_file (self st))
      (GoogleSheets.token_file (self st)) st =
    (Ret None, State (self st) (files st) (trace st ++ evs)) /\
    Forall (not_call "open") evs).
  { destruct Hneed as [Hfile|[(content & ex & Hfile & Hload)
                             |(content & c & ex & Hfile & Hload & Hexp & Hrt & Href)]];
      destruct Hfail as [[ex' Hflow]|[Hflow [ex' Hrun]]];
      lifecycle_unfold; rw Hfile; try rw Hload;
      try (rewrite (@valid_expired c Hexp), Hexp, Hrt; simp; rw Href);
      rw Hflow; try rw Hrun;
      destruct ex'; simp; eexists;
      (split; [rewrite <- ?app_assoc; cbn [app]; reflexivity
              |repeat constructor]). }
  destruct H as (evs & E & Hq). rewrite E. cbn [fst snd files].
  split; [reflexivity|]. split; [reflexivity|]. split.
  - rewrite (@added_trace _ _ _ st evs); [exact Hq|]. now rewrite E.
  - apply (proj1 (authenticate_lifecycle e st)). now rewrite E.
Qed.

Lemma consent_failure_writes_nothing_witness :
  fst (GoogleSheets.authenticate GoogleSample2.no_client_secret
         (State SheetsSample.unauthenticated GoogleSample.token_present []))
  = Ret false.
Proof.
  refine (proj2 (proj2 (proj2
    (@consent_failure_writes_nothing GoogleSample2.no_client_secret
       (State SheetsSample.unauthenticated GoogleSample.token_present [])
       _ _)))).
  - right. right.
    exists (lit "{token: ya29.old}"), GoogleSample.stale,
      (OtherError (lit "invalid_grant")).
    repeat split; intros tr; reflexivity.
  - left. exists (FileNotFoundError (lit "credentials.json")).
    intros tr. reflexivity.
Defined.

(** ** Confluence requests and results *)

Ltac paginated_side :=
  intros ? ? H;
  first [ discriminate H
        | injection H as <- <-; split; reflexivity ].

(** X16. Pagination is forwarded as given, but for the cap: every
    request [search_content], [search_in_space] and [get_space_content]
    send carries [min(limit, 200)] as its [limit] and the caller's
    [start] ([search_in_space] has none and sends 0). *)
Theorem pagination_forwarded
        (e : Confluence.env) (st : state Confluence.session)
        (query space : str) (space_key content_type expand : option str)
        (kind : str) (limit start : Z) (use_default_space : bool) :
  Forall (paginated limit start)
         (added (Confluence.search_content e query space_key content_type
                   limit start expand use_default_space) st) /\
  Forall (paginated limit 0)
         (added (Confluence.search_in_space e space query content_type limit)
                st) /\
  Forall (paginated limit start)
         (added (Confluence.get_space_content e space kind limit start) st).
Proof.
  assert (S : forall q sk ct l s x u,
             keeps (fun _ => True) (paginated l s)
                   (Confluence.search_content e q sk ct l s x u)).
  { intros. unfold Confluence.search_content.
    apply keeps_try_except; [|intros ?; keeps_with paginated_side].
    apply keeps_bind; [apply keeps_get_self|intros slf]. cbv zeta.
    keeps_with paginated_side. }
  split; [|split].
  - exact (proj2 (keeps_added st (S _ _ _ _ _ _ _) I)).
  - refine (proj2 (@keeps_added _ _ (fun _ => True) _ _ st _ I)).
    unfold Confluence.search_in_space.
    apply keeps_try_except; [|intros ?; keeps_with paginated_side].
    apply keeps_bind; [apply keeps_print; paginated_side|intros _].
    apply keeps_bind; [apply S|intros v].
    keeps_with paginated_side.
  - refine (proj2 (@keeps_added _ _ (fun _ => True) _ _ st _ I)).
    unfold Confluence.get_space_content.
    keeps_with paginated_side.
Qed.

Lemma for_each_format (e : Confluence.env) (items : list json)
      (st : state Confluence.session) :
  (forall r tr, exists v, Confluence.format_result e r tr = Ret v) ->
  exists formatted st',
    for_each (fun r => vendor "format_result" [r]
                              (Confluence.format_result e r)) items st
    = (Ret formatted, st') /\
    List.length formatted = List.length items.
Proof.
  intros Hf. revert st. induction items as [|r items IH]; intros st; simpl.
  - now exists [], st.
  - unfold bind at 1. unfold vendor at 1.
    destruct (Hf r (trace st)) as [v ->].
    unfold bind at 1.
    destruct (IH (State (self st) (files st)
                        (trace st ++ [Call "format_result" [r]])))
      as (formatted & st' & -> & L).
    exists (v :: formatted), st'. split; [reflexivity|]. simpl. now rewrite L.
Qed.

(** X17. What a successful search returns.  When the server answers
    with status 200 and a JSON object and every result can be reshaped,
    [search_content] returns a dictionary whose [results] holds one
    entry for each result of the answer, whose [total_results] is their
    number, whose [query] is the CQL that was sent, and whose [limit]
    and [start] are the server's, or the caller's when the server names
    none. *)
Theorem search_content_result
        (e : Confluence.env) (st : state Confluence.session)
        (query : str) (space_key content_type expand : option str)
        (limit start : Z) (use_default_space : bool)
        (reply : str) (data : list (str * json)) (items : list json) :
  (forall url params,
      always (Confluence.session_get e url params)
             (Ret (Response 200 reply (Ret (JDict data))))) ->
  assoc (lit "results") data = Some (JList items) ->
  (forall r tr, exists v, Confluence.format_result e r tr = Ret v) ->
  let run := Confluence.search_content e query space_key content_type
               limit start expand use_default_space st in
  exists result formatted,
    fst run = Ret result /\
    entry result "results" = JList formatted /\
    List.length formatted = List.length items /\
    entry result "total_results" = JInt (Z.of_nat (List.length items)) /\
    Some (entry result "query")
    = option_map JStr (sent_cql (trace st) (trace (snd run))) /\
    entry result "limit"
    = match assoc (lit "limit") data with Some v => v | None => JInt limit end /\
    entry result "start"
    = match assoc (lit "start") data with Some v => v | None => JInt start end.
Proof.
  intros Hget Hresults Hformat. cbv zeta.
  pose proof (@search_content_sends e (self st) (files st) (trace st) query
                space_key content_type limit start expand use_default_space
                _ eq_refl) as Hsent.
  apply sends_cql_sent in Hsent.
  replace (State (self st) (files st) (trace st)) with st in Hsent
    by now destruct st.
  rewrite Hsent. clear Hsent.
  unfold Confluence.search_content, try_except, bind, get_self.
  cbv beta iota zeta.
  destruct (negb (truthy space_key) && use_default_space
            && truthy (Confluence.default_space (self st)));
    unfold print, emit, ret, vendor, lift; cbn [self files trace];
    rewrite Hget; cbn [status_code body Z.eqb Pos.eqb];
    unfold dict_get; rewrite Hresults; cbn [elements];
    match goal with
    | |- context [for_each ?f items ?s] =>
        change f with (fun r : json =>
                         @vendor Confluence.session json "format_result" [r]
                                 (Confluence.format_result e r));
        destruct (@for_each_format e items s Hformat)
          as (formatted & st' & -> & L)
    end;
    (destruct (assoc (lit "size") data), (assoc (lit "limit") data),
       (assoc (lit "start") data));
    cbn [fst]; eexists; exists formatted;
    (split; [reflexivity|]);
    (split; [reflexivity|]); (split; [exact L|]);
    (split; [rewrite <- L; reflexivity|]);
    (split; [|split; reflexivity]);
    cbn; do 2 f_equal;
    destruct content_type as [[|c x]|],
             (Confluence.default_space (self st)) as [[|c0 x0]|],
             space_key as [[|c1 x1]|];
    unfold clause; simpl; rewrite ?app_nil_r, <- ?app_assoc; reflexivity.
Qed.

Lemma search_content_result_witness :
  exists result formatted,
    fst (Confluence.search_content ConfluenceSample.answering
           (lit "text ~ report") None None 500 0 None true
           (State ConfluenceSample.with_docs no_files [])) = Ret result /\
    entry result "results" = JList formatted /\
    List.length formatted = 2 /\
    entry result "total_results" = JInt 2.
Proof.
  destruct (@search_content_result ConfluenceSample.answering
              (State ConfluenceSample.with_docs no_files [])
              (lit "text ~ report") None None None 500 0 true (lit "OK")
              [(lit "results", JList ConfluenceSample.two_pages);
               (lit "size", JInt 2)]
              ConfluenceSample.two_pages)
    as (result & formatted & H1 & H2 & H3 & H4 & _).
  - intros url params tr. reflexivity.
  - reflexivity.
  - intros r tr. now exists r.
  - exists result, formatted. auto.
Defined.

(** X18. [test_connection] returns [True] exactly when the request for
    the current user comes back with status 200 and a body that is a
    JSON object; any other status, a body that does not parse, a body
    that is no object, and a request that raises all give [False]. *)
Theorem test_connection_true_iff
        (e : Confluence.env) (st : state Confluence.session) :
  fst (Confluence.test_connection e st) = Ret true <->
  exists reply user_info,
    Confluence.session_get
      e (Confluence.base_url (self st) ++ lit "/rest/api/user/current")
      JNull (trace st)
    = Ret (Response 200 reply (Ret (JDict user_info))).
Proof.
  unfold Confluence.test_connection, try_except, bind, get_self, vendor,
    lift, print, emit, ret.
  cbv beta iota.
  destruct (Confluence.session_get e _ JNull (trace st))
    as [[status reply parsed]|ex]; cbn [status_code Confluence.base_url].
  - destruct (status =? 200)%Z eqn:S; cbn [body text status_code].
    + apply Z.eqb_eq in S. subst status.
      destruct parsed as [[| | | | |kv]|ex]; cbn [dict_get fst];
        unfold dict_get.
      6: { destruct (assoc (lit "displayName") kv); cbn [fst];
           (split; [intros _; now exists reply, kv|reflexivity]). }
      all: split; [discriminate|intros (r & u & H); discriminate H].
    + split; [discriminate|]. intros (r & u & H). inversion H; subst.
      discriminate S.
  - split; [discriminate|]. intros (r & u & H). discriminate H.
Qed.

(** What [search_content] returns is [None] or a dictionary that starts
    with its [results]. *)
Lemma search_content_value
      (e : Confluence.env) (st : state Confluence.session)
      (query : str) (space_key content_type expand : option str)
      (limit start : Z) (use_default_space : bool) (v : json) :
  fst (Confluence.search_content e query space_key content_type limit start
         expand use_default_space st) = Ret v ->
  v = JNull \/
  exists formatted rest, v = JDict ((lit "results", JList formatted) :: rest).
Proof.
  unfold Confluence.search_content, try_except, bind, get_self, vendor,
    lift, print, emit, ret.
  cbv beta iota zeta.
  repeat match goal with
         | |- context [if ?b then _ else _] => destruct b
         | |- context [Confluence.session_get e ?u ?p ?t] =>
             destruct (Confluence.session_get e u p t)
               as [[?code ?reply [?parsed|?]]|?];
               cbn [status_code body text]
         | |- context [dict_get ?d ?k ?x] => destruct (dict_get d k x)
         | |- context [elements ?r] => destruct (elements r)
         | |- context [for_each ?f ?l ?s] =>
             destruct (for_each f l s) as [[?|?] ?]
         end;
    cbn [fst]; intros H; inversion H; eauto.
Qed.

(** X19. [search_in_space] is [search_content] on the given space,
    from the first result on and without expansion list, reduced to its
    [results]: after its own first line it does what [search_content]
    does, and it returns the [results] entry of what that returns, or
    [None] when that is [None].  Its own handler is never entered. *)
Theorem search_in_space_is_search_content
        (e : Confluence.env) (st : state Confluence.session)
        (space_key query : str) (content_type : option str) (limit : Z) :
  let announced :=
    State (self st) (files st)
          (trace st ++
           [Print "🔍 Searching in space '{}' for: {}"
                  [JStr space_key; JStr query]]) in
  exists result st',
    Confluence.search_content e query (Some space_key) content_type limit 0
                              None true announced = (Ret result, st') /\
    Confluence.search_in_space e space_key query content_type limit st
    = (Ret (entry result "results"), st').
Proof.
  cbv zeta.
  set (announced := State (self st) (files st) _).
  destruct (Confluence_returns e
              (Confluence.SearchContent query (Some space_key) content_type
                                        limit 0 None true) announced)
    as (a & st1 & R).
  unfold Confluence.run, value_of in R. unfold bind at 1 in R.
  destruct (Confluence.search_content e query (Some space_key) content_type
              limit 0 None true announced) as [[v|ex] st2] eqn:E;
    [|discriminate R].
  exists v, st2. split; [reflexivity|].
  unfold Confluence.search_in_space.
  unfold try_except at 1. unfold bind at 1. unfold print at 1, emit at 1.
  fold announced. unfold bind at 1. rewrite E.
  assert (V := @search_content_value e announced query (Some space_key)
                 content_type None limit 0 true v).
  rewrite E in V. destruct (V eq_refl) as [->|(formatted & rest & ->)];
    reflexivity.
Qed.

(** ** Connecting on demand *)

Lemma operation_connects {A : Type} (e : Jira.env) (sentinel : A)
      (body : M Jira.jira A) (failed : string) (failed_args : list json)
      (error : string) (error_args : list json) (st : state Jira.jira) :
  Jira.connected (self st) = false ->
  Jira.connect e (Jira.base_url (self st)) (Jira.username (self st))
               (Jira.api_token (self st)) (trace st) = Ret tt ->
  Jira.operation e sentinel body failed failed_args error error_args st =
  Jira.operation e sentinel body failed failed_args error error_args
    (State (Jira.Session (Jira.base_url (self st)) (Jira.username (self st))
                         (Jira.api_token (self st)) true)
           (files st)
           (trace st ++
            [Call "JIRA" [JStr (Jira.base_url (self st));
                          JStr (Jira.username (self st))]])).
Proof.
  intros Hc Hconn.
  unfold Jira.operation, Jira.ensure_connected, Jira._connect.
  unfold try_except at 1 3. unfold bind at 1 2.
  unfold get_self at 1. rewrite Hc.
  unfold try_except at 1. unfold bind at 1. unfold get_self at 1.
  unfold bind at 1. unfold vendor at 1. rewrite Hconn.
  unfold bind at 1. unfold set_self at 1. unfold ret at 1.
  cbn [self files trace].
  unfold bind at 2. unfold bind at 2. unfold get_self at 1.
  cbn [self Jira.connected]. unfold ret at 1. reflexivity.
Qed.

(** X20. An operation on a session without a client connects first, and
    when the connection is made it is the same operation on the session
    with its client: the [JIRA] constructor is called once with the
    stored server and user, the object is marked as connected, and the
    operation goes on from there, so that the session stays connected
    afterwards. *)
Theorem jira_connects_on_demand
        (e : Jira.env) (o : Jira.op) (st : state Jira.jira) :
  Jira.connected (self st) = false ->
  Jira.connect e (Jira.base_url (self st)) (Jira.username (self st))
               (Jira.api_token (self st)) (trace st) = Ret tt ->
  let connected :=
    State (Jira.Session (Jira.base_url (self st)) (Jira.username (self st))
                        (Jira.api_token (self st)) true)
          (files st)
          (trace st ++
           [Call "JIRA" [JStr (Jira.base_url (self st));
                         JStr (Jira.username (self st))]]) in
  Jira.run e o st = Jira.run e o connected /\
  Jira.connected (self (snd (Jira.run e o st))) = true.
Proof.
  intros Hc Hconn. cbv zeta.
  assert (E : Jira.run e o st =
              Jira.run e o
                (State (Jira.Session (Jira.base_url (self st))
                                     (Jira.username (self st))
                                     (Jira.api_token (self st)) true)
                       (files st)
                       (trace st ++
                        [Call "JIRA" [JStr (Jira.base_url (self st));
                                      JStr (Jira.username (self st))]]))).
  { destruct o; unfold Jira.run, value_of, done_of; unfold_jira;
      unfold bind at 1; unfold bind at 2;
      (erewrite operation_connects by eassumption); reflexivity. }
  split; [exact E|]. rewrite E.
  match goal with
  | |- context [Jira.run e o ?s] =>
      destruct (@keeps_jira_run e o (self s) eq_refl s eq_refl) as [<- _]
  end.
  reflexivity.
Qed.

Lemma jira_connects_on_demand_witness :
  Jira.connected
    (self (snd (Jira.run JiraSample.lead_unknown
                  (Jira.GetProject (lit "PROJ"))
                  (State (Jira.Session (lit "https://example.atlassian.net")
                                       (lit "me@example.com") (lit "secret")
                                       false)
                         no_files [])))) = true.
Proof.
  apply (@jira_connects_on_demand JiraSample.lead_unknown
           (Jira.GetProject (lit "PROJ"))
           (State (Jira.Session (lit "https://example.atlassian.net")
                                (lit "me@example.com") (lit "secret") false)
                  no_files []));
    reflexivity.
Defined.

(** ** Roles that cannot be read *)

Lemma for_each_returns {Self A B : Type} (f : A -> M Self B) (xs : list A)
      (st : state Self) :
  (forall x st', returns (f x) st') -> returns (for_each f xs) st.
Proof.
  intros Hf. revert st. induction xs as [|x xs IH]; intros st; simpl.
  - apply returns_ret.
  - apply returns_bind; [apply Hf|]. intros y st1.
    apply returns_bind; [apply IH|]. intros ys st2. apply returns_ret.
Qed.

Lemma for_each_nothing {Self A : Type} (f : A -> M Self json) (xs : list A)
      (st : state Self) :
  (forall x st', exists st'', f x st' = (Ret (JList []), st'')) ->
  exists st', for_each f xs st
              = (Ret (repeat (JList []) (List.length xs)), st').
Proof.
  intros Hf. revert st. induction xs as [|x xs IH]; intros st; simpl.
  - now exists st.
  - unfold bind at 1. destruct (Hf x st) as [st1 ->].
    unfold bind at 1. destruct (IH st1) as [st2 ->]. now exists st2.
Qed.

Lemma collected_nothing (n : nat) :
  Jira.collected (repeat (JList []) n) = JList [].
Proof.
  unfold Jira.collected. f_equal. induction n; simpl; auto.
Qed.

Lemma project_role_users_some (e : Jira.env) (st : state Jira.jira)
      (project_key : str) (roles : list (str * json)) :
  Jira.call e "jira.project_roles" [JStr project_key] (trace st)
  = Ret (JDict roles) ->
  (exists pieces st',
      Jira.project_role_users e project_key st
      = (Ret (Some (Jira.collected pieces)), st')) /\
  ((forall args tr, exists ex,
       Jira.call e "jira.project_role" args tr = Raise ex) ->
   exists st',
     Jira.project_role_users e project_key st = (Ret (Some (JList [])), st')).
Proof.
  intros Hroles. unfold Jira.project_role_users.
  split; [|intros Hdown];
    unfold try_except at 1; unfold bind at 1; unfold Jira.client at 1;
    unfold vendor at 1; rewrite Hroles;
    unfold bind at 1; unfold lift at 1; cbn [json_len];
    unfold bind at 1; unfold print at 1, emit at 1; cbn [self files trace];
    unfold bind at 1; unfold lift at 1; cbn [Jira.dict_items];
    unfold bind at 1;
    match goal with
    | |- context [for_each ?f ?l ?s] => set (each := f); set (s1 := s)
    end.
  - destruct (@for_each_returns _ _ _ each
                (map (fun p => (JStr (fst p), snd p)) roles) s1)
      as (pieces & st' & E).
    { intros role st0. subst each. cbv beta. returns_tac. }
    rewrite E. now exists pieces, st'.
  - destruct (@for_each_nothing _ _ each
                (map (fun p => (JStr (fst p), snd p)) roles) s1)
      as (st' & E).
    { intros role st0. subst each. cbv beta.
      unfold try_except, bind, lift, print, emit, ret, Jira.client, vendor.
      destruct (Jira.role_id_of (snd role)) as [[id|]|ex];
        [destruct (json_truthy id); cbn [negb]| |]; try (eexists; reflexivity).
      destruct (Hdown [JStr project_key; id] (trace st0)) as [ex ->].
      eexists; reflexivity. }
    rewrite E. unfold ret. rewrite collected_nothing. now exists st'.
Qed.

(** X21. A role that cannot be read does not make
    [get_users_with_roles] fail: once the roles of the project have been
    listed, the result is a list, whatever the lookups of the single
    roles do; when every one of them fails it is the empty list, not
    [None]. *)
Theorem role_errors_are_skipped
        (e : Jira.env) (st : state Jira.jira) (c : ascii) (x : str)
        (include_groups : bool) (roles : list (str * json)) :
  let project_key := c :: x in
  Jira.connected (self st) = true ->
  Jira.call e "jira.project_roles" [JStr project_key] (trace st)
  = Ret (JDict roles) ->
  (exists users,
      fst (Jira.get_users_with_roles e (Some project_key) include_groups st)
      = Ret (JList users)) /\
  ((forall args tr, exists ex,
       Jira.call e "jira.project_role" args tr = Raise ex) ->
   fst (Jira.get_users_with_roles e (Some project_key) include_groups st)
   = Ret (JList [])).
Proof.
  cbv zeta. intros Hc Hroles.
  destruct (@project_role_users_some e st (c :: x) roles Hroles)
    as [(pieces & st' & E) Hdown].
  unfold Jira.get_users_with_roles, Jira.operation, Jira.ensure_connected.
  split; [|intros Hall];
    unfold try_except at 1; unfold bind at 1; unfold bind at 1;
    unfold get_self at 1; rewrite Hc; unfold ret at 1;
    unfold bind at 1.
  - rewrite E. unfold Jira.collected at 1. cbn [json_len].
    unfold bind, lift, print, emit, ret. cbn [fst]. eexists. reflexivity.
  - destruct (Hdown Hall) as [st'' ->]. reflexivity.
Qed.

Lemma role_errors_are_skipped_witness :
  fst (Jira.get_users_with_roles JiraSample.roles_unreadable
         (Some (lit "PROJ")) true (State JiraSample.session no_files []))
  = Ret (JList []).
Proof.
  refine (proj2 (@role_errors_are_skipped JiraSample.roles_unreadable
                   (State JiraSample.session no_files []) "P" (lit "ROJ") true
                   [(lit "Developers",
                     JStr (lit "https://example.atlassian.net/rest/api/2/project/10000/role/10001"))]
                   eq_refl eq_refl) _).
  intros args tr. eexists. reflexivity.
Defined.

(** ** No tag is left in an excerpt *)

Lemma tag_free_no_tag (s : str) : tag_free s -> ~ has_tag s.
Proof.
  intros H (pre & inner & post & Hne & Hin & ->).
  specialize (H pre (inner ++ ">"%char :: post) eq_refl).
  destruct inner as [|c inner]; [now elim Hne|].
  simpl in H, Hin. apply andb_true_iff in Hin as [Hc Hin].
  destruct H as [->|H]; [discriminate Hc|].
  apply andb_true_iff in H as [_ H]. rewrite forallb_app in H.
  apply andb_true_iff in H as [_ H]. discriminate H.
Qed.

Lemma no_gt_opens_nothing (s : str) :
  forallb not_gt s = true -> opens_nothing s.
Proof. destruct s; simpl; auto. Qed.

Lemma opens_nothing_prefix (r q : str) :
  opens_nothing (r ++ q) -> opens_nothing r.
Proof.
  destruct r as [|c r]; simpl; [auto|]. intros [H|H]; [now left|right].
  apply andb_true_iff in H as [Hc H]. rewrite forallb_app in H.
  apply andb_true_iff in H as [H _]. now rewrite Hc, H.
Qed.

Lemma tag_free_nil : tag_free [].
Proof. intros [|c pre] rest H; discriminate H. Qed.

Lemma tag_free_prefix (p q : str) : tag_free (p ++ q) -> tag_free p.
Proof.
  intros H pre rest ->. apply opens_nothing_prefix with (q := q).
  apply (H pre). now rewrite <- app_assoc.
Qed.

Lemma tag_free_suffix (p q : str) : tag_free (p ++ q) -> tag_free q.
Proof.
  intros H pre rest ->. apply (H (p ++ pre)). now rewrite <- app_assoc.
Qed.

Lemma tag_free_cons (c : ascii) (s : str) :
  (c = "<"%char -> opens_nothing s) -> tag_free s -> tag_free (c :: s).
Proof.
  intros Hc Hs [|c' pre] rest H; simpl in H; inversion H; subst.
  - now apply Hc.
  - now apply (Hs pre).
Qed.

Lemma tag_free_tail (c : ascii) (s : str) : tag_free (c :: s) -> tag_free s.
Proof. apply (@tag_free_suffix [c] s). Qed.

Lemma tag_free_head (s : str) : tag_free ("<"%char :: s) -> opens_nothing s.
Proof. intros H. now apply (H []). Qed.

Lemma take_while_rest (f : ascii -> bool) (s : str) :
  exists post,
    s = take_while f s ++ post /\
    match post with [] => True | c :: _ => f c = false end.
Proof.
  induction s as [|c s (post & IH1 & IH2)]; simpl.
  - now exists [].
  - destruct (f c) eqn:E.
    + exists post. split; [simpl; now rewrite <- IH1|exact IH2].
    + now exists (c :: s).
Qed.

Lemma not_gt_false (c : ascii) : not_gt c = false -> c = ">"%char.
Proof.
  unfold not_gt. destruct (Ascii.eqb c ">") eqn:E; [|discriminate].
  intros _. now apply ascii_eqb_true.
Qed.

(** What follows a [<] that [tag_closes] does not accept. *)
Lemma tag_closes_false (s : str) :
  Confluence.tag_closes s = false -> opens_nothing s.
Proof.
  unfold Confluence.tag_closes.
  change (fun c : ascii => negb (Ascii.eqb c ">")) with not_gt.
  destruct (take_while_rest not_gt s) as (post & Hs & Hpost).
  destruct (take_while_split not_gt s) as [Hrun _].
  destruct (take_while not_gt s) as [|c run].
  - intros _. simpl in Hs. subst post. destruct s as [|c s]; [exact I|].
    left. now apply not_gt_false.
  - intros H. rewrite Hs in H.
    rewrite skipn_app, skipn_all, Nat.sub_diag in H. simpl in H.
    destruct post as [|c' post].
    + rewrite app_nil_r in Hs. subst s. now apply no_gt_opens_nothing.
    + apply not_gt_false in Hpost. subst c'. discriminate H.
Qed.

Lemma sub_tags_no_gt (s : str) (inside : bool) :
  forallb not_gt s = true ->
  forallb not_gt (Confluence.sub_tags inside s) = true.
Proof.
  revert inside. induction s as [|c s IH]; intros inside H; [reflexivity|].
  simpl in H. apply andb_true_iff in H as [Hc H]. simpl.
  destruct inside.
  - pose proof Hc as Hc'. unfold not_gt in Hc'.
    destruct (Ascii.eqb c ">"); [discriminate Hc'|]. now apply IH.
  - destruct (Ascii.eqb c "<" && Confluence.tag_closes s); [now apply IH|].
    simpl. rewrite Hc. now apply IH.
Qed.

Lemma sub_tags_opens_nothing (s : str) :
  opens_nothing s -> opens_nothing (Confluence.sub_tags false s).
Proof.
  destruct s as [|c s]; [auto|]. intros [->|H].
  - simpl. now left.
  - now apply no_gt_opens_nothing, sub_tags_no_gt.
Qed.

Lemma sub_tags_tag_free (s : str) (inside : bool) :
  tag_free (Confluence.sub_tags inside s).
Proof.
  revert inside. induction s as [|c s IH]; intros inside; simpl.
  - destruct inside; apply tag_free_nil.
  - destruct inside.
    + destruct (Ascii.eqb c ">"); [|apply IH].
      apply tag_free_cons; [discriminate|apply IH].
    + destruct (Ascii.eqb c "<") eqn:Hc; cbn [andb].
      * destruct (Confluence.tag_closes s) eqn:Ht; [apply IH|].
        apply tag_free_cons; [|apply IH]. intros _.
        now apply sub_tags_opens_nothing, tag_closes_false.
      * apply tag_free_cons; [|apply IH]. intros ->.
        discriminate Hc.
Qed.

Lemma sub_spaces_no_gt (s : str) (in_run : bool) :
  forallb not_gt s = true ->
  forallb not_gt (Confluence.sub_spaces in_run s) = true.
Proof.
  revert in_run. induction s as [|c s IH]; intros in_run H; [reflexivity|].
  simpl in H. apply andb_true_iff in H as [Hc H]. simpl.
  destruct (re_space c); [destruct in_run|]; simpl;
    rewrite ?Hc; now apply IH.
Qed.

Lemma sub_spaces_opens_nothing (s : str) :
  opens_nothing s -> opens_nothing (Confluence.sub_spaces false s).
Proof.
  destruct s as [|c s]; [auto|]. intros [->|H].
  - simpl. now left.
  - now apply no_gt_opens_nothing, sub_spaces_no_gt.
Qed.

Lemma sub_spaces_tag_free (s : str) (in_run : bool) :
  tag_free s -> tag_free (Confluence.sub_spaces in_run s).
Proof.
  revert in_run. induction s as [|c s IH]; intros in_run H; simpl.
  - apply tag_free_nil.
  - pose proof (tag_free_tail H) as Hs.
    destruct (re_space c) eqn:Hc.
    + destruct in_run; [now apply IH|].
      apply tag_free_cons; [discriminate|now apply IH].
    + apply tag_free_cons; [|now apply IH]. intros ->.
      now apply sub_spaces_opens_nothing, tag_free_head.
Qed.

Lemma lstrip_suffix (s : str) : exists p, s = p ++ lstrip s.
Proof.
  induction s as [|c s [p IH]]; simpl; [now exists []|].
  destruct (is_space c); [|now exists []].
  exists (c :: p). simpl. now rewrite <- IH.
Qed.

Lemma strip_spaces_tag_free (s : str) :
  tag_free s -> tag_free (strip_spaces s).
Proof.
  intros H. unfold strip_spaces.
  destruct (lstrip_suffix s) as [p Hp].
  destruct (lstrip_suffix (rev (lstrip s))) as [q Hq].
  apply tag_free_prefix with (q := rev q).
  rewrite <- rev_app_distr, <- Hq, rev_involutive.
  apply tag_free_suffix with (p := p). now rewrite <- Hp.
Qed.

Lemma before_last_space_prefix (s : str) :
  exists q, s = before_last_space s ++ q.
Proof.
  induction s as [|c s [q IH]]; simpl; [now exists []|].
  destruct (existsb (Ascii.eqb " ") s).
  - exists q. simpl. now rewrite <- IH.
  - destruct (Ascii.eqb c " "); [now exists (c :: s)|].
    exists []. now rewrite app_nil_r.
Qed.

Lemma slice_to_prefix {A : Type} (stop : Z) (l : list A) :
  exists q, l = slice_to stop l ++ q.
Proof.
  unfold slice_to. destruct (stop <? 0)%Z; eexists;
    symmetry; apply firstn_skipn.
Qed.

Lemma tag_free_ellipsis (p : str) : tag_free p -> tag_free (p ++ lit "...").
Proof.
  intros H pre rest E. apply app_eq_app in E as [l [[E1 E2]|[E1 E2]]].
  - destruct l as [|c l]; [discriminate E2|].
    simpl in E2. inversion E2; subst c rest. subst p.
    specialize (H pre l eq_refl).
    destruct l as [|c l]; simpl in *; [now right|].
    destruct H as [H|H]; [now left|right].
    apply andb_true_iff in H as [Hc H]. rewrite Hc, forallb_app, H.
    reflexivity.
  - exfalso. assert (N : In "<"%char (lit "...")).
    { rewrite E2. apply in_or_app. right. now left. }
    simpl in N. repeat (destruct N as [N|N]; [discriminate N|]). exact N.
Qed.

(** X22. An excerpt is plain text: whatever the HTML and the length
    asked for, the text [_extract_excerpt] returns has no tag left, that
    is no match of [<[^>]+>]. *)
Theorem excerpt_has_no_tag (html_content : str) (max_length : Z) :
  ~ has_tag (Confluence._extract_excerpt html_content max_length).
Proof.
  apply tag_free_no_tag. unfold Confluence._extract_excerpt.
  set (text := strip_spaces
                 (Confluence.sub_spaces false
                    (Confluence.sub_tags false html_content))).
  assert (H : tag_free text).
  { apply strip_spaces_tag_free, sub_spaces_tag_free, sub_tags_tag_free. }
  destruct (max_length <? Z.of_nat (List.length text))%Z; [|exact H].
  apply tag_free_ellipsis.
  destruct (before_last_space_prefix (slice_to max_length text)) as [q Hq].
  apply tag_free_prefix with (q := q). rewrite <- Hq.
  destruct (slice_to_prefix max_length text) as [q' Hq'].
  apply tag_free_prefix with (q := q'). now rewrite <- Hq'.
Qed.

